(** * YasDa service backend: a shallow embedding of [server.js]

    The server is an Express application that validates submitted forms,
    appends them to JSON files and sends best-effort SMS notifications.
    The development has three layers:

    - [JSNumber] and [JS]: the fragment of the ECMAScript value semantics
      that the handlers rely on (IEEE-754 doubles and their decimal text,
      truthiness, property reads, [ToString], [ToNumber], the JSON
      serialisation round trip);
    - the store engine and the notification helper, as functions over an
      explicit world of files and logged events;
    - the route handlers, one function each.

    Strings are byte strings holding the UTF-8 encoding of the JavaScript
    string.  Every pattern the source matches is ASCII, so the byte view and
    the UTF-16 view agree on them.

    What lies outside the process is explicit: the files of the data
    directory (a file's text being identified with what [JSON.parse] makes of
    it), the environment variables, the identifier and the instant the
    request obtains, and the provider's verdict on a message.  A handler is a
    function from the world to an outcome and a world; an outcome is a value
    or a thrown error, and a handler that throws has sent no response of its
    own.  The two notification tasks of a submission are started in the order
    of the source and observed once both have settled.  Writing into the data
    directory is taken to succeed.

    Two libraries decide what the source leaves open.  The constructor of the
    provider's client throws unless the account SID starts with [AC].
    Express (version 4) does not await the promise of an asynchronous
    handler: when the handler throws, the request stays unanswered and the
    rejection reaches the [unhandledRejection] hook of the process. *)

From Stdlib Require Import ZArith String Ascii List Lia Bool.
From Stdlib Require Import Floats.SpecFloat DecimalString.
From stdpp Require Import gmap strings list.

Local Open Scope string_scope.
Local Open Scope Z_scope.
Local Open Scope list_scope.

(** ** Characters and small string utilities *)

Definition code (c : ascii) : N := N_of_ascii c.

Definition is_digit (c : ascii) : bool :=
  ((48 <=? code c) && (code c <=? 57))%N.

Fixpoint startsWith (prefix s : string) : bool :=
  match prefix, s with
  | EmptyString, _ => true
  | String a p, String b r => Ascii.eqb a b && startsWith p r
  | String _ _, EmptyString => false
  end.

Fixpoint string_filter (p : ascii -> bool) (s : string) : string :=
  match s with
  | EmptyString => EmptyString
  | String c r => if p c then String c (string_filter p r) else string_filter p r
  end.

Fixpoint string_forall (p : ascii -> bool) (s : string) : bool :=
  match s with
  | EmptyString => true
  | String c r => p c && string_forall p r
  end.

Definition string_rev (s : string) : string :=
  string_of_list_ascii (rev (list_ascii_of_string s)).

Definition is_empty (s : string) : bool :=
  match s with EmptyString => true | _ => false end.

(** [s] between double quotes. *)
Definition quoted (s : string) : string :=
  String "034" (s +:+ String "034" EmptyString).

(** [Array.prototype.join] on already converted pieces. *)
Fixpoint join (sep : string) (l : list string) : string :=
  match l with
  | [] => ""
  | [x] => x
  | x :: r => x +:+ sep +:+ join sep r
  end.

(** ** IEEE-754 doubles

    A JavaScript Number is a binary64 value; [spec_float] is the Standard
    Library's inductive description of one.  Conversions from and to decimal
    text follow ECMA-262 (StringToNumber and Number::toString). *)

Module JSNumber.

Definition prec : Z := 53.
Definition emax : Z := 1024.

Definition number : Type := spec_float.

Definition NaN : number := S754_nan.
Definition pos_zero : number := S754_zero false.

Definition isNaN (x : number) : bool :=
  match x with S754_nan => true | _ => false end.

(** [Number.isFinite] on a value that already is a Number. *)
Definition isFinite (x : number) : bool :=
  match x with
  | S754_zero _ | S754_finite _ _ _ => true
  | S754_infinity _ | S754_nan => false
  end.

Definition is_zero (x : number) : bool :=
  match x with S754_zero _ => true | _ => false end.

(** [x <= y] and [x > y] on Numbers; both are false when an operand is NaN. *)
Definition le (x y : number) : bool := SFleb x y.
Definition gt (x y : number) : bool := SFltb y x.

(** The double nearest to the integer [z]. *)
Definition of_Z (z : Z) : number := binary_normalize prec emax z 0 false.

(** The double nearest to [(-1)^neg * m * 10^e], ties to even. *)
Definition of_decimal (neg : bool) (m : Z) (e : Z) : number :=
  match m with
  | Zpos p =>
      if 0 <=? e
      then binary_normalize prec emax
             (if neg then - (Zpos p * 10 ^ e) else Zpos p * 10 ^ e) 0 neg
      else SFdiv prec emax (S754_finite neg p 0)
                           (S754_finite false (Z.to_pos (10 ^ (- e))) 0)
  | _ => S754_zero neg
  end.

(** *** StringToNumber *)

Definition ws1 (a : N) : bool :=
  ((9 <=? a) && (a <=? 13) || (a =? 32))%N.

(** U+00A0 *)
Definition ws2 (a b : N) : bool := ((a =? 194) && (b =? 160))%N.

(** U+1680, U+2000..U+200A, U+2028, U+2029, U+202F, U+205F, U+3000, U+FEFF *)
Definition ws3 (a b c : N) : bool :=
  ((a =? 225) && (b =? 154) && (c =? 128)
   || (a =? 226) && (b =? 128)
      && ((128 <=? c) && (c <=? 138) || (c =? 168) || (c =? 169) || (c =? 175))
   || (a =? 226) && (b =? 129) && (c =? 159)
   || (a =? 227) && (b =? 128) && (c =? 128)
   || (a =? 239) && (b =? 187) && (c =? 191))%N.

(** Drops leading white space; with [back] the string is read backwards, so
    the bytes of a multi-byte character arrive last byte first. *)
Fixpoint trim_front (back : bool) (s : string) : string :=
  match s with
  | EmptyString => s
  | String c1 r1 =>
      if ws1 (code c1) then trim_front back r1 else
      match r1 with
      | EmptyString => s
      | String c2 r2 =>
          if (if back then ws2 (code c2) (code c1) else ws2 (code c1) (code c2))
          then trim_front back r2 else
          match r2 with
          | EmptyString => s
          | String c3 r3 =>
              if (if back then ws3 (code c3) (code c2) (code c1)
                  else ws3 (code c1) (code c2) (code c3))
              then trim_front back r3 else s
          end
      end
  end.

Definition trim (s : string) : string :=
  string_rev (trim_front true (string_rev (trim_front false s))).

(** Longest prefix of characters satisfying [p], and the rest. *)
Fixpoint span (p : ascii -> bool) (s : string) : string * string :=
  match s with
  | EmptyString => (EmptyString, EmptyString)
  | String c r =>
      if p c then let '(a, b) := span p r in (String c a, b)
      else (EmptyString, s)
  end.

Definition hex_value (c : ascii) : option Z :=
  let a := code c in
  if ((48 <=? a) && (a <=? 57))%N then Some (Z.of_N a - 48)
  else if ((97 <=? a) && (a <=? 102))%N then Some (Z.of_N a - 87)
  else if ((65 <=? a) && (a <=? 70))%N then Some (Z.of_N a - 55)
  else None.

(** Value of a digit string in [radix]; [None] on a digit out of range or on
    the empty string. *)
Fixpoint radix_value (radix : Z) (acc : Z) (s : string) : option Z :=
  match s with
  | EmptyString => Some acc
  | String c r =>
      match hex_value c with
      | Some d => if d <? radix then radix_value radix (radix * acc + d) r else None
      | None => None
      end
  end.

Definition digits_value (s : string) : Z :=
  match radix_value 10 0 s with Some z => z | None => 0 end.

Definition parse_radix (radix : Z) (s : string) : option Z :=
  if is_empty s then None else radix_value radix 0 s.

Definition radix_of_prefix (c : ascii) : option Z :=
  let a := code c in
  if ((a =? 120) || (a =? 88))%N then Some 16
  else if ((a =? 111) || (a =? 79))%N then Some 8
  else if ((a =? 98) || (a =? 66))%N then Some 2
  else None.

(** A sign, if any, and the rest. *)
Definition split_sign (s : string) : bool * string :=
  match s with
  | String "+" r => (false, r)
  | String "-" r => (true, r)
  | _ => (false, s)
  end.

Definition is_exp_mark (c : ascii) : bool := ((code c =? 101) || (code c =? 69))%N.

(** StrUnsignedDecimalLiteral without [Infinity]: mantissa and power of ten. *)
Definition parse_decimal (s : string) : option (Z * Z) :=
  let '(ip, r1) := span is_digit s in
  let '(fp, r2) :=
    match r1 with
    | String "." r => span is_digit r
    | _ => (EmptyString, r1)
    end in
  if is_empty ip && is_empty fp then None else
  let m := digits_value (ip +:+ fp) in
  let scale := - Z.of_nat (String.length fp) in
  match r2 with
  | EmptyString => Some (m, scale)
  | String c r3 =>
      if is_exp_mark c then
        let '(neg, r4) := split_sign r3 in
        let '(ep, r5) := span is_digit r4 in
        if is_empty ep || negb (is_empty r5) then None
        else Some (m, scale + (if neg then - digits_value ep else digits_value ep))
      else None
  end.

Definition string_to_number (s : string) : number :=
  let t := trim s in
  match t with
  | EmptyString => pos_zero
  | String "0" (String c r) =>
      match radix_of_prefix c with
      | Some radix =>
          match parse_radix radix r with
          | Some z => of_Z z
          | None => NaN
          end
      | None =>
          match parse_decimal t with
          | Some (m, e) => of_decimal false m e
          | None => NaN
          end
      end
  | _ =>
      let '(neg, u) := split_sign t in
      if String.eqb u "Infinity" then S754_infinity neg else
      match parse_decimal u with
      | Some (m, e) => of_decimal neg m e
      | None => NaN
      end
  end.

(** *** Number::toString (radix 10) *)

Definition string_of_Z (z : Z) : string :=
  NilZero.string_of_uint (N.to_uint (Z.to_N z)).

Fixpoint decimal_length (fuel : nat) (z : Z) : Z :=
  match fuel with
  | O => 1
  | S f => if z <? 10 then 1 else 1 + decimal_length f (z / 10)
  end.

(** Least [j >= 1] with [p * 10^j >= q], searched up to [fuel]. *)
Fixpoint first_scale (fuel : nat) (p q : Z) (j : Z) : Z :=
  match fuel with
  | O => j
  | S f => if q <=? p * 10 ^ j then j else first_scale f p q (j + 1)
  end.

(** The [n] of ECMA-262 with [10^(n-1) <= p/q < 10^n]. *)
Definition decimal_exponent (p q : Z) : Z :=
  if q <=? p then decimal_length (S (Z.to_nat (Z.log2 p))) (p / q)
  else 1 - first_scale 400 p q 1.

(** Shortest digit string [s] (as an integer with [k] digits) and exponent
    [n] such that [s * 10^(n-k)] reads back as [x]; [x = p/q] is positive. *)
Fixpoint shortest (fuel : nat) (x : number) (p q n0 : Z) (k : Z) : Z * Z * Z :=
  let t := n0 - k in
  let lo := if 0 <=? t then p / (q * 10 ^ t) else (p * 10 ^ (- t)) / q in
  let hi := lo + 1 in
  let ok (c : Z) := match SFcompare (of_decimal false c t) x with
                    | Some Eq => true | _ => false end in
  (* is [lo] at least as close to [x] as [hi]?  ties go to the even one *)
  let lo_closer :=
    let twice_x_num := if 0 <=? t then 2 * p else 2 * p * 10 ^ (- t) in
    let mid_num := if 0 <=? t then (lo + hi) * 10 ^ t * q else (lo + hi) * q in
    match twice_x_num ?= mid_num with
    | Lt => true | Gt => false | Eq => Z.even lo
    end in
  let pick (c : Z) := if c =? 10 ^ k then (10 ^ (k - 1), k, n0 + 1) else (c, k, n0) in
  match fuel with
  | O => pick (if lo_closer then lo else hi)
  | S f =>
      match ok lo, ok hi with
      | true, true => pick (if lo_closer then lo else hi)
      | true, false => pick lo
      | false, true => pick hi
      | false, false => shortest f x p q n0 (k + 1)
      end
  end.

Fixpoint zeros (n : nat) : string :=
  match n with O => "" | S m => String "0" (zeros m) end.

Definition format_decimal (s k n : Z) : string :=
  let digits := string_of_Z s in
  if (k <=? n) && (n <=? 21) then digits +:+ zeros (Z.to_nat (n - k))
  else if (0 <? n) && (n <=? 21) then
    substring 0 (Z.to_nat n) digits +:+ "." +:+
    substring (Z.to_nat n) (Z.to_nat (k - n)) digits
  else if (-6 <? n) && (n <=? 0) then "0." +:+ zeros (Z.to_nat (- n)) +:+ digits
  else
    let e := n - 1 in
    let mark := if 0 <=? e then "e+" else "e-" in
    if k =? 1 then digits +:+ mark +:+ string_of_Z (Z.abs e)
    else substring 0 1 digits +:+ "." +:+ substring 1 (Z.to_nat (k - 1)) digits
         +:+ mark +:+ string_of_Z (Z.abs e).

Definition positive_to_string (m : positive) (e : Z) : string :=
  let x := binary_round prec emax false m e in
  match x with
  | S754_finite _ m' e' =>
      let '(p, q) := if 0 <=? e' then (Zpos m' * 2 ^ e', 1)
                     else (Zpos m', 2 ^ (- e')) in
      let '(s, k, n) := shortest 17 x p q (decimal_exponent p q) 1 in
      format_decimal s k n
  | S754_infinity _ => "Infinity"
  | _ => "0"
  end.

Definition number_to_string (x : number) : string :=
  match x with
  | S754_nan => "NaN"
  | S754_zero _ => "0"
  | S754_infinity s => if s then "-Infinity" else "Infinity"
  | S754_finite s m e =>
      if s then "-" +:+ positive_to_string m e else positive_to_string m e
  end.

End JSNumber.

(** ** JavaScript values

    What [JSON.parse] and the body parsers hand to the handlers, plus
    [undefined] for a property that is not there. *)

Module JS.

Import JSNumber.

#[warnings="-register-all"]
Inductive value : Type :=
  | VUndefined
  | VNull
  | VBool (b : bool)
  | VNum (x : number)
  | VStr (s : string)
  | VArr (items : list value)
  | VObj (props : list (string * value)).

(** Own properties of an object, in insertion order. *)
Fixpoint assoc (k : string) (ps : list (string * value)) : option value :=
  match ps with
  | [] => None
  | (k', v) :: r => if String.eqb k k' then Some v else assoc k r
  end.

Definition has_own (k : string) (ps : list (string * value)) : bool :=
  match assoc k ps with Some _ => true | None => false end.

(** [o[k] = v] on the property list: replaces in place or appends. *)
Fixpoint obj_set (k : string) (v : value) (ps : list (string * value))
  : list (string * value) :=
  match ps with
  | [] => [(k, v)]
  | (k', v') :: r =>
      if String.eqb k k' then (k, v) :: r else (k', v') :: obj_set k v r
  end.

(** [{...o, k1: v1, ..., kn: vn}] *)
Definition spread (o : value) (more : list (string * value)) : value :=
  match o with
  | VObj ps => VObj (fold_left (fun acc kv => obj_set kv.1 kv.2 acc) more ps)
  | _ => VObj (fold_left (fun acc kv => obj_set kv.1 kv.2 acc) more [])
  end.

(** ToBoolean *)
Definition truthy (v : value) : bool :=
  match v with
  | VUndefined | VNull => false
  | VBool b => b
  | VNum x => negb (isNaN x || is_zero x)
  | VStr s => negb (is_empty s)
  | VArr _ | VObj _ => true
  end.

Definition nullish (v : value) : bool :=
  match v with VUndefined | VNull => true | _ => false end.

(** [a || b] *)
Definition or_else (a b : value) : value := if truthy a then a else b.

(** [a ?? b] *)
Definition coalesce (a b : value) : value := if nullish a then b else a.

(** [v.k] for a property name that is neither an array index, [length], nor
    inherited from a prototype: true of every name the source reads.  [None]
    is the TypeError raised on [undefined] and [null]. *)
Definition get (v : value) (k : string) : option value :=
  match v with
  | VUndefined | VNull => None
  | VObj ps => Some (default VUndefined (assoc k ps))
  | _ => Some VUndefined
  end.

(** [const { k } = v] once [v] is known not to be nullish. *)
Definition field (v : value) (k : string) : value :=
  default VUndefined (get v k).

(** [v === s] for a string [s] *)
Definition is_string (s : string) (v : value) : bool :=
  match v with VStr s' => String.eqb s' s | _ => false end.

Definition isArray (v : value) : bool :=
  match v with VArr _ => true | _ => false end.

(** The elements of an array; [length (items_of v)] is [v.length]. *)
Definition items_of (v : value) : list value :=
  match v with VArr items => items | _ => [] end.

(** ToString.  [None] is the TypeError of OrdinaryToPrimitive: an object whose
    own [toString] property shadows [Object.prototype.toString] with something
    that cannot be called (JSON has no functions) has no primitive value. *)
Fixpoint to_string (v : value) : option string :=
  match v with
  | VUndefined => Some "undefined"
  | VNull => Some "null"
  | VBool b => Some (if b then "true" else "false")
  | VNum x => Some (number_to_string x)
  | VStr s => Some s
  | VArr items =>
      (fix pieces (l : list value) (acc : list string) : option string :=
         match l with
         | [] => Some (join "," (rev acc))
         | x :: r =>
             match (if nullish x then Some "" else to_string x) with
             | Some s => pieces r (s :: acc)
             | None => None
             end
         end) items []
  | VObj ps => if has_own "toString" ps then None else Some "[object Object]"
  end.

(** ToNumber, the [Number(v)] of the source. *)
Definition to_number (v : value) : option number :=
  match v with
  | VUndefined => Some NaN
  | VNull => Some pos_zero
  | VBool b => Some (if b then of_Z 1 else pos_zero)
  | VNum x => Some x
  | VStr s => Some (string_to_number s)
  | VArr _ | VObj _ => string_to_number <$> to_string v
  end.

(** [JSON.parse (JSON.stringify v)]: what a value looks like once it has been
    written out and read back.  Properties holding [undefined] are dropped,
    [undefined] in an array and the non-finite numbers become [null], and the
    sign of zero is lost. *)
Definition json_number (x : number) : value :=
  if isFinite x then VNum (if is_zero x then pos_zero else x) else VNull.

Fixpoint json_roundtrip (v : value) : value :=
  match v with
  | VNum x => json_number x
  | VArr items =>
      VArr (map (fun x => match x with
                          | VUndefined => VNull
                          | _ => json_roundtrip x
                          end) items)
  | VObj ps =>
      VObj ((fix props (l : list (string * value)) : list (string * value) :=
               match l with
               | [] => []
               | (k, x) :: r =>
                   match x with
                   | VUndefined => props r
                   | _ => (k, json_roundtrip x) :: props r
                   end
               end) ps)
  | _ => v
  end.

(** An array element as it is serialised. *)
Definition json_item (x : value) : value :=
  match x with VUndefined => VNull | _ => json_roundtrip x end.

Fixpoint json_props (l : list (string * value)) : list (string * value) :=
  match l with
  | [] => []
  | (k, x) :: r =>
      match x with
      | VUndefined => json_props r
      | _ => (k, json_roundtrip x) :: json_props r
      end
  end.

(** A value that serialisation leaves as it is: everything the server reads
    back from a file it wrote itself. *)
Definition json_clean (v : value) : Prop := json_roundtrip v = v.

End JS.

Import JSNumber JS.

(** ** The world the server runs in *)

(** The text of a file, identified with what [JSON.parse] makes of it:
    [None] when the text is not JSON. *)
Definition text : Type := option value.

Inductive file : Type :=
  | Unreadable (code : string)   (* [fs.readFile] fails with this error code *)
  | Text (t : text).

Inductive exn : Type :=
  | TypeError
  | SyntaxError
  | SystemError (code : string)
  | ClientError      (* thrown by the constructor of the provider's client *)
  | ProviderError.   (* the provider turned the message down *)

(** What the process does that is visible from outside, besides its files and
    its HTTP responses. *)
Inductive event : Type :=
  | Warn (msg : string)       (* [console.warn]; a caught error's text is left out *)
  | MessagesCreate (from to body : string).   (* [client.messages.create] *)

(** Files of [DATA_DIR], by name, and the events so far (oldest first). *)
Record world : Type := World {
  files : gmap string file;
  trace : list event;
}.

Inductive result (A : Type) : Type :=
  | Ok (a : A)
  | Throw (e : exn).
Arguments Ok {A} a.
Arguments Throw {A} e.

(** An asynchronous function run to completion: it returns or throws, and
    the effects it had before throwing stay. *)
Definition M (A : Type) : Type := world -> result A * world.

#[export] Instance M_ret : MRet M := fun A a w => (Ok a, w).

#[export] Instance M_bind : MBind M := fun A B f m w =>
  match m w with
  | (Ok a, w') => f a w'
  | (Throw e, w') => (Throw e, w')
  end.

Definition throw {A : Type} (e : exn) : M A := fun w => (Throw e, w).

(** [try { body } catch (err) { handler }] *)
Definition try_catch {A : Type} (body : M A) (handler : exn -> M A) : M A :=
  fun w =>
    match body w with
    | (Ok a, w') => (Ok a, w')
    | (Throw e, w') => handler e w'
    end.

(** A started task observed when it has settled, as [Promise.all] does. *)
Definition settle {A : Type} (task : M A) : M (result A) :=
  fun w => let '(r, w') := task w in (Ok r, w').

(** A partial operation of the language, [None] being its TypeError. *)
Definition lift {A : Type} (o : option A) : M A :=
  match o with Some a => mret a | None => throw TypeError end.

(** A synchronous call inside an asynchronous function: its value, or what it
    throws. *)
Definition of_result {A : Type} (r : result A) : M A := fun w => (r, w).

Definition emit (e : event) : M unit :=
  fun w => (Ok tt, World (files w) (trace w ++ [e])).

Definition console_warn (msg : string) : M unit := emit (Warn msg).

(** What the surroundings of the process supply: the environment variables,
    the value [randomUUID()] returns for this request, the instant
    [new Date().toISOString()] reads, and whether the SMS provider accepts a
    message. *)
Record runtime : Type := Runtime {
  env : gmap string string;
  randomUUID : string;
  toISOString : string;
  provider_accepts : string -> string -> string -> bool;
}.

(** [process.env.NAME || fallback] *)
Definition env_or (rt : runtime) (name fallback : string) : string :=
  match env rt !! name with
  | Some v => if is_empty v then fallback else v
  | None => fallback
  end.

(** [process.env.NAME] *)
Definition env_value (rt : runtime) (name : string) : value :=
  match env rt !! name with Some v => VStr v | None => VUndefined end.

(** ** Store engine *)

Inductive store : Type :=
  | appointments | spares | feedback | contacts | customerRecords.

#[export] Instance store_eq_dec : EqDecision store.
Proof. solve_decision. Defined.

Definition STORE_FILES (key : store) : string :=
  match key with
  | appointments => "appointments.json"
  | spares => "spares.json"
  | feedback => "feedback.json"
  | contacts => "contacts.json"
  | customerRecords => "customer-records.json"
  end.

(** [fs.readFile]: a missing file is the error ENOENT. *)
Definition readFile (filePath : string) : M text := fun w =>
  match files w !! filePath with
  | None => (Throw (SystemError "ENOENT"), w)
  | Some (Unreadable code) => (Throw (SystemError code), w)
  | Some (Text t) => (Ok t, w)
  end.

(** [fs.writeFile] into the data directory, which exists from start-up on. *)
Definition writeFile (filePath : string) (payload : text) : M unit := fun w =>
  (Ok tt, World (<[filePath := Text payload]> (files w)) (trace w)).

Definition JSON_parse (raw : text) : M value :=
  match raw with Some v => mret v | None => throw SyntaxError end.

(** [JSON.stringify] of [undefined] is [undefined], not a text. *)
Definition JSON_stringify (data : value) : option text :=
  match data with
  | VUndefined => None
  | _ => Some (Some (json_roundtrip data))
  end.

Definition err_code (e : exn) : option string :=
  match e with SystemError c => Some c | _ => None end.

Definition writeJson (filePath : string) (data : value) : M unit :=
  payload ← lift (JSON_stringify data);
  writeFile filePath payload.

Definition readJson (filePath : string) (fallback : value) : M value :=
  try_catch
    (raw ← readFile filePath;
     data ← JSON_parse raw;
     mret (coalesce data fallback))
    (fun err =>
       if bool_decide (err_code err = Some "ENOENT") then
         writeJson filePath fallback;;
         mret fallback
       else throw err).

Definition loadStore (key : store) : M value :=
  readJson (STORE_FILES key) (VArr []).

Definition saveStore (key : store) (data : value) : M unit :=
  writeJson (STORE_FILES key) data.

(** [records.push(record)]: only an array has [push]. *)
Definition push (records record : value) : M value :=
  match records with
  | VArr items => mret (VArr (items ++ [record]))
  | _ => throw TypeError
  end.

Definition addRecord (key : store) (record : value) : M value :=
  records ← loadStore key;
  records ← push records record;
  saveStore key records;;
  mret record.

(** The sequence [loadStore] returns, when it returns one. *)
Definition stored (w : world) (key : store) : option (list value) :=
  match (loadStore key w).1 with
  | Ok (VArr items) => Some items
  | _ => None
  end.

(** ** HTTP responses *)

Record response : Type := Response {
  status : Z;
  body : value;
}.

(** [res.status(s).json(v)]: the body goes out serialised. *)
Definition res_json (s : Z) (v : value) : response :=
  Response s (json_roundtrip v).

Definition respondError (s : Z) (message : string) : response :=
  res_json s (VObj [("ok", VBool false); ("message", VStr message)]).

(** A template literal converts each substitution with ToString. *)
Definition text_of (v : value) : M string := lift (to_string v).

(** [records.map(f)] and [records.filter(p)] with callbacks that may throw;
    only an array has these methods. *)
Fixpoint map_items {A : Type} (f : value -> M A) (l : list value) : M (list A) :=
  match l with
  | [] => mret []
  | x :: r => y ← f x; ys ← map_items f r; mret (y :: ys)
  end.

Fixpoint filter_items (p : value -> M bool) (l : list value) : M (list value) :=
  match l with
  | [] => mret []
  | x :: r =>
      keep ← p x;
      ys ← filter_items p r;
      mret (if (keep : bool) then x :: ys else ys)
  end.

Definition array_map {A : Type} (f : value -> M A) (records : value) : M (list A) :=
  match records with
  | VArr items => map_items f items
  | _ => throw TypeError
  end.

Definition array_filter (p : value -> M bool) (records : value) : M (list value) :=
  match records with
  | VArr items => filter_items p items
  | _ => throw TypeError
  end.

(** ** Notification helper *)

(** [/[^0-9]/g] replaced by the empty string *)
Definition strip_non_digits (s : string) : string := string_filter is_digit s.

(** Greedy [\d{0,max}]: how many digits were taken, and what follows. *)
Fixpoint take_digits (max : nat) (s : string) : nat * string :=
  match max, s with
  | S m, String c r =>
      if is_digit c then let '(n, rest) := take_digits m r in (S n, rest)
      else (O, s)
  | _, _ => (O, s)
  end.

(** [/^\+\d{10,15}$/.test(s)] *)
Definition test_plus_digits (s : string) : bool :=
  match s with
  | String "+" r =>
      let '(n, rest) := take_digits 15 r in
      (10 <=? n)%nat && is_empty rest
  | _ => false
  end.

(** [twilio(sid, token)] with both arguments non-empty: the constructor of the
    provider's library throws unless the account SID starts with [AC]. *)
Definition twilio (sid token : string) : result (string * string) :=
  if startsWith "AC" sid then Ok (sid, token) else Throw ClientError.

(** When a rejected task is rejected: at once if it threw before its first
    [await] (a TypeError, the constructor's error), and only when the provider
    has answered if the message was turned down. *)
Definition rejected_late (e : exn) : bool :=
  match e with ProviderError => true | _ => false end.

Definition rejected_early (e : exn) : bool := negb (rejected_late e).

(** The first task, in the order of the array, rejected with an error of the
    given kind. *)
Fixpoint first_rejection (kind : exn -> bool) (tasks : list (result unit))
  : option exn :=
  match tasks with
  | [] => None
  | Ok _ :: r => first_rejection kind r
  | Throw e :: r => if kind e then Some e else first_rejection kind r
  end.

Section Server.

Variable rt : runtime.

(** [null] without both credentials, else what the constructor makes of
    them. *)
Definition getTwilioClient : result (option (string * string)) :=
  match env rt !! "TWILIO_SID", env rt !! "TWILIO_AUTH" with
  | Some sid, Some token =>
      if is_empty sid || is_empty token then Ok None
      else match twilio sid token with
           | Ok client => Ok (Some client)
           | Throw e => Throw e
           end
  | _, _ => Ok None
  end.

(** [client.messages.create({ from, to, body })] *)
Definition messages_create (from to body : string) : M unit :=
  emit (MessagesCreate from to body);;
  if provider_accepts rt from to body then mret tt else throw ProviderError.

(** The number the message goes to: [to] itself when it starts with [+],
    else the default country code followed by the digits of [to]. *)
Definition normalize_to (to : string) : string :=
  if negb (startsWith "+" to)
  then env_or rt "DEFAULT_COUNTRY_CODE" "+91" +:+ strip_non_digits to
  else to.

Definition sendSms (to : value) (body : string) : M unit :=
  client ← of_result getTwilioClient;
  match client, env rt !! "TWILIO_PHONE" with
  | Some client, Some from =>
      if is_empty from then
        console_warn "SMS service not configured. Skipping SMS."
      else
        match to with
        | VStr to =>
            let to := normalize_to to in
            if negb (test_plus_digits to) then
              console_warn ("Invalid phone number " +:+ quoted to +:+ ". Skipping SMS.")
            else messages_create from to body
        | _ => throw TypeError          (* [to.startsWith] is not a function *)
        end
  | _, _ => console_warn "SMS service not configured. Skipping SMS."
  end.

(** [Promise.all]: rejected with the rejection that settles first, so a task
    rejected at once wins over one the provider rejects later.  Rejections by
    the provider all carry the same error here, whichever comes first. *)
Definition promise_all (tasks : list (result unit)) : M unit :=
  match first_rejection rejected_early tasks with
  | Some e => throw e
  | None =>
      match first_rejection rejected_late tasks with
      | Some e => throw e
      | None => mret tt
      end
  end.

Definition notifyCustomerAndAdmin (customerPhone adminPhone : value) (body : string)
  : M unit :=
  smsTasks ← (if truthy customerPhone
              then t ← settle (sendSms customerPhone body); mret [t]
              else mret ([] : list (result unit)));
  smsTasks ← (if truthy adminPhone
              then t ← settle (sendSms adminPhone ("[ADMIN] " +:+ body));
                   mret (smsTasks ++ [t])
              else mret smsTasks);
  match smsTasks with
  | [] => console_warn "SMS recipients are not configured. Skipping notifications."
  | _ => promise_all smsTasks
  end.

(** ** Route handlers *)

Definition ok_true : value := VObj [("ok", VBool true)].

(** GET /api/health *)
Definition getHealth : response := res_json 200 ok_true.

(** POST /api/login *)
Definition postLogin (reqBody : value) : response :=
  let b := or_else reqBody (VObj []) in
  let username := field b "username" in
  let password := field b "password" in
  let adminUser := env_or rt "ADMIN_USER" "admin" in
  let adminPass := env_or rt "ADMIN_PASS" "admin123" in
  if negb (truthy username) || negb (truthy password) then
    respondError 400 "Missing username or password."
  else if negb (is_string adminUser username) || negb (is_string adminPass password) then
    respondError 401 "Invalid credentials."
  else res_json 200 ok_true.

(** The record both submission handlers build before the type-specific
    fields are added. *)
Definition customer_record (type : string) (name phone address : value)
    (details : string) : value :=
  VObj [("id", VStr (randomUUID rt)); ("type", VStr type); ("name", name);
        ("phone", phone); ("address", address); ("details", VStr details);
        ("createdAt", VStr (toISOString rt))].

(** POST /api/appointments *)
Definition postAppointments (reqBody : value) : M response :=
  let b := or_else reqBody (VObj []) in
  let name := field b "name" in
  let phone := field b "phone" in
  let address := field b "address" in
  let vehicle := field b "vehicle" in
  let issue := field b "issue" in
  if negb (truthy name) || negb (truthy phone) || negb (truthy address)
     || negb (truthy vehicle) || negb (truthy issue) then
    mret (respondError 400 "All appointment fields are required.")
  else
    v ← text_of vehicle;
    i ← text_of issue;
    let record :=
      customer_record "Appointment" name phone address
        ("Vehicle: " +:+ v +:+ " | Issue: " +:+ i) in
    addRecord appointments (spread record [("vehicle", vehicle); ("issue", issue)]);;
    addRecord customerRecords record;;
    try_catch
      (n ← text_of name;
       v ← text_of vehicle;
       i ← text_of issue;
       notifyCustomerAndAdmin phone (env_value rt "ADMIN_PHONE")
         ("Hi " +:+ n +:+ ", your appointment is confirmed. Vehicle: " +:+ v
          +:+ ". Issue: " +:+ i +:+ "."))
      (fun err => console_warn "Appointment notification failed:");;
    mret (res_json 200 (VObj [("ok", VBool true); ("record", record)])).

(** One element of [partsSummary]. *)
Definition part_summary (part : value) : M string :=
  name ← lift (get part "name");
  name ← text_of (or_else name (VStr "Part"));
  qty ← lift (get part "qty");
  qty ← text_of (or_else qty (VStr "1"));
  amount ← lift (get part "amount");
  amount ← text_of (or_else amount (VStr "0"));
  mret (name +:+ " | Qty: " +:+ qty +:+ " | Amount: " +:+ amount).

(** POST /api/spares *)
Definition postSpares (reqBody : value) : M response :=
  let b := or_else reqBody (VObj []) in
  let name := field b "name" in
  let phone := field b "phone" in
  let address := field b "address" in
  let parts := field b "parts" in
  let total := field b "total" in
  if negb (truthy name) || negb (truthy phone) || negb (truthy address)
     || negb (isArray parts) || (length (items_of parts) =? 0)%nat then
    mret (respondError 400 "Customer details and at least one part are required.")
  else
    summaries ← array_map part_summary parts;
    let partsSummary := join " | " summaries in
    t ← text_of (or_else total (VStr "0"));
    let record :=
      customer_record "Spare Parts" name phone address
        (partsSummary +:+ " | Total: " +:+ t) in
    addRecord spares (spread record [("parts", parts); ("total", total)]);;
    addRecord customerRecords record;;
    try_catch
      (n ← text_of name;
       t ← text_of (or_else total (VStr "0"));
       notifyCustomerAndAdmin phone (env_value rt "ADMIN_PHONE")
         ("Hi " +:+ n +:+ ", your spare parts request was received. Items: "
          +:+ partsSummary +:+ ". Total: " +:+ t +:+ "."))
      (fun err => console_warn "Spare parts notification failed:");;
    mret (res_json 200 (VObj [("ok", VBool true); ("record", record)])).

(** POST /api/feedback *)
Definition postFeedback (reqBody : value) : M response :=
  let b := or_else reqBody (VObj []) in
  let name := field b "name" in
  let message := field b "message" in
  let rating := field b "rating" in
  ratingValue ← lift (to_number rating);
  if negb (truthy name) || negb (truthy message)
     || negb (isFinite ratingValue) || le ratingValue pos_zero then
    mret (respondError 400 "Name, message, and rating are required.")
  else
    let record :=
      VObj [("id", VStr (randomUUID rt)); ("name", name); ("message", message);
            ("rating", VNum ratingValue); ("createdAt", VStr (toISOString rt))] in
    addRecord feedback record;;
    mret (res_json 200 (VObj [("ok", VBool true); ("record", record)])).

(** GET /api/feedback *)
Definition getFeedback : M response :=
  records ← loadStore feedback;
  mret (res_json 200 (VObj [("ok", VBool true); ("records", records)])).

(** POST /api/contact *)
Definition postContact (reqBody : value) : M response :=
  let b := or_else reqBody (VObj []) in
  let name := field b "name" in
  let phone := field b "phone" in
  let message := field b "message" in
  if negb (truthy name) || negb (truthy phone) || negb (truthy message) then
    mret (respondError 400 "All contact fields are required.")
  else
    let record :=
      VObj [("id", VStr (randomUUID rt)); ("name", name); ("phone", phone);
            ("message", message); ("createdAt", VStr (toISOString rt))] in
    addRecord contacts record;;
    mret (res_json 200 ok_true).

(** GET /api/customer-records *)
Definition getCustomerRecords : M response :=
  records ← loadStore customerRecords;
  mret (res_json 200 (VObj [("ok", VBool true); ("records", records)])).

(** [record.id !== id] *)
Definition id_differs (id : string) (record : value) : M bool :=
  rid ← lift (get record "id");
  mret (negb (is_string id rid)).

(** DELETE /api/customer-records/:id *)
Definition deleteCustomerRecord (id : string) : M response :=
  records ← loadStore customerRecords;
  next ← array_filter (id_differs id) records;
  if (length next =? length (items_of records))%nat then
    mret (respondError 404 "Record not found.")
  else
    saveStore customerRecords (VArr next);;
    mret (res_json 200 ok_true).

End Server.

(** ** Handlers that throw *)

(** [process.on(unhandledRejection, ...)] *)
Definition unhandledRejection (err : exn) : M unit :=
  console_warn "Unhandled rejection:".

(** An asynchronous route handler as Express 4 runs it: the promise the
    handler returns is not awaited, so when the handler throws no response is
    sent ([None]) and the rejection reaches the hook. *)
Definition route (handler : M response) : M (option response) :=
  fun w =>
    match handler w with
    | (Ok r, w') => (Ok (Some r), w')
    | (Throw e, w') => (unhandledRejection e;; mret None) w'
    end.

(** * Vocabulary of the statements *)

(** ** Requests and stores *)

(** The field [k] of the request body as the handlers destructure it:
    [undefined] when the body or the field is missing. *)
Definition submitted (reqBody : value) (k : string) : value :=
  field (or_else reqBody (VObj [])) k.

(** The world once the file of [key] holds the sequence [items]. *)
Definition put (key : store) (items : list value) (w : world) : world :=
  World (<[STORE_FILES key := Text (Some (VArr items))]> (files w)) (trace w).

(** Is the file of [key] missing, so that the first load creates it? *)
Definition missing (w : world) (key : store) : bool :=
  match files w !! STORE_FILES key with
  | None => true
  | Some (Unreadable code) => String.eqb code "ENOENT"
  | Some (Text _) => false
  end.

(** The world after [loadStore key] has returned. *)
Definition loaded (key : store) (w : world) : world :=
  if missing w key then put key [] w else w.

(** A computation that leaves every file as it is. *)
Definition quiet {A : Type} (m : M A) : Prop :=
  forall w, exists r tr, m w = (r, World (files w) tr).

(** A computation that, however it ends, leaves alone every file that is not
    the backing file of one of the stores [keys]. *)
Definition frames {A : Type} (keys : list store) (m : M A) : Prop :=
  forall w r w', m w = (r, w') ->
  forall path, (forall key, In key keys -> STORE_FILES key <> path) ->
  files w' !! path = files w !! path.

(** The answer to a request that fails validation. *)
Definition bad_request (message : string) : response :=
  Response 400 (VObj [("ok", VBool false); ("message", VStr message)]).

(** ** Phone numbers *)

(** [+] followed by ten to fifteen digits. *)
Definition plus_digits (s : string) : Prop :=
  exists ds, s = String "+" ds /\ string_forall is_digit ds = true
             /\ (10 <= String.length ds <= 15)%nat.

(** ** Spare-parts summaries *)

(** The text of [v || d]. *)
Definition text_or (v : value) (d : string) : option string :=
  to_string (or_else v (VStr d)).

(** The summary of one part, as a pure function of the part. *)
Definition part_text (part : value) : option string :=
  name ← text_or (field part "name") "Part";
  qty ← text_or (field part "qty") "1";
  amount ← text_or (field part "amount") "0";
  Some (name +:+ " | Qty: " +:+ qty +:+ " | Amount: " +:+ amount).

(** The summary as the specification words it: a default stands in only for
    a property that is absent. *)
Definition absent_or (v : value) (d : string) : value :=
  match v with VUndefined => VStr d | _ => v end.

Definition claimed_part_text (part : value) : option string :=
  name ← to_string (absent_or (field part "name") "Part");
  qty ← to_string (absent_or (field part "qty") "1");
  amount ← to_string (absent_or (field part "amount") "0");
  Some (name +:+ " | Qty: " +:+ qty +:+ " | Amount: " +:+ amount).

Definition claimed_details (parts : list value) (total : value) : option string :=
  texts ← mapM claimed_part_text parts;
  t ← to_string (absent_or total "0");
  Some (join " | " texts +:+ " | Total: " +:+ t).

(** ** Customer records *)

(** Does [record] carry the identifier [id]? *)
Definition has_id (id : string) (record : value) : bool :=
  is_string id (field record "id").

(** "Removes the first record whose identifier matches", as the
    specification words the deletion. *)
Fixpoint remove_first (p : value -> bool) (l : list value) : list value :=
  match l with
  | [] => []
  | x :: r => if p x then r else x :: remove_first p r
  end.

(** ** Sample surroundings, worlds and requests *)

(** A provider is configured; no admin phone, credentials or country code. *)
Definition sample_env : gmap string string :=
  list_to_map [("TWILIO_SID", "ACsample"); ("TWILIO_AUTH", "secret");
               ("TWILIO_PHONE", "+15005550006")].

Definition sample_rt : runtime :=
  Runtime sample_env "0b9f7a52-5d3e-4c1b-9f60-2a6d1c3e8f47" "2024-05-01T10:00:00.000Z"
    (fun _ _ _ => true).

(** No environment variable set at all. *)
Definition bare_rt : runtime :=
  Runtime ∅ "0b9f7a52-5d3e-4c1b-9f60-2a6d1c3e8f47" "2024-05-01T10:00:00.000Z"
    (fun _ _ _ => true).

(** A data directory without files, nothing logged yet. *)
Definition fresh_world : world := World ∅ [].

Definition sample_appointment : value :=
  VObj [("name", VStr "Asha"); ("phone", VStr "9876543210");
        ("address", VStr "12 Main Street"); ("vehicle", VStr "Swift");
        ("issue", VStr "Brake noise")].

Definition sample_spares : value :=
  VObj [("name", VStr "Asha"); ("phone", VStr "9876543210");
        ("address", VStr "12 Main Street");
        ("parts", VArr [VObj [("name", VStr "Brake Pad"); ("qty", VNum (of_Z 2));
                              ("amount", VNum (of_Z 500))]]);
        ("total", VNum (of_Z 1000))].

Definition sample_contact : value :=
  VObj [("name", VStr "Asha"); ("phone", VStr "9876543210");
        ("message", VStr "Please call back")].

(** Feedback from Asha with the given rating. *)
Definition rated (rating : value) : value :=
  VObj [("name", VStr "Asha"); ("message", VStr "Quick service"); ("rating", rating)].

(** A request for brake pads with quantity zero. *)
Definition zero_qty_spares : value :=
  VObj [("name", VStr "Asha"); ("phone", VStr "9876543210");
        ("address", VStr "12 Main Street");
        ("parts", VArr [VObj [("name", VStr "Brake Pad"); ("qty", VNum (of_Z 0));
                              ("amount", VNum (of_Z 500))]]);
        ("total", VNum (of_Z 1000))].

(** A store holding two records with the same identifier and a third one. *)
Definition twin_records : list value :=
  [VObj [("id", VStr "r1"); ("type", VStr "Appointment"); ("name", VStr "Asha")];
   VObj [("id", VStr "r1"); ("type", VStr "Spare Parts"); ("name", VStr "Asha")];
   VObj [("id", VStr "r2"); ("type", VStr "Appointment"); ("name", VStr "Ravi")]].

Definition twin_world : world :=
  World {[ "customer-records.json" := Text (Some (VArr twin_records)) ]} [].

(** An object whose own [toString] is not a function, as the JSON text
    [{"toString": 1}] parses to: it has no text and no number. *)
Definition unprintable : value := VObj [("toString", VNum (of_Z 1))].

Definition nameless_feedback : value :=
  VObj [("message", VStr "Quick service"); ("rating", unprintable)].

Definition odd_feedback : value := rated unprintable.

Definition odd_appointment : value :=
  VObj [("name", VStr "Asha"); ("phone", VStr "9876543210");
        ("address", VStr "12 Main Street"); ("vehicle", unprintable);
        ("issue", VStr "Brake noise")].

(** ** Stores the server wrote *)

Definition is_object (v : value) : bool :=
  match v with VObj _ => true | _ => false end.

(** Records as the server leaves them in a file: objects that serialise to
    themselves. *)
Definition well_kept (records : list value) : Prop :=
  Forall (fun r => is_object r = true /\ json_clean r) records.

(** ** Notifications *)

(** The environment variable is not set, or set to the empty string. *)
Definition unset (rt : runtime) (name : string) : Prop :=
  env rt !! name = None \/ env rt !! name = Some "".

(** [c] is the configured value of a setting: what the environment variable
    holds when it is set to something, the built-in default otherwise. *)
Definition setting (rt : runtime) (name fallback c : string) : Prop :=
  (env rt !! name = Some c /\ c <> "") \/ (unset rt name /\ c = fallback).

(** An event a notification with text [body] may cause: any warning, or a
    message from the configured sender to a well-formed number, carrying the
    text as it is or marked for the administrator. *)
Definition well_addressed (rt : runtime) (body : string) (e : event) : Prop :=
  match e with
  | Warn _ => True
  | MessagesCreate from to b =>
      env rt !! "TWILIO_PHONE" = Some from /\ from <> ""
      /\ plus_digits to
      /\ (b = body \/ b = "[ADMIN] " +:+ body)
  end.

(** ** What a computation does *)

(** A computation that leaves the files alone and adds at most [n] events,
    all of them satisfying [P]. *)
Definition emits {A : Type} (P : event -> Prop) (n : nat) (m : M A) : Prop :=
  forall w r w', m w = (r, w') ->
  files w' = files w
  /\ exists new, trace w' = trace w ++ new /\ (length new <= n)%nat /\ Forall P new.

(** A computation that neither logs nor sends anything. *)
Definition silent {A : Type} (m : M A) : Prop :=
  forall w r w', m w = (r, w') -> trace w' = trace w.

(** A route that never sends a message: when its handler answers, nothing is
    logged; when its handler throws, the request stays unanswered and the
    warning of the hook is all that is logged. *)
Definition hushed (handler : M response) : Prop :=
  forall w r w', route handler w = (r, w') ->
  (exists resp, r = Ok (Some resp) /\ trace w' = trace w)
  \/ (r = Ok None /\ trace w' = trace w ++ [Warn "Unhandled rejection:"]).

(** What a client can observe of a request: the answer and the files. *)
Definition outcome {A : Type} (x : result A * world)
  : result A * gmap string file := (x.1, files x.2).

(** A computation that changes nothing and can only fail with a TypeError. *)
Definition pure_or_type_error {A : Type} (m : M A) : Prop :=
  forall w, (exists a, m w = (Ok a, w)) \/ m w = (Throw TypeError, w).

(** ** Answers *)

(** The envelope of an answer: [ok] is [true] with status 200, and [false]
    with a message text under 400, 401 or 404. *)
Definition enveloped (r : response) : Prop :=
  (status r = 200 /\ field (body r) "ok" = VBool true)
  \/ ((status r = 400 \/ status r = 401 \/ status r = 404)
      /\ field (body r) "ok" = VBool false
      /\ exists message, field (body r) "message" = VStr message).

(** Whenever the handler answers, the answer satisfies [P]. *)
Definition answers (P : response -> Prop) (m : M response) : Prop :=
  forall w r w', m w = (Ok r, w') -> P r.

(** ** More sample worlds and requests *)

(** The feedback file holds an object, not a sequence. *)
Definition object_world : world :=
  World {[ "feedback.json" := Text (Some (VObj [("records", VArr [])])) ]} [].

(** The customer records are not JSON any more; the other files are missing. *)
Definition torn_world : world :=
  World {[ "customer-records.json" := Text None ]} [].


(** An appointment whose name has no text. *)
Definition odd_name_appointment : value :=
  VObj [("name", unprintable); ("phone", VStr "9876543210");
        ("address", VStr "12 Main Street"); ("vehicle", VStr "Swift");
        ("issue", VStr "Brake noise")].

(** Credentials and country code of its own, besides the provider. *)
Definition custom_rt : runtime :=
  Runtime (list_to_map [("TWILIO_SID", "ACsample"); ("TWILIO_AUTH", "secret");
                        ("TWILIO_PHONE", "+15005550006");
                        ("DEFAULT_COUNTRY_CODE", "+1");
                        ("ADMIN_USER", "owner"); ("ADMIN_PASS", "s3cret")])
    "0b9f7a52-5d3e-4c1b-9f60-2a6d1c3e8f47" "2024-05-01T10:00:00.000Z"
    (fun _ _ _ => true).

(** The account SID is set to something the constructor refuses, and no
    sender number is set. *)
Definition bad_sid_rt : runtime :=
  Runtime (list_to_map [("TWILIO_SID", "sid123"); ("TWILIO_AUTH", "secret")])
    "0b9f7a52-5d3e-4c1b-9f60-2a6d1c3e8f47" "2024-05-01T10:00:00.000Z"
    (fun _ _ _ => true).

(** A login whose username is the number 0. *)
Definition zero_user_login : value :=
  VObj [("username", VNum pos_zero); ("password", VStr "admin123")].

(** An appointment whose phone is a JSON number. *)
Definition numeric_phone_appointment : value :=
  VObj [("name", VStr "Asha"); ("phone", VNum (of_Z 9876543210));
        ("address", VStr "12 Main Street"); ("vehicle", VStr "Swift");
        ("issue", VStr "Brake noise")].

(** Two customer records; the first holds a negative zero and a number too
    large for a double, as the texts [-0] and [1e400] parse. *)
Definition unclean_records : list value :=
  [VObj [("id", VStr "a"); ("n", VNum (S754_zero true));
         ("big", VNum (S754_infinity false))];
   VObj [("id", VStr "b")]].

Definition unclean_world : world :=
  World {[ "customer-records.json" := Text (Some (VArr unclean_records)) ]} [].

(** The provider is configured and turns every message down. *)
Definition refusing_rt : runtime :=
  Runtime sample_env "0b9f7a52-5d3e-4c1b-9f60-2a6d1c3e8f47" "2024-05-01T10:00:00.000Z"
    (fun _ _ _ => false).

(** * Properties *)

(** ** The monad *)

Lemma bind_ok {A B : Type} (m : M A) (f : A -> M B) w a w' :
  m w = (Ok a, w') -> (m ≫= f) w = f a w'.
Proof. intros H. unfold mbind, M_bind. now rewrite H. Qed.

Lemma lift_some {A : Type} (o : option A) a w : o = Some a -> lift o w = (Ok a, w).
Proof. now intros ->. Qed.

(** ** Values *)

Lemma json_roundtrip_arr items :
  json_roundtrip (VArr items) = VArr (map json_item items).
Proof. reflexivity. Qed.

Lemma json_roundtrip_obj ps :
  json_roundtrip (VObj ps) = VObj (json_props ps).
Proof. reflexivity. Qed.

Lemma json_item_defined v : nullish v = false -> json_item v = json_roundtrip v.
Proof. now destruct v. Qed.

(** A property that holds a value survives serialisation. *)
Lemma assoc_json_props k ps v :
  assoc k ps = Some v -> v <> VUndefined ->
  assoc k (json_props ps) = Some (json_roundtrip v).
Proof.
  induction ps as [|[k' x] r IH]; simpl; [discriminate|].
  destruct (String.eqb k k') eqn:E.
  - intros [= ->] Hv. destruct v; try congruence; simpl; now rewrite E.
  - intros Hr Hv. destruct x; simpl; rewrite ?E; auto.
Qed.

Lemma assoc_json_props_none k ps :
  assoc k ps = None -> assoc k (json_props ps) = None.
Proof.
  induction ps as [|[k' x] r IH]; simpl; [easy|].
  destruct (String.eqb k k') eqn:E; [discriminate|].
  intros Hr. destruct x; simpl; rewrite ?E; auto.
Qed.

Lemma json_props_cons k v r :
  v <> VUndefined -> json_props ((k, v) :: r) = (k, json_roundtrip v) :: json_props r.
Proof. now destruct v. Qed.

(** Induction on values, with the hypothesis for the elements of an array and
    for the property values of an object. *)
Lemma value_induction (P : value -> Prop) :
  P VUndefined -> P VNull -> (forall b, P (VBool b)) -> (forall x, P (VNum x)) ->
  (forall s, P (VStr s)) ->
  (forall items, Forall P items -> P (VArr items)) ->
  (forall ps, Forall (fun kv => P kv.2) ps -> P (VObj ps)) ->
  forall v, P v.
Proof.
  intros Hu Hn Hb Hx Hs Ha Ho.
  fix IH 1.
  intros [| |b|x|s|items|ps];
    [exact Hu | exact Hn | apply Hb | apply Hx | apply Hs | |].
  - apply Ha. induction items as [|v r IHr]; constructor; [apply IH | exact IHr].
  - apply Ho. induction ps as [|[k v] r IHr]; constructor; [apply IH | exact IHr].
Qed.

Lemma json_roundtrip_undefined v : json_roundtrip v = VUndefined -> v = VUndefined.
Proof.
  destruct v; try discriminate; try reflexivity.
  simpl. unfold json_number. now destruct (isFinite x).
Qed.

(** Serialising twice is serialising once: what the server has written is
    left alone when it is written again. *)
Lemma json_roundtrip_idempotent v : json_clean (json_roundtrip v).
Proof.
  unfold json_clean. induction v as [| |b|x|s|items IH|ps IH] using value_induction;
    try reflexivity.
  - simpl. unfold json_number.
    destruct x as [sg|sg| |sg m e]; reflexivity.
  - rewrite !json_roundtrip_arr. f_equal. rewrite map_map.
    induction IH as [|v r Hv _ IHr]; [reflexivity|]. cbn [map]. f_equal; [|exact IHr].
    destruct v; try reflexivity; try exact Hv.
    simpl. unfold json_number. destruct x as [sg|sg| |sg m e]; reflexivity.
  - rewrite !json_roundtrip_obj. f_equal.
    induction IH as [|[k v] r Hv _ IHr]; [reflexivity|]. cbn [snd] in Hv.
    assert (Hd : v = VUndefined \/ v <> VUndefined)
      by (destruct v; (now left) || (right; discriminate)).
    destruct Hd as [->|Hne]; [exact IHr|].
    rewrite json_props_cons by exact Hne.
    rewrite json_props_cons
      by (intros H; apply Hne; now apply json_roundtrip_undefined).
    now rewrite Hv, IHr.
Qed.

Lemma json_item_clean v : json_clean (json_item v).
Proof. destruct v; try reflexivity; apply json_roundtrip_idempotent. Qed.

Lemma written_items_clean items : Forall json_clean (map json_item items).
Proof.
  induction items as [|v r IH]; constructor; [apply json_item_clean | exact IH].
Qed.

(** ** The language layer at work *)

Example string_to_number_samples :
  map string_to_number ["4.5"; " 12 "; "0x1F"; ""; "-0"; "1e400"; "abc"; "12px"; "."] =
  [S754_finite false 5066549580791808 (-50); of_Z 12; of_Z 31; pos_zero;
   S754_zero true; S754_infinity false; NaN; NaN; NaN].
Proof. vm_compute. reflexivity. Qed.

Example number_to_string_samples :
  map (fun s => number_to_string (string_to_number s))
    ["2"; "500"; "1000"; "4.50"; "0.1"; "1e21"; "1e-7"; "123456789012345680000";
     "0.30000000000000004"; "5e-324"; "1.7976931348623157e308"; "-12.5"] =
  ["2"; "500"; "1000"; "4.5"; "0.1"; "1e+21"; "1e-7"; "123456789012345680000";
   "0.30000000000000004"; "5e-324"; "1.7976931348623157e+308"; "-12.5"].
Proof. vm_compute. reflexivity. Qed.

Example to_string_samples :
  map to_string
    [VUndefined; VNull; VBool true; VStr "Swift"; VArr [VNum (of_Z 1); VNull; VStr "a"];
     VObj [("a", VNull)]; VObj [("toString", VNum (of_Z 1))];
     VArr [VObj [("toString", VStr "x")]]] =
  [Some "undefined"; Some "null"; Some "true"; Some "Swift"; Some "1,,a";
   Some "[object Object]"; None; None].
Proof. vm_compute. reflexivity. Qed.

Example to_number_samples :
  map to_number
    [VUndefined; VNull; VBool true; VBool false; VStr "5"; VArr []; VArr [VStr "7"];
     VArr [VNum (of_Z 1); VNum (of_Z 2)]; VObj []; VObj [("toString", VNum (of_Z 1))]] =
  [Some NaN; Some pos_zero; Some (of_Z 1); Some pos_zero; Some (of_Z 5);
   Some pos_zero; Some (of_Z 7); Some NaN; Some NaN; None].
Proof. vm_compute. reflexivity. Qed.

Example test_plus_digits_samples :
  map test_plus_digits
    ["+919876543210"; "+14155552671"; "+91123"; "919876543210"; "+1234567890123456";
     "+12345 67890"] =
  [true; true; false; false; false; false].
Proof. reflexivity. Qed.

(** ** Store engine *)

Lemma STORE_FILES_inj k k' : STORE_FILES k = STORE_FILES k' -> k = k'.
Proof. destruct k, k'; simpl; congruence. Qed.

Lemma loadStore_cases key w :
  loadStore key w =
  match files w !! STORE_FILES key with
  | None => (Ok (VArr []), put key [] w)
  | Some (Unreadable code) =>
      if String.eqb code "ENOENT" then (Ok (VArr []), put key [] w)
      else (Throw (SystemError code), w)
  | Some (Text None) => (Throw SyntaxError, w)
  | Some (Text (Some data)) => (Ok (if nullish data then VArr [] else data), w)
  end.
Proof.
  unfold loadStore, readJson, try_catch, mbind, M_bind, readFile.
  destruct (files w !! STORE_FILES key) as [[code|[data|]]|] eqn:E; simpl; try reflexivity.
  unfold err_code. destruct (String.eqb code "ENOENT") eqn:D.
  - apply String.eqb_eq in D. subst code.
    rewrite bool_decide_eq_true_2 by reflexivity. reflexivity.
  - apply String.eqb_neq in D.
    rewrite bool_decide_eq_false_2 by congruence. reflexivity.
Qed.

Lemma loadStore_stored key w items :
  stored w key = Some items -> loadStore key w = (Ok (VArr items), loaded key w).
Proof.
  unfold stored, loaded, missing. rewrite loadStore_cases.
  destruct (files w !! STORE_FILES key) as [[code|[data|]]|] eqn:E; simpl; try discriminate.
  - destruct (String.eqb code "ENOENT"); simpl; [|discriminate]. now intros [= <-].
  - destruct data; simpl; try discriminate; try (now intros [= <-]).
  - now intros [= <-].
Qed.

Lemma put_put key a b w : put key a (put key b w) = put key a w.
Proof. unfold put; simpl. now rewrite insert_insert_eq. Qed.

Lemma put_loaded key items w : put key items (loaded key w) = put key items w.
Proof. unfold loaded. destruct (missing w key); [apply put_put | reflexivity]. Qed.

Lemma stored_put_eq key items w : stored (put key items w) key = Some items.
Proof.
  unfold stored. rewrite loadStore_cases. unfold put; simpl.
  now rewrite lookup_insert_eq.
Qed.

Lemma stored_put_ne key key' items w :
  key <> key' -> stored (put key items w) key' = stored w key'.
Proof.
  intros Hne. unfold stored. rewrite !loadStore_cases. unfold put at 1; simpl.
  rewrite lookup_insert_ne by (intros H; apply Hne, STORE_FILES_inj, H).
  destruct (files w !! STORE_FILES key') as [[code|[data|]]|]; simpl; try reflexivity.
  destruct (String.eqb code "ENOENT"); reflexivity.
Qed.

Lemma stored_loaded key key' w : stored (loaded key w) key' = stored w key'.
Proof.
  unfold loaded.
  destruct (missing w key) eqn:Hm; [|reflexivity].
  destruct (decide (key = key')) as [<-|Hne]; [|now apply stored_put_ne].
  rewrite stored_put_eq. unfold stored. rewrite loadStore_cases.
  unfold missing in Hm.
  destruct (files w !! STORE_FILES key) as [[code|t]|]; try discriminate; [|reflexivity].
  now rewrite Hm.
Qed.

Lemma saveStore_arr key items w :
  saveStore key (VArr items) w = (Ok tt, put key (map json_item items) w).
Proof. reflexivity. Qed.

(** Appending to a store that loads as a sequence. *)
Lemma addRecord_stored key record items w :
  stored w key = Some items ->
  addRecord key record w = (Ok record, put key (map json_item (items ++ [record])) w).
Proof.
  intros Hs. unfold addRecord.
  erewrite bind_ok by (apply loadStore_stored, Hs).
  unfold push. erewrite bind_ok by reflexivity.
  erewrite bind_ok by apply saveStore_arr.
  now rewrite put_loaded.
Qed.

(** ** Reading a submitted form *)

Lemma is_string_true s v : is_string s v = true <-> v = VStr s.
Proof.
  destruct v; simpl; try (split; [discriminate | congruence]).
  rewrite String.eqb_eq. split; congruence.
Qed.

Lemma is_string_false s v : is_string s v = false <-> v <> VStr s.
Proof.
  rewrite <- is_string_true. destruct (is_string s v); split; congruence.
Qed.

(** ** Store engine: [loadStore] *)

(** C8: [loadStore] on every collection.  A missing file is created holding
    the empty sequence, which is returned; a file whose text parses to [null]
    yields the fallback (the empty sequence) and is not touched; any other
    well-formed content is returned as parsed; a text that is not JSON and a
    read failure other than ENOENT are thrown on.  GET /api/feedback before any
    submission answers 200 with [{ok: true, records: []}] and, if there was no
    file, leaves one holding the empty sequence. *)
Theorem load_contract (key : store) (w : world) :
  (files w !! STORE_FILES key = None ->
   loadStore key w =
   (Ok (VArr []),
    World (<[STORE_FILES key := Text (Some (VArr []))]> (files w)) (trace w)))
  /\ (forall data, files w !! STORE_FILES key = Some (Text (Some data)) ->
      nullish data = true -> loadStore key w = (Ok (VArr []), w))
  /\ (forall data, files w !! STORE_FILES key = Some (Text (Some data)) ->
      nullish data = false -> loadStore key w = (Ok data, w))
  /\ (files w !! STORE_FILES key = Some (Text None) ->
      loadStore key w = (Throw SyntaxError, w))
  /\ (forall code, files w !! STORE_FILES key = Some (Unreadable code) ->
      code <> "ENOENT" -> loadStore key w = (Throw (SystemError code), w))
  /\ (files w !! STORE_FILES feedback = None ->
      getFeedback w =
      (Ok (Response 200 (VObj [("ok", VBool true); ("records", VArr [])])),
       World (<[STORE_FILES feedback := Text (Some (VArr []))]> (files w)) (trace w)))
  /\ (files w !! STORE_FILES feedback = Some (Text (Some (VArr []))) ->
      getFeedback w =
      (Ok (Response 200 (VObj [("ok", VBool true); ("records", VArr [])])), w)).
Proof.
  repeat split.
  - intros H. now rewrite loadStore_cases, H.
  - intros data H Hn. now rewrite loadStore_cases, H, Hn.
  - intros data H Hn. now rewrite loadStore_cases, H, Hn.
  - intros H. now rewrite loadStore_cases, H.
  - intros code H Hc. rewrite loadStore_cases, H.
    apply String.eqb_neq in Hc. now rewrite Hc.
  - intros H. unfold getFeedback.
    erewrite bind_ok by (rewrite loadStore_cases, H; reflexivity). reflexivity.
  - intros H. unfold getFeedback.
    erewrite bind_ok by (rewrite loadStore_cases, H; reflexivity). reflexivity.
Qed.

Lemma load_contract_witness :
  loadStore feedback fresh_world =
  (Ok (VArr []), World (<["feedback.json" := Text (Some (VArr []))]> ∅) [])
  /\ getFeedback fresh_world =
     (Ok (Response 200 (VObj [("ok", VBool true); ("records", VArr [])])),
      World (<["feedback.json" := Text (Some (VArr []))]> ∅) []).
Proof.
  split.
  - apply (proj1 (load_contract feedback fresh_world)). reflexivity.
  - apply (load_contract feedback fresh_world). reflexivity.
Defined.

(** ** Admin login *)

Lemma setting_env_or rt name fallback c :
  setting rt name fallback c -> env_or rt name fallback = c.
Proof.
  unfold setting, unset, env_or. intros [[-> Hc]|[[-> | ->] ->]]; try reflexivity.
  now destruct c.
Qed.

Lemma setting_nonempty rt name fallback c :
  fallback <> "" -> setting rt name fallback c -> c <> "".
Proof. intros Hf [[_ Hc]|[_ ->]]; assumption. Qed.

(** C7, as stated, fails: a username that is supplied but falsy (the number
    0 here) next to a password is not answered 401, as a supplied pair that
    is not the right one should be, but 400 as if it were missing. *)
Lemma login_falsy_is_missing :
  get zero_user_login "username" = Some (VNum pos_zero)
  /\ get zero_user_login "password" = Some (VStr "admin123")
  /\ postLogin bare_rt zero_user_login =
     Response 400 (VObj [("ok", VBool false);
                         ("message", VStr "Missing username or password.")])
  /\ status (postLogin bare_rt zero_user_login) <> 401.
Proof.
  split; [reflexivity|]. split; [reflexivity|]. split; [reflexivity|].
  intros H. vm_compute in H. discriminate.
Qed.

(** C7, amended: POST /api/login.  The configured credentials are what
    [ADMIN_USER] and [ADMIN_PASS] hold when they are set to something, and
    [admin] and [admin123] otherwise.  A username or password that is absent
    or falsy is answered 400; two truthy values of which one is not the
    configured credential, 401; the configured pair, 200 with [{ok: true}]. *)
Theorem login_contract (rt : runtime) (reqBody : value) (adminUser adminPass : string) :
  setting rt "ADMIN_USER" "admin" adminUser ->
  setting rt "ADMIN_PASS" "admin123" adminPass ->
  let username := submitted reqBody "username" in
  let password := submitted reqBody "password" in
  (truthy username = false \/ truthy password = false ->
   postLogin rt reqBody =
   Response 400 (VObj [("ok", VBool false);
                       ("message", VStr "Missing username or password.")]))
  /\ (truthy username = true -> truthy password = true ->
      username <> VStr adminUser \/ password <> VStr adminPass ->
      postLogin rt reqBody =
      Response 401 (VObj [("ok", VBool false);
                          ("message", VStr "Invalid credentials.")]))
  /\ (username = VStr adminUser -> password = VStr adminPass ->
      postLogin rt reqBody = Response 200 (VObj [("ok", VBool true)])).
Proof.
  intros Su Sp username password.
  assert (Nu : adminUser <> "") by (eapply setting_nonempty; [|exact Su]; discriminate).
  assert (Np : adminPass <> "") by (eapply setting_nonempty; [|exact Sp]; discriminate).
  unfold postLogin. fold (submitted reqBody "username") (submitted reqBody "password").
  rewrite (setting_env_or _ _ _ _ Su), (setting_env_or _ _ _ _ Sp).
  fold username password.
  split; [|split].
  - intros [H|H]; rewrite H; simpl; [reflexivity|].
    now rewrite orb_true_r.
  - intros Hu Hp Hne. rewrite Hu, Hp. simpl.
    destruct Hne as [H|H]; apply is_string_false in H; rewrite H; simpl;
      [reflexivity | now rewrite orb_true_r].
  - intros Hu Hp.
    assert (Tu : truthy username = true) by (rewrite Hu; now destruct adminUser).
    assert (Tp : truthy password = true) by (rewrite Hp; now destruct adminPass).
    rewrite Tu, Tp. simpl.
    apply is_string_true in Hu, Hp. now rewrite Hu, Hp.
Qed.

Lemma login_contract_witness :
  (postLogin bare_rt (VObj [("username", VStr "admin"); ("password", VStr "admin123")])
   = Response 200 (VObj [("ok", VBool true)])
   /\ postLogin bare_rt (VObj [("username", VStr "admin"); ("password", VStr "letmein")])
      = Response 401 (VObj [("ok", VBool false); ("message", VStr "Invalid credentials.")])
   /\ postLogin bare_rt (VObj [("username", VStr "admin")])
      = Response 400 (VObj [("ok", VBool false);
                            ("message", VStr "Missing username or password.")]))
  /\ postLogin custom_rt (VObj [("username", VStr "owner"); ("password", VStr "s3cret")])
     = Response 200 (VObj [("ok", VBool true)])
  /\ postLogin custom_rt (VObj [("username", VStr "admin"); ("password", VStr "admin123")])
     = Response 401 (VObj [("ok", VBool false); ("message", VStr "Invalid credentials.")]).
Proof.
  assert (Bu : setting bare_rt "ADMIN_USER" "admin" "admin")
    by (right; split; [left|]; reflexivity).
  assert (Bp : setting bare_rt "ADMIN_PASS" "admin123" "admin123")
    by (right; split; [left|]; reflexivity).
  assert (Cu : setting custom_rt "ADMIN_USER" "admin" "owner")
    by (left; split; [reflexivity|discriminate]).
  assert (Cp : setting custom_rt "ADMIN_PASS" "admin123" "s3cret")
    by (left; split; [reflexivity|discriminate]).
  split; [split; [|split]|split].
  - apply (login_contract bare_rt _ _ _ Bu Bp); reflexivity.
  - apply (login_contract bare_rt _ _ _ Bu Bp); [reflexivity | reflexivity |].
    right. discriminate.
  - apply (login_contract bare_rt _ _ _ Bu Bp). right. reflexivity.
  - apply (login_contract custom_rt _ _ _ Cu Cp); reflexivity.
  - apply (login_contract custom_rt _ _ _ Cu Cp); [reflexivity | reflexivity |].
    left. discriminate.
Defined.

(** ** Notification helper: phone numbers *)

Lemma startsWith_plus s : startsWith "+" s = true <-> exists r, s = String "+" r.
Proof.
  destruct s as [|c r]; cbn [startsWith].
  - split; [discriminate | intros [? [=]]].
  - rewrite andb_true_r, Ascii.eqb_eq. split.
    + intros <-. eauto.
    + now intros [? [= <- _]].
Qed.

Lemma strip_non_digits_filter s :
  strip_non_digits s =
  string_of_list_ascii (List.filter is_digit (list_ascii_of_string s)).
Proof.
  unfold strip_non_digits. induction s as [|c r IH]; simpl; [reflexivity|].
  destruct (is_digit c); simpl; now rewrite IH.
Qed.

Lemma take_digits_all max ds :
  string_forall is_digit ds = true -> (String.length ds <= max)%nat ->
  take_digits max ds = (String.length ds, "").
Proof.
  revert max. induction ds as [|c r IH]; intros max Hd Hl; simpl in *.
  - now destruct max.
  - apply andb_true_iff in Hd as [Hc Hr].
    destruct max as [|m]; [lia|]. simpl. rewrite Hc, (IH m) by (auto; lia).
    reflexivity.
Qed.

Lemma take_digits_whole max s n :
  take_digits max s = (n, "") ->
  string_forall is_digit s = true /\ String.length s = n /\ (n <= max)%nat.
Proof.
  revert s n. induction max as [|m IH]; intros s n; simpl.
  - intros [= <- ->]. simpl. repeat split; lia.
  - destruct s as [|c r]; [intros [= <-]; simpl; repeat split; lia|].
    destruct (is_digit c) eqn:Hc; [|discriminate].
    destruct (take_digits m r) as [k rest] eqn:E. intros [= <- ->].
    destruct (IH _ _ E) as (Hd & Hl & Hk). simpl. rewrite Hc, Hd, Hl.
    repeat split; lia.
Qed.

Lemma test_plus_digits_spec s : test_plus_digits s = true <-> plus_digits s.
Proof.
  unfold test_plus_digits, plus_digits. split.
  - destruct s as [|c r]; [discriminate|].
    destruct c as [[] [] [] [] [] [] [] []]; try discriminate.
    destruct (take_digits 15 r) as [n rest] eqn:E.
    intros H. apply andb_true_iff in H as [Hn Hr].
    destruct rest; [|discriminate].
    destruct (take_digits_whole _ _ _ E) as (Hd & Hl & Hk).
    apply Nat.leb_le in Hn. exists r. repeat split; auto; lia.
  - intros (ds & -> & Hd & Hlo & Hhi).
    rewrite take_digits_all by auto. cbv beta iota.
    apply andb_true_iff. split; [now apply Nat.leb_le | reflexivity].
Qed.

(** How [sendSms] starts: it warns and returns when there is no client, and
    fails when the constructor does. *)
Lemma sendSms_with_client rt client to body w :
  getTwilioClient rt = Ok (Some client) ->
  sendSms rt to body w =
  match env rt !! "TWILIO_PHONE" with
  | Some from =>
      if is_empty from then
        console_warn "SMS service not configured. Skipping SMS." w
      else
        match to with
        | VStr to =>
            if negb (test_plus_digits (normalize_to rt to)) then
              console_warn ("Invalid phone number " +:+ quoted (normalize_to rt to)
                            +:+ ". Skipping SMS.") w
            else messages_create rt from (normalize_to rt to) body w
        | _ => (Throw TypeError, w)
        end
  | None => console_warn "SMS service not configured. Skipping SMS." w
  end.
Proof.
  intros Hc. unfold sendSms, of_result. unfold mbind at 1, M_bind at 1.
  rewrite Hc. destruct (env rt !! "TWILIO_PHONE") as [from|]; [|reflexivity].
  destruct (is_empty from); [reflexivity|].
  destruct to; try reflexivity. now destruct (negb _).
Qed.

Lemma sendSms_without_client rt to body w :
  getTwilioClient rt = Ok None ->
  sendSms rt to body w = console_warn "SMS service not configured. Skipping SMS." w.
Proof.
  intros Hc. unfold sendSms, of_result. unfold mbind at 1, M_bind at 1.
  now rewrite Hc.
Qed.

Lemma sendSms_client_fails rt e to body w :
  getTwilioClient rt = Throw e -> sendSms rt to body w = (Throw e, w).
Proof.
  intros Hc. unfold sendSms, of_result. unfold mbind at 1, M_bind at 1.
  now rewrite Hc.
Qed.

(** C5 at a phone the server can receive.  The text [9876543210] goes out as
    [+919876543210]; the same phone submitted as a JSON number passes the
    validation of the appointment, and [sendSms] then neither normalises it
    nor skips it with a warning: [to.startsWith] throws.  The appointment is
    answered 200 and all the customer gets is a failed notification. *)
Theorem sendSms_numeric_phone (w : world) :
  truthy (submitted numeric_phone_appointment "phone") = true
  /\ to_string (submitted numeric_phone_appointment "phone") = Some "9876543210"
  /\ sendSms sample_rt (VStr "9876543210") "hello" w =
     (Ok tt,
      World (files w) (trace w ++ [MessagesCreate "+15005550006" "+919876543210" "hello"]))
  /\ sendSms sample_rt (submitted numeric_phone_appointment "phone") "hello" w =
     (Throw TypeError, w)
  /\ exists resp w',
       postAppointments sample_rt numeric_phone_appointment fresh_world = (Ok resp, w')
       /\ status resp = 200
       /\ trace w' = [Warn "Appointment notification failed:"].
Proof.
  split; [reflexivity|]. split; [vm_compute; reflexivity|].
  split; [reflexivity|]. split; [reflexivity|].
  destruct (postAppointments sample_rt numeric_phone_appointment fresh_world)
    as [r w'] eqn:E.
  vm_compute in E. injection E as <- <-. eexists _, _. repeat split.
Qed.

(** [sendSms] once a client was obtained and a sender is set, for every phone
    text [to].  The number used is [to] itself when it starts with [+];
    otherwise it is the country code ([DEFAULT_COUNTRY_CODE] when it is set to
    something, [+91] otherwise) followed by the digits of [to], everything
    else being dropped.  When that number is [+] and ten to fifteen digits the
    message is handed to the provider with it; when not, nothing is sent, a
    warning is logged and the call returns normally. *)
Theorem sendSms_contract (rt : runtime) (from prefix : string)
    (to body : string) (w : world) :
  (exists client, getTwilioClient rt = Ok (Some client)) ->
  env rt !! "TWILIO_PHONE" = Some from -> from <> "" ->
  setting rt "DEFAULT_COUNTRY_CODE" "+91" prefix ->
  let digits :=
    string_of_list_ascii (List.filter is_digit (list_ascii_of_string to)) in
  let number := if startsWith "+" to then to else prefix +:+ digits in
  (plus_digits number ->
   sendSms rt (VStr to) body w =
   (if provider_accepts rt from number body then Ok tt else Throw ProviderError,
    World (files w) (trace w ++ [MessagesCreate from number body])))
  /\ (~ plus_digits number ->
      sendSms rt (VStr to) body w =
      (Ok tt,
       World (files w)
         (trace w ++ [Warn ("Invalid phone number " +:+ quoted number
                            +:+ ". Skipping SMS.")]))).
Proof.
  intros [client Hc] Hfrom Nfrom Hprefix digits number.
  assert (Hn : normalize_to rt to = number).
  { unfold normalize_to, number, digits.
    rewrite strip_non_digits_filter, (setting_env_or _ _ _ _ Hprefix).
    now destruct (startsWith "+" to). }
  assert (Hsend : sendSms rt (VStr to) body w =
                  (if negb (test_plus_digits number)
                   then console_warn ("Invalid phone number " +:+ quoted number
                                      +:+ ". Skipping SMS.")
                   else messages_create rt from number body) w).
  { rewrite (sendSms_with_client rt client _ _ _ Hc), Hfrom, Hn.
    destruct from; [congruence|]. cbn [is_empty].
    now destruct (negb (test_plus_digits number)). }
  split.
  - intros Hp. apply test_plus_digits_spec in Hp. rewrite Hsend, Hp. simpl.
    unfold messages_create, mbind, M_bind, emit. simpl.
    now destruct (provider_accepts rt _ number body).
  - intros Hp. rewrite Hsend.
    destruct (test_plus_digits number) eqn:E.
    + exfalso. apply Hp. now apply test_plus_digits_spec.
    + reflexivity.
Qed.

Lemma sendSms_contract_witness :
  sendSms sample_rt (VStr "9876543210") "hello" fresh_world =
  (Ok tt, World ∅ [MessagesCreate "+15005550006" "+919876543210" "hello"])
  /\ sendSms sample_rt (VStr "+14155552671") "hello" fresh_world =
     (Ok tt, World ∅ [MessagesCreate "+15005550006" "+14155552671" "hello"])
  /\ sendSms sample_rt (VStr "123") "hello" fresh_world =
     (Ok tt, World ∅ [Warn ("Invalid phone number " +:+ quoted "+91123"
                            +:+ ". Skipping SMS.")])
  /\ sendSms custom_rt (VStr "(415) 555-2671") "hello" fresh_world =
     (Ok tt, World ∅ [MessagesCreate "+15005550006" "+14155552671" "hello"]).
Proof.
  assert (D : forall ds : string, (10 <= String.length ds <= 15)%nat ->
              string_forall is_digit ds = true -> plus_digits (String "+" ds)).
  { intros ds Hl Hd. exists ds. auto. }
  assert (S91 : setting sample_rt "DEFAULT_COUNTRY_CODE" "+91" "+91")
    by (right; split; [left|]; reflexivity).
  assert (S1 : setting custom_rt "DEFAULT_COUNTRY_CODE" "+91" "+1")
    by (left; split; [reflexivity|discriminate]).
  assert (C : exists client, getTwilioClient sample_rt = Ok (Some client))
    by (eexists; reflexivity).
  assert (C' : exists client, getTwilioClient custom_rt = Ok (Some client))
    by (eexists; reflexivity).
  split; [|split; [|split]].
  - apply (sendSms_contract sample_rt "+15005550006" "+91" "9876543210" "hello"
             fresh_world C); try reflexivity; try discriminate; try exact S91.
    apply (D "919876543210"); [simpl; lia | reflexivity].
  - apply (sendSms_contract sample_rt "+15005550006" "+91" "+14155552671" "hello"
             fresh_world C); try reflexivity; try discriminate; try exact S91.
    apply (D "14155552671"); [simpl; lia | reflexivity].
  - apply (sendSms_contract sample_rt "+15005550006" "+91" "123" "hello"
             fresh_world C); try reflexivity; try discriminate; try exact S91.
    intros (ds & [= <-] & _ & Hl & _). vm_compute in Hl. lia.
  - apply (sendSms_contract custom_rt "+15005550006" "+1" "(415) 555-2671" "hello"
             fresh_world C'); try reflexivity; try discriminate; try exact S1.
    apply (D "14155552671"); [simpl; lia | reflexivity].
Defined.

(** A phone that is not a string (a JSON number, say) makes [sendSms] throw;
    the submission handlers catch that and answer as usual. *)
Theorem sendSms_needs_text (rt : runtime) (to : value) (body : string) (w : world) :
  (exists client, getTwilioClient rt = Ok (Some client)) ->
  (exists from, env rt !! "TWILIO_PHONE" = Some from /\ from <> "") ->
  (forall s, to <> VStr s) ->
  sendSms rt to body w = (Throw TypeError, w).
Proof.
  intros [client Hc] (from & Hf & Hne) Hto.
  rewrite (sendSms_with_client rt client _ _ _ Hc), Hf.
  destruct from; [congruence|]. cbn [is_empty].
  destruct to; try reflexivity. now destruct (Hto s).
Qed.

Lemma sendSms_needs_text_witness :
  sendSms sample_rt (VNum (of_Z 9876543210)) "hello" fresh_world =
  (Throw TypeError, fresh_world).
Proof.
  apply (sendSms_needs_text sample_rt (VNum (of_Z 9876543210)) "hello" fresh_world).
  - eexists. reflexivity.
  - exists "+15005550006". split; [reflexivity | discriminate].
  - discriminate.
Defined.

(** ** Serialised objects *)

Lemma field_json_obj ps k v :
  assoc k ps = Some v -> v <> VUndefined ->
  field (json_roundtrip (VObj ps)) k = json_roundtrip v.
Proof.
  intros Ha Hv. rewrite json_roundtrip_obj. unfold field, get.
  now rewrite (assoc_json_props _ _ _ Ha Hv).
Qed.

Lemma truthy_defined v : truthy v = true -> v <> VUndefined.
Proof. now destruct v. Qed.

(** ** Numbers: the rating check *)

(** [!Number.isFinite(x) || x <= 0] fails exactly on the finite numbers
    greater than zero. *)
Lemma rating_check x :
  negb (isFinite x) || le x pos_zero = negb (isFinite x && gt x pos_zero).
Proof. destruct x as [s|s| |s m e]; try destruct s; reflexivity. Qed.

Lemma json_number_positive x :
  isFinite x = true -> gt x pos_zero = true -> json_number x = VNum x.
Proof. destruct x as [s|s| |s m e]; try destruct s; try discriminate; reflexivity. Qed.

(** ** Handlers never touch the files while notifying *)

Lemma quiet_ret {A : Type} (a : A) : quiet (mret a).
Proof. intros w. exists (Ok a), (trace w). now destruct w. Qed.

Lemma quiet_throw {A : Type} (e : exn) : quiet (@throw A e).
Proof. intros w. exists (Throw e), (trace w). now destruct w. Qed.

Lemma quiet_lift {A : Type} (o : option A) : quiet (lift o).
Proof. destruct o; [apply quiet_ret | apply quiet_throw]. Qed.

Lemma quiet_emit e : quiet (emit e).
Proof. intros w. now exists (Ok tt), (trace w ++ [e]). Qed.

Lemma quiet_bind {A B : Type} (m : M A) (f : A -> M B) :
  quiet m -> (forall a, quiet (f a)) -> quiet (m ≫= f).
Proof.
  intros Hm Hf w. destruct (Hm w) as (r & tr & E).
  unfold mbind, M_bind. rewrite E. destruct r as [a|e].
  - destruct (Hf a (World (files w) tr)) as (r' & tr' & E'). rewrite E'. eauto.
  - eauto.
Qed.

Lemma quiet_settle {A : Type} (m : M A) : quiet m -> quiet (settle m).
Proof.
  intros Hm w. destruct (Hm w) as (r & tr & E). unfold settle. rewrite E. eauto.
Qed.

Lemma quiet_of_result {A : Type} (r : result A) : quiet (of_result r).
Proof. intros w. exists r, (trace w). now destruct w. Qed.

Lemma quiet_sendSms rt to body : quiet (sendSms rt to body).
Proof.
  unfold sendSms. apply quiet_bind; [apply quiet_of_result|].
  intros [client|]; [|apply quiet_emit].
  destruct (env rt !! "TWILIO_PHONE"); [|apply quiet_emit].
  destruct (is_empty _); [apply quiet_emit|].
  destruct to; try apply quiet_throw.
  destruct (negb _); [apply quiet_emit|].
  unfold messages_create. apply quiet_bind; [apply quiet_emit|].
  intros _. destruct (provider_accepts _ _ _ _); [apply quiet_ret | apply quiet_throw].
Qed.

Lemma quiet_promise_all tasks : quiet (promise_all tasks).
Proof.
  unfold promise_all. destruct (first_rejection rejected_early tasks);
    [apply quiet_throw|].
  destruct (first_rejection rejected_late tasks); [apply quiet_throw | apply quiet_ret].
Qed.

Lemma quiet_notify rt customerPhone adminPhone body :
  quiet (notifyCustomerAndAdmin rt customerPhone adminPhone body).
Proof.
  unfold notifyCustomerAndAdmin. apply quiet_bind.
  - destruct (truthy customerPhone); [|apply quiet_ret].
    apply quiet_bind; [apply quiet_settle, quiet_sendSms | intros; apply quiet_ret].
  - intros tasks. apply quiet_bind.
    + destruct (truthy adminPhone); [|apply quiet_ret].
      apply quiet_bind; [apply quiet_settle, quiet_sendSms | intros; apply quiet_ret].
    + intros [|t r]; [apply quiet_emit | apply quiet_promise_all].
Qed.

(** A best-effort block: whatever happens inside, the handler goes on. *)
Lemma best_effort (m : M unit) msg w :
  quiet m ->
  exists tr, try_catch m (fun _ => console_warn msg) w = (Ok tt, World (files w) tr).
Proof.
  intros Hm. destruct (Hm w) as (r & tr & E). unfold try_catch. rewrite E.
  destruct r as [[]|e]; [eauto|]. now exists (tr ++ [Warn msg]).
Qed.

Lemma stored_files w1 w2 key : files w1 = files w2 -> stored w1 key = stored w2 key.
Proof.
  intros H. unfold stored. rewrite !loadStore_cases, H.
  destruct (files w2 !! STORE_FILES key) as [[code|[data|]]|]; try reflexivity.
  destruct (String.eqb code "ENOENT"); reflexivity.
Qed.

Lemma stored_trace w tr key : stored (World (files w) tr) key = stored w key.
Proof. now apply stored_files. Qed.

(** ** Feedback *)

Lemma postFeedback_accepted rt reqBody w x old :
  truthy (submitted reqBody "name") = true ->
  truthy (submitted reqBody "message") = true ->
  to_number (submitted reqBody "rating") = Some x ->
  isFinite x = true -> gt x pos_zero = true ->
  stored w feedback = Some old ->
  let record :=
    VObj [("id", VStr (randomUUID rt)); ("name", submitted reqBody "name");
          ("message", submitted reqBody "message"); ("rating", VNum x);
          ("createdAt", VStr (toISOString rt))] in
  postFeedback rt reqBody w =
  (Ok (res_json 200 (VObj [("ok", VBool true); ("record", record)])),
   put feedback (map json_item (old ++ [record])) w).
Proof.
  intros Hn Hm Hr Hf Hg Hs record. unfold postFeedback.
  fold (submitted reqBody "name") (submitted reqBody "message")
       (submitted reqBody "rating").
  erewrite bind_ok by (apply lift_some, Hr).
  rewrite Hn, Hm. cbn [negb orb]. rewrite rating_check, Hf, Hg. cbn [negb andb].
  erewrite bind_ok by (apply addRecord_stored, Hs). reflexivity.
Qed.

Lemma postFeedback_rejected rt reqBody w x :
  to_number (submitted reqBody "rating") = Some x ->
  truthy (submitted reqBody "name") = false
  \/ truthy (submitted reqBody "message") = false
  \/ isFinite x && gt x pos_zero = false ->
  postFeedback rt reqBody w =
  (Ok (respondError 400 "Name, message, and rating are required."), w).
Proof.
  intros Hr H. unfold postFeedback.
  fold (submitted reqBody "name") (submitted reqBody "message")
       (submitted reqBody "rating").
  erewrite bind_ok by (apply lift_some, Hr).
  rewrite <- orb_assoc, rating_check.
  destruct H as [H|[H|H]]; rewrite H; cbn [negb orb]; rewrite ?orb_true_r; reflexivity.
Qed.

(** C10: the rating that is checked and stored is [Number(rating)].  Whatever
    JSON value is submitted, if its coercion is a finite number above zero
    (and name and message are there, and the feedback store loads as a
    sequence) the submission is answered 200, and both the record in the
    response and the entry appended to the store carry the coerced number. *)
Theorem feedback_rating_coerced (rt : runtime) (reqBody : value) (w : world)
    (x : number) (old : list value) :
  truthy (submitted reqBody "name") = true ->
  truthy (submitted reqBody "message") = true ->
  to_number (submitted reqBody "rating") = Some x ->
  isFinite x = true -> gt x pos_zero = true ->
  stored w feedback = Some old ->
  exists resp w' entry,
    postFeedback rt reqBody w = (Ok resp, w')
    /\ status resp = 200
    /\ field (field (body resp) "record") "rating" = VNum x
    /\ stored w' feedback = Some (map json_item old ++ [entry])
    /\ field entry "rating" = VNum x.
Proof.
  intros Hn Hm Hr Hf Hg Hs.
  pose proof (postFeedback_accepted rt reqBody w x old Hn Hm Hr Hf Hg Hs) as E.
  cbv zeta in E. eexists _, _, _. split; [exact E|].
  assert (Hnum : json_roundtrip (VNum x) = VNum x) by now apply json_number_positive.
  split; [reflexivity|]. split.
  - unfold res_json, body.
    erewrite field_json_obj by (reflexivity || discriminate).
    erewrite field_json_obj by (reflexivity || discriminate). exact Hnum.
  - rewrite stored_put_eq, map_app. split; [reflexivity|].
    cbn [map json_item].
    erewrite field_json_obj by (reflexivity || discriminate). exact Hnum.
Qed.

Lemma feedback_rating_coerced_witness :
  exists resp w' entry,
    postFeedback bare_rt
      (VObj [("name", VStr "Asha"); ("message", VStr "Quick service");
             ("rating", VBool true)]) fresh_world = (Ok resp, w')
    /\ status resp = 200
    /\ field (field (body resp) "record") "rating" = VNum (of_Z 1)
    /\ stored w' feedback = Some (map json_item [] ++ [entry])
    /\ field entry "rating" = VNum (of_Z 1).
Proof.
  apply (feedback_rating_coerced bare_rt
           (VObj [("name", VStr "Asha"); ("message", VStr "Quick service");
                  ("rating", VBool true)]) fresh_world (of_Z 1) []);
    reflexivity.
Defined.

(** For every rating that [Number] converts, the converted number decides:
    finite and above zero, the feedback is stored with that number and
    answered 200; anything else is answered 400 and nothing is written. *)
Theorem feedback_rating_decides (rt : runtime) (reqBody : value) (w : world)
    (x : number) (old : list value) :
  truthy (submitted reqBody "name") = true ->
  truthy (submitted reqBody "message") = true ->
  to_number (submitted reqBody "rating") = Some x ->
  stored w feedback = Some old ->
  (isFinite x && gt x pos_zero = true ->
   exists resp w' entry,
     postFeedback rt reqBody w = (Ok resp, w')
     /\ status resp = 200
     /\ stored w' feedback = Some (map json_item old ++ [entry])
     /\ field entry "rating" = VNum x)
  /\ (isFinite x && gt x pos_zero = false ->
      postFeedback rt reqBody w =
      (Ok (bad_request "Name, message, and rating are required."), w)).
Proof.
  intros Hn Hm Hr Hs. split.
  - intros H. apply andb_true_iff in H as [Hf Hg].
    pose proof (postFeedback_accepted rt reqBody w x old Hn Hm Hr Hf Hg Hs) as E.
    cbv zeta in E. eexists _, _, _. split; [exact E|]. split; [reflexivity|].
    rewrite stored_put_eq, map_app. split; [reflexivity|].
    cbn [map json_item].
    erewrite field_json_obj by (reflexivity || discriminate).
    now apply json_number_positive.
  - intros H. apply (postFeedback_rejected rt reqBody w x Hr). auto.
Qed.

Lemma feedback_rating_decides_witness :
  (exists resp w' entry,
      postFeedback bare_rt (rated (VNum (string_to_number "4.5"))) fresh_world
      = (Ok resp, w')
      /\ status resp = 200
      /\ stored w' feedback = Some (map json_item [] ++ [entry])
      /\ field entry "rating" = VNum (string_to_number "4.5"))
  /\ postFeedback bare_rt (rated (VNum (string_to_number "0"))) fresh_world =
     (Ok (bad_request "Name, message, and rating are required."), fresh_world)
  /\ postFeedback bare_rt (rated (VNum (string_to_number "-1"))) fresh_world =
     (Ok (bad_request "Name, message, and rating are required."), fresh_world)
  /\ postFeedback bare_rt (rated (VStr "abc")) fresh_world =
     (Ok (bad_request "Name, message, and rating are required."), fresh_world).
Proof.
  split; [|split; [|split]].
  - apply (proj1 (feedback_rating_decides bare_rt (rated (VNum (string_to_number "4.5")))
                    fresh_world (string_to_number "4.5") []
                    eq_refl eq_refl eq_refl eq_refl)). reflexivity.
  - apply (proj2 (feedback_rating_decides bare_rt (rated (VNum (string_to_number "0")))
                    fresh_world (string_to_number "0") []
                    eq_refl eq_refl eq_refl eq_refl)). reflexivity.
  - apply (proj2 (feedback_rating_decides bare_rt (rated (VNum (string_to_number "-1")))
                    fresh_world (string_to_number "-1") []
                    eq_refl eq_refl eq_refl eq_refl)). reflexivity.
  - apply (proj2 (feedback_rating_decides bare_rt (rated (VStr "abc"))
                    fresh_world (string_to_number "abc") []
                    eq_refl eq_refl eq_refl eq_refl)). reflexivity.
Defined.

(** C6 at a body the server can receive: name and message are there and the
    rating does not coerce to a finite number above zero, yet no 400 is sent:
    the coercion itself throws. *)
Theorem feedback_rating_coercion_throws (rt : runtime) (w : world) :
  truthy (submitted odd_feedback "name") = true
  /\ truthy (submitted odd_feedback "message") = true
  /\ to_number (submitted odd_feedback "rating") = None
  /\ postFeedback rt odd_feedback w = (Throw TypeError, w).
Proof. repeat split. Qed.

(** ** Appointments *)

Lemma quiet_text_of v : quiet (text_of v).
Proof. apply quiet_lift. Qed.

(** What the handler does with a body that passes validation, whose vehicle
    and issue have a text, when both stores load as sequences. *)
Lemma postAppointments_accepted rt reqBody w v i A R :
  truthy (submitted reqBody "name") = true ->
  truthy (submitted reqBody "phone") = true ->
  truthy (submitted reqBody "address") = true ->
  truthy (submitted reqBody "vehicle") = true ->
  truthy (submitted reqBody "issue") = true ->
  to_string (submitted reqBody "vehicle") = Some v ->
  to_string (submitted reqBody "issue") = Some i ->
  stored w appointments = Some A ->
  stored w customerRecords = Some R ->
  let record :=
    customer_record rt "Appointment" (submitted reqBody "name")
      (submitted reqBody "phone") (submitted reqBody "address")
      ("Vehicle: " +:+ v +:+ " | Issue: " +:+ i) in
  let entry :=
    spread record [("vehicle", submitted reqBody "vehicle");
                   ("issue", submitted reqBody "issue")] in
  exists tr,
    postAppointments rt reqBody w =
    (Ok (res_json 200 (VObj [("ok", VBool true); ("record", record)])),
     World (files (put customerRecords (map json_item (R ++ [record]))
                     (put appointments (map json_item (A ++ [entry])) w))) tr).
Proof.
  intros Hn Hp Ha Hv Hi Tv Ti SA SR record entry. unfold postAppointments.
  fold (submitted reqBody "name") (submitted reqBody "phone")
       (submitted reqBody "address") (submitted reqBody "vehicle")
       (submitted reqBody "issue").
  rewrite Hn, Hp, Ha, Hv, Hi. cbn [negb orb].
  unfold text_of at 1 2.
  erewrite bind_ok by (apply lift_some, Tv).
  erewrite bind_ok by (apply lift_some, Ti).
  fold record. fold entry.
  erewrite bind_ok by (apply addRecord_stored, SA).
  erewrite bind_ok
    by (apply addRecord_stored; rewrite stored_put_ne by discriminate; exact SR).
  match goal with
  | |- context [try_catch ?m ?h] =>
      destruct (best_effort m "Appointment notification failed:"
                  (put customerRecords (map json_item (R ++ [record]))
                     (put appointments (map json_item (A ++ [entry])) w)))
        as [tr E]
  end.
  { repeat (apply quiet_bind; [apply quiet_text_of | intros ?]).
    apply quiet_notify. }
  exists tr. erewrite bind_ok by exact E. reflexivity.
Qed.

(** Both stores get one entry more, at the end, and the two entries carry the
    identifier generated for the request. *)
Theorem appointment_appended (rt : runtime) (reqBody : value) (w : world)
    (v i : string) (A R : list value) :
  truthy (submitted reqBody "name") = true ->
  truthy (submitted reqBody "phone") = true ->
  truthy (submitted reqBody "address") = true ->
  truthy (submitted reqBody "vehicle") = true ->
  truthy (submitted reqBody "issue") = true ->
  to_string (submitted reqBody "vehicle") = Some v ->
  to_string (submitted reqBody "issue") = Some i ->
  stored w appointments = Some A ->
  stored w customerRecords = Some R ->
  exists resp w' a r,
    postAppointments rt reqBody w = (Ok resp, w')
    /\ status resp = 200
    /\ stored w' appointments = Some (map json_item A ++ [a])
    /\ stored w' customerRecords = Some (map json_item R ++ [r])
    /\ field a "id" = VStr (randomUUID rt)
    /\ field r "id" = VStr (randomUUID rt).
Proof.
  intros Hn Hp Ha Hv Hi Tv Ti SA SR.
  destruct (postAppointments_accepted rt reqBody w v i A R) as [tr E]; auto.
  cbv zeta in E. eexists _, _, _, _. split; [exact E|]. split; [reflexivity|].
  split; [|split].
  - rewrite stored_trace, stored_put_ne by discriminate.
    rewrite stored_put_eq, map_app. reflexivity.
  - rewrite stored_trace, stored_put_eq, map_app. reflexivity.
  - split; reflexivity.
Qed.

Lemma appointment_appended_witness :
  exists resp w' a r,
    postAppointments bare_rt sample_appointment fresh_world = (Ok resp, w')
    /\ status resp = 200
    /\ stored w' appointments = Some (map json_item [] ++ [a])
    /\ stored w' customerRecords = Some (map json_item [] ++ [r])
    /\ field a "id" = VStr (randomUUID bare_rt)
    /\ field r "id" = VStr (randomUUID bare_rt).
Proof.
  apply (appointment_appended bare_rt sample_appointment fresh_world
           "Swift" "Brake noise" [] []); reflexivity.
Defined.

(** C3 at a body the server can receive: all five fields are there and
    truthy, yet neither store grows.  Building the details text throws, outside
    any [try], before the first write. *)
Theorem appointment_unprintable_vehicle (rt : runtime) (w : world) :
  truthy (submitted odd_appointment "name") = true
  /\ truthy (submitted odd_appointment "phone") = true
  /\ truthy (submitted odd_appointment "address") = true
  /\ truthy (submitted odd_appointment "vehicle") = true
  /\ truthy (submitted odd_appointment "issue") = true
  /\ to_string (submitted odd_appointment "vehicle") = None
  /\ postAppointments rt odd_appointment w = (Throw TypeError, w).
Proof. repeat split. Qed.

(** ** Spare parts *)

Lemma get_field v k : nullish v = false -> get v k = Some (field v k).
Proof. now destruct v. Qed.

Lemma part_summary_text part s w :
  nullish part = false -> part_text part = Some s ->
  part_summary part w = (Ok s, w).
Proof.
  intros Hp. unfold part_text, part_summary, text_or, text_of.
  rewrite !(get_field _ _ Hp).
  destruct (to_string (or_else (field part "name") (VStr "Part"))) as [n|] eqn:En;
    [|discriminate].
  destruct (to_string (or_else (field part "qty") (VStr "1"))) as [q|] eqn:Eq;
    [|discriminate].
  destruct (to_string (or_else (field part "amount") (VStr "0"))) as [a|] eqn:Ea;
    [|discriminate].
  intros [= <-].
  repeat (erewrite bind_ok by (reflexivity || (apply lift_some; eassumption))).
  reflexivity.
Qed.

Lemma map_items_texts parts texts w :
  Forall2 (fun part s => nullish part = false /\ part_text part = Some s) parts texts ->
  map_items part_summary parts w = (Ok texts, w).
Proof.
  induction 1 as [|part s parts texts [Hp Ht] _ IH]; [reflexivity|].
  cbn [map_items]. erewrite bind_ok by (apply part_summary_text; eauto).
  erewrite bind_ok by exact IH. reflexivity.
Qed.

Lemma postSpares_accepted rt reqBody w items texts t S R :
  truthy (submitted reqBody "name") = true ->
  truthy (submitted reqBody "phone") = true ->
  truthy (submitted reqBody "address") = true ->
  submitted reqBody "parts" = VArr items -> items <> [] ->
  Forall2 (fun part s => nullish part = false /\ part_text part = Some s) items texts ->
  text_or (submitted reqBody "total") "0" = Some t ->
  stored w spares = Some S ->
  stored w customerRecords = Some R ->
  let record :=
    customer_record rt "Spare Parts" (submitted reqBody "name")
      (submitted reqBody "phone") (submitted reqBody "address")
      (join " | " texts +:+ " | Total: " +:+ t) in
  let entry :=
    spread record [("parts", submitted reqBody "parts");
                   ("total", submitted reqBody "total")] in
  exists tr,
    postSpares rt reqBody w =
    (Ok (res_json 200 (VObj [("ok", VBool true); ("record", record)])),
     World (files (put customerRecords (map json_item (R ++ [record]))
                     (put spares (map json_item (S ++ [entry])) w))) tr).
Proof.
  intros Hn Hp Ha Hparts Hne Htexts Ht SS SR. cbv zeta. unfold postSpares.
  fold (submitted reqBody "name") (submitted reqBody "phone")
       (submitted reqBody "address") (submitted reqBody "parts")
       (submitted reqBody "total").
  rewrite Hn, Hp, Ha, Hparts. cbn [negb orb isArray items_of array_map].
  destruct items as [|part more]; [congruence|]. cbn [length Nat.eqb].
  erewrite bind_ok by (apply map_items_texts, Htexts).
  unfold text_of at 1. unfold text_or in Ht.
  erewrite bind_ok by (apply lift_some, Ht).
  erewrite bind_ok by (apply addRecord_stored, SS).
  erewrite bind_ok
    by (apply addRecord_stored; rewrite stored_put_ne by discriminate; exact SR).
  match goal with
  | |- context [(try_catch ?m ?h ≫= _) ?w0] =>
      destruct (best_effort m "Spare parts notification failed:" w0) as [tr E]
  end.
  { repeat (apply quiet_bind; [apply quiet_text_of | intros ?]).
    apply quiet_notify. }
  exists tr. erewrite bind_ok by exact E. reflexivity.
Qed.

(** ** Contact *)

Lemma postContact_accepted rt reqBody w C :
  truthy (submitted reqBody "name") = true ->
  truthy (submitted reqBody "phone") = true ->
  truthy (submitted reqBody "message") = true ->
  stored w contacts = Some C ->
  let record :=
    VObj [("id", VStr (randomUUID rt)); ("name", submitted reqBody "name");
          ("phone", submitted reqBody "phone");
          ("message", submitted reqBody "message");
          ("createdAt", VStr (toISOString rt))] in
  postContact rt reqBody w =
  (Ok (res_json 200 ok_true), put contacts (map json_item (C ++ [record])) w).
Proof.
  intros Hn Hp Hm SC record. unfold postContact.
  fold (submitted reqBody "name") (submitted reqBody "phone")
       (submitted reqBody "message").
  rewrite Hn, Hp, Hm. cbn [negb orb].
  erewrite bind_ok by (apply addRecord_stored, SC). reflexivity.
Qed.

(** ** What a submission is answered with *)

Lemma json_customer_record rt type name phone address details :
  truthy name = true -> truthy phone = true -> truthy address = true ->
  json_roundtrip (customer_record rt type name phone address details) =
  VObj [("id", VStr (randomUUID rt)); ("type", VStr type);
        ("name", json_roundtrip name); ("phone", json_roundtrip phone);
        ("address", json_roundtrip address); ("details", VStr details);
        ("createdAt", VStr (toISOString rt))].
Proof.
  intros Hn Hp Ha. unfold customer_record. rewrite json_roundtrip_obj.
  rewrite !json_props_cons by (discriminate || now apply truthy_defined).
  reflexivity.
Qed.

Lemma res_json_record rt type name phone address details :
  truthy name = true -> truthy phone = true -> truthy address = true ->
  res_json 200 (VObj [("ok", VBool true);
                      ("record", customer_record rt type name phone address details)]) =
  Response 200
    (VObj [("ok", VBool true);
           ("record",
            VObj [("id", VStr (randomUUID rt)); ("type", VStr type);
                  ("name", json_roundtrip name); ("phone", json_roundtrip phone);
                  ("address", json_roundtrip address); ("details", VStr details);
                  ("createdAt", VStr (toISOString rt))])]).
Proof.
  intros Hn Hp Ha. unfold res_json. rewrite json_roundtrip_obj.
  rewrite !json_props_cons by discriminate.
  now rewrite json_customer_record.
Qed.

Lemma field_json_item_obj ps k v :
  assoc k ps = Some v -> v <> VUndefined ->
  field (json_item (VObj ps)) k = json_roundtrip v.
Proof. apply field_json_obj. Qed.

Lemma field_json_item_dropped ps k :
  assoc k (json_props ps) = None -> field (json_item (VObj ps)) k = VUndefined.
Proof.
  intros H. change (json_item (VObj ps)) with (json_roundtrip (VObj ps)).
  rewrite json_roundtrip_obj. unfold field, get. now rewrite H.
Qed.

Lemma spares_entry_shape rt name phone address details parts total :
  spread (customer_record rt "Spare Parts" name phone address details)
    [("parts", parts); ("total", total)] =
  VObj [("id", VStr (randomUUID rt)); ("type", VStr "Spare Parts"); ("name", name);
        ("phone", phone); ("address", address); ("details", VStr details);
        ("createdAt", VStr (toISOString rt)); ("parts", parts); ("total", total)].
Proof. reflexivity. Qed.

Lemma appointment_entry_shape rt name phone address details vehicle issue :
  spread (customer_record rt "Appointment" name phone address details)
    [("vehicle", vehicle); ("issue", issue)] =
  VObj [("id", VStr (randomUUID rt)); ("type", VStr "Appointment"); ("name", name);
        ("phone", phone); ("address", address); ("details", VStr details);
        ("createdAt", VStr (toISOString rt)); ("vehicle", vehicle); ("issue", issue)].
Proof. reflexivity. Qed.

Lemma appointment_entry_fields rt name phone address details vehicle issue :
  vehicle <> VUndefined -> issue <> VUndefined ->
  let entry :=
    json_item (spread (customer_record rt "Appointment" name phone address details)
                 [("vehicle", vehicle); ("issue", issue)]) in
  field entry "vehicle" = json_roundtrip vehicle
  /\ field entry "issue" = json_roundtrip issue.
Proof.
  intros Hv Hi entry. unfold entry. rewrite appointment_entry_shape.
  split; apply field_json_item_obj; reflexivity || assumption.
Qed.

Lemma spares_entry_fields rt name phone address details items total :
  name <> VUndefined -> phone <> VUndefined -> address <> VUndefined ->
  let entry :=
    json_item (spread (customer_record rt "Spare Parts" name phone address details)
                 [("parts", VArr items); ("total", total)]) in
  field entry "parts" = json_roundtrip (VArr items)
  /\ field entry "total" = json_roundtrip total.
Proof.
  intros Hn Hp Ha entry. unfold entry. rewrite spares_entry_shape. split.
  - apply field_json_item_obj; [reflexivity|discriminate].
  - destruct total; try (apply field_json_item_obj; [reflexivity|discriminate]).
    apply field_json_item_dropped.
    rewrite !json_props_cons by (assumption || discriminate). reflexivity.
Qed.

(** C1, as stated, fails: the record in the response to an appointment has no
    [vehicle] and no [issue] property, the one in the response to a spare-parts
    request no [parts] and no [total], and the response to a contact message
    no record at all. *)
Lemma response_omits_submitted_fields :
  (exists resp w',
      postAppointments bare_rt sample_appointment fresh_world = (Ok resp, w')
      /\ status resp = 200
      /\ submitted sample_appointment "vehicle" = VStr "Swift"
      /\ field (field (body resp) "record") "vehicle" = VUndefined
      /\ field (field (body resp) "record") "issue" = VUndefined)
  /\ (exists resp w',
         postSpares bare_rt sample_spares fresh_world = (Ok resp, w')
         /\ status resp = 200
         /\ field (field (body resp) "record") "parts" = VUndefined
         /\ field (field (body resp) "record") "total" = VUndefined)
  /\ (exists resp w',
         postContact bare_rt sample_contact fresh_world = (Ok resp, w')
         /\ status resp = 200
         /\ body resp = VObj [("ok", VBool true)]
         /\ field (body resp) "record" = VUndefined).
Proof.
  split; [|split].
  - destruct (postAppointments bare_rt sample_appointment fresh_world) as [r w'] eqn:E.
    vm_compute in E. injection E as <- <-. eexists _, _. repeat split.
  - destruct (postSpares bare_rt sample_spares fresh_world) as [r w'] eqn:E.
    vm_compute in E. injection E as <- <-. eexists _, _. repeat split.
  - destruct (postContact bare_rt sample_contact fresh_world) as [r w'] eqn:E.
    vm_compute in E. injection E as <- <-. eexists _, _. repeat split.
Qed.

(** C1, amended: an accepted submission is answered 200.  For an appointment
    and for a spare-parts request the body is [{ok: true, record}] where the
    record is the customer record: identifier, type, name, phone, address,
    details and creation time, and nothing else.  Vehicle and issue, parts and
    total, reach the caller only through the details text; as submitted they
    are kept in the entry appended to the appointments store and to the
    spares store.  For a contact message the body is [{ok: true}]. *)
Theorem accepted_submission_response (rt : runtime) (reqBody : value) (w : world) :
  (forall v i A R,
      truthy (submitted reqBody "name") = true ->
      truthy (submitted reqBody "phone") = true ->
      truthy (submitted reqBody "address") = true ->
      truthy (submitted reqBody "vehicle") = true ->
      truthy (submitted reqBody "issue") = true ->
      to_string (submitted reqBody "vehicle") = Some v ->
      to_string (submitted reqBody "issue") = Some i ->
      stored w appointments = Some A ->
      stored w customerRecords = Some R ->
      exists w' entry,
        postAppointments rt reqBody w =
        (Ok (Response 200
               (VObj [("ok", VBool true);
                      ("record",
                       VObj [("id", VStr (randomUUID rt));
                             ("type", VStr "Appointment");
                             ("name", json_roundtrip (submitted reqBody "name"));
                             ("phone", json_roundtrip (submitted reqBody "phone"));
                             ("address", json_roundtrip (submitted reqBody "address"));
                             ("details",
                              VStr ("Vehicle: " +:+ v +:+ " | Issue: " +:+ i));
                             ("createdAt", VStr (toISOString rt))])])), w')
        /\ stored w' appointments = Some (map json_item A ++ [entry])
        /\ field entry "vehicle" = json_roundtrip (submitted reqBody "vehicle")
        /\ field entry "issue" = json_roundtrip (submitted reqBody "issue"))
  /\ (forall items texts t S R,
         truthy (submitted reqBody "name") = true ->
         truthy (submitted reqBody "phone") = true ->
         truthy (submitted reqBody "address") = true ->
         submitted reqBody "parts" = VArr items -> items <> [] ->
         Forall2 (fun part s => nullish part = false /\ part_text part = Some s)
           items texts ->
         text_or (submitted reqBody "total") "0" = Some t ->
         stored w spares = Some S ->
         stored w customerRecords = Some R ->
         exists w' entry,
           postSpares rt reqBody w =
           (Ok (Response 200
                  (VObj [("ok", VBool true);
                         ("record",
                          VObj [("id", VStr (randomUUID rt));
                                ("type", VStr "Spare Parts");
                                ("name", json_roundtrip (submitted reqBody "name"));
                                ("phone", json_roundtrip (submitted reqBody "phone"));
                                ("address",
                                 json_roundtrip (submitted reqBody "address"));
                                ("details",
                                 VStr (join " | " texts +:+ " | Total: " +:+ t));
                                ("createdAt", VStr (toISOString rt))])])), w')
           /\ stored w' spares = Some (map json_item S ++ [entry])
           /\ field entry "parts" = json_roundtrip (submitted reqBody "parts")
           /\ field entry "total" = json_roundtrip (submitted reqBody "total"))
  /\ (forall C,
         truthy (submitted reqBody "name") = true ->
         truthy (submitted reqBody "phone") = true ->
         truthy (submitted reqBody "message") = true ->
         stored w contacts = Some C ->
         exists w',
           postContact rt reqBody w =
           (Ok (Response 200 (VObj [("ok", VBool true)])), w')).
Proof.
  split; [|split].
  - intros v i A R Hn Hp Ha Hv Hi Tv Ti SA SR.
    destruct (postAppointments_accepted rt reqBody w v i A R) as [tr E]; auto.
    cbv zeta in E. rewrite res_json_record in E by assumption.
    eexists _, _. split; [exact E|]. split.
    + rewrite stored_trace, stored_put_ne by discriminate.
      rewrite stored_put_eq, map_app. reflexivity.
    + apply appointment_entry_fields; now apply truthy_defined.
  - intros items texts t S R Hn Hp Ha Hparts Hne Ht Htot SS SR.
    destruct (postSpares_accepted rt reqBody w items texts t S R) as [tr E]; auto.
    cbv zeta in E. rewrite res_json_record in E by assumption.
    eexists _, _. split; [exact E|]. split.
    + rewrite stored_trace, stored_put_ne by discriminate.
      rewrite stored_put_eq, map_app. reflexivity.
    + rewrite Hparts. apply spares_entry_fields; now apply truthy_defined.
  - intros C Hn Hp Hm SC.
    pose proof (postContact_accepted rt reqBody w C Hn Hp Hm SC) as E.
    cbv zeta in E. eauto.
Qed.

Lemma accepted_submission_response_witness :
  (exists w' entry,
      postAppointments bare_rt sample_appointment fresh_world =
      (Ok (Response 200
             (VObj [("ok", VBool true);
                    ("record",
                     VObj [("id", VStr (randomUUID bare_rt));
                           ("type", VStr "Appointment");
                           ("name", json_roundtrip (submitted sample_appointment "name"));
                           ("phone", json_roundtrip (submitted sample_appointment "phone"));
                           ("address",
                            json_roundtrip (submitted sample_appointment "address"));
                           ("details",
                            VStr ("Vehicle: " +:+ "Swift" +:+ " | Issue: "
                                  +:+ "Brake noise"));
                           ("createdAt", VStr (toISOString bare_rt))])])), w')
      /\ stored w' appointments = Some (map json_item [] ++ [entry])
      /\ field entry "vehicle" = json_roundtrip (submitted sample_appointment "vehicle")
      /\ field entry "issue" = json_roundtrip (submitted sample_appointment "issue"))
  /\ (exists w' entry,
         postSpares bare_rt sample_spares fresh_world =
         (Ok (Response 200
                (VObj [("ok", VBool true);
                       ("record",
                        VObj [("id", VStr (randomUUID bare_rt));
                              ("type", VStr "Spare Parts");
                              ("name", json_roundtrip (submitted sample_spares "name"));
                              ("phone", json_roundtrip (submitted sample_spares "phone"));
                              ("address",
                               json_roundtrip (submitted sample_spares "address"));
                              ("details",
                               VStr (join " | " ["Brake Pad | Qty: 2 | Amount: 500"]
                                     +:+ " | Total: " +:+ "1000"));
                              ("createdAt", VStr (toISOString bare_rt))])])), w')
         /\ stored w' spares = Some (map json_item [] ++ [entry])
         /\ field entry "parts" = json_roundtrip (submitted sample_spares "parts")
         /\ field entry "total" = json_roundtrip (submitted sample_spares "total"))
  /\ (exists w',
         postContact bare_rt sample_contact fresh_world =
         (Ok (Response 200 (VObj [("ok", VBool true)])), w')).
Proof.
  split; [|split].
  - apply (proj1 (accepted_submission_response bare_rt sample_appointment fresh_world)
             "Swift" "Brake noise" [] []); reflexivity.
  - apply (proj1 (proj2 (accepted_submission_response bare_rt sample_spares
                           fresh_world))
             [VObj [("name", VStr "Brake Pad"); ("qty", VNum (of_Z 2));
                    ("amount", VNum (of_Z 500))]]
             ["Brake Pad | Qty: 2 | Amount: 500"] "1000" [] []);
      try reflexivity; try discriminate.
    constructor; [|constructor]. split; reflexivity.
  - apply (proj2 (proj2 (accepted_submission_response bare_rt sample_contact
                           fresh_world)) []); reflexivity.
Defined.

(** ** The details text of a spare-parts request *)

Lemma text_or_cases v d :
  text_or v d = if truthy v then to_string v else Some d.
Proof. unfold text_or, or_else. now destruct (truthy v). Qed.

(** C9, as stated, fails: a quantity that is present but zero is replaced by
    the default as well. *)
Lemma zero_quantity_gets_default :
  (exists resp w',
      postSpares bare_rt zero_qty_spares fresh_world = (Ok resp, w')
      /\ field (field (body resp) "record") "details" =
         VStr "Brake Pad | Qty: 1 | Amount: 500 | Total: 1000")
  /\ claimed_details (items_of (submitted zero_qty_spares "parts"))
       (submitted zero_qty_spares "total") =
     Some "Brake Pad | Qty: 0 | Amount: 500 | Total: 1000".
Proof.
  split.
  - destruct (postSpares bare_rt zero_qty_spares fresh_world) as [r w'] eqn:E.
    vm_compute in E. injection E as <- <-. eexists _, _. split; reflexivity.
  - vm_compute. reflexivity.
Qed.

(** C9, amended: for a spare-parts request that passes validation (and whose
    parts are objects whose fields have a text), the details of the created
    record are the summaries [name | Qty: qty | Amount: amount] of the parts,
    joined by [ | ], followed by [ | Total: total]; name, quantity and amount
    are replaced by [Part], [1] and [0], and the total by [0], whenever they
    are absent or otherwise falsy (null, false, zero, NaN, the empty string).
    The record answered and the entry appended to the customer records
    carry that text, the same identifier and the type [Spare Parts]. *)
Theorem spares_details (rt : runtime) (reqBody : value) (w : world)
    (items : list value) (texts : list string) (t : string) (S R : list value) :
  truthy (submitted reqBody "name") = true ->
  truthy (submitted reqBody "phone") = true ->
  truthy (submitted reqBody "address") = true ->
  submitted reqBody "parts" = VArr items -> items <> [] ->
  Forall2 (fun part s =>
             nullish part = false /\
             exists name qty amount,
               (if truthy (field part "name") then to_string (field part "name")
                else Some "Part") = Some name
               /\ (if truthy (field part "qty") then to_string (field part "qty")
                   else Some "1") = Some qty
               /\ (if truthy (field part "amount") then to_string (field part "amount")
                   else Some "0") = Some amount
               /\ s = name +:+ " | Qty: " +:+ qty +:+ " | Amount: " +:+ amount)
    items texts ->
  (if truthy (submitted reqBody "total") then to_string (submitted reqBody "total")
   else Some "0") = Some t ->
  stored w spares = Some S ->
  stored w customerRecords = Some R ->
  let details := join " | " texts +:+ " | Total: " +:+ t in
  exists resp w' entry,
    postSpares rt reqBody w = (Ok resp, w')
    /\ status resp = 200
    /\ field (field (body resp) "record") "details" = VStr details
    /\ stored w' customerRecords = Some (map json_item R ++ [entry])
    /\ field entry "type" = VStr "Spare Parts"
    /\ field entry "details" = VStr details
    /\ field entry "id" = field (field (body resp) "record") "id".
Proof.
  intros Hn Hp Ha Hparts Hne Htexts Ht SS SR details.
  assert (Htexts' : Forall2 (fun part s => nullish part = false /\ part_text part = Some s)
                      items texts).
  { eapply Forall2_impl; [exact Htexts|].
    intros part s (Hnn & name & qty & amount & En & Eq & Ea & ->). split; [exact Hnn|].
    unfold part_text. rewrite !text_or_cases, En, Eq, Ea. reflexivity. }
  rewrite <- text_or_cases in Ht.
  destruct (postSpares_accepted rt reqBody w items texts t S R) as [tr E]; auto.
  cbv zeta in E. rewrite res_json_record in E by assumption.
  eexists _, _, _. split; [exact E|]. split; [reflexivity|]. split; [reflexivity|].
  split.
  - rewrite stored_trace, stored_put_eq, map_app. reflexivity.
  - cbn [map json_item customer_record].
    rewrite json_customer_record by assumption. repeat split.
Qed.

Lemma spares_details_witness :
  exists resp w' entry,
    postSpares bare_rt sample_spares fresh_world = (Ok resp, w')
    /\ status resp = 200
    /\ field (field (body resp) "record") "details" =
       VStr (join " | " ["Brake Pad | Qty: 2 | Amount: 500"] +:+ " | Total: " +:+ "1000")
    /\ stored w' customerRecords = Some (map json_item [] ++ [entry])
    /\ field entry "type" = VStr "Spare Parts"
    /\ field entry "details" =
       VStr (join " | " ["Brake Pad | Qty: 2 | Amount: 500"] +:+ " | Total: " +:+ "1000")
    /\ field entry "id" = field (field (body resp) "record") "id".
Proof.
  apply (spares_details bare_rt sample_spares fresh_world
           [VObj [("name", VStr "Brake Pad"); ("qty", VNum (of_Z 2));
                  ("amount", VNum (of_Z 500))]]
           ["Brake Pad | Qty: 2 | Amount: 500"] "1000" [] []);
    try reflexivity; try discriminate.
  constructor; [|constructor].
  split; [reflexivity|]. exists "Brake Pad", "2", "500". repeat split.
Defined.

(** ** Deleting a customer record *)

Lemma id_differs_run id record w :
  nullish record = false ->
  id_differs id record w = (Ok (negb (has_id id record)), w).
Proof.
  intros Hr. unfold id_differs. rewrite (get_field _ _ Hr).
  erewrite bind_ok by reflexivity. reflexivity.
Qed.

Lemma filter_items_ids id items w :
  Forall (fun r => nullish r = false) items ->
  filter_items (id_differs id) items w =
  (Ok (List.filter (fun r => negb (has_id id r)) items), w).
Proof.
  induction 1 as [|x r Hx _ IH]; [reflexivity|].
  cbn [filter_items List.filter].
  erewrite bind_ok by (apply id_differs_run, Hx).
  erewrite bind_ok by exact IH. reflexivity.
Qed.

Lemma filter_length_le {A : Type} (p : A -> bool) l :
  (length (List.filter p l) <= length l)%nat.
Proof. induction l as [|x r IH]; simpl; [lia|]. destruct (p x); simpl; lia. Qed.

Lemma filter_same_length {A : Type} (p : A -> bool) l :
  length (List.filter p l) = length l <-> Forall (fun x => p x = true) l.
Proof.
  induction l as [|x r IH]; simpl.
  - split; [constructor | reflexivity].
  - pose proof (filter_length_le p r). destruct (p x) eqn:E; simpl.
    + split.
      * intros [= H']. constructor; [assumption | now apply IH].
      * intros H'. inversion H'; subst. f_equal. now apply IH.
    + split; [lia|]. intros H'. inversion H'; congruence.
Qed.

Lemma filter_all {A : Type} (p : A -> bool) l :
  Forall (fun x => p x = true) l -> List.filter p l = l.
Proof.
  induction 1 as [|x r Hx _ IH]; simpl; [reflexivity|]. now rewrite Hx, IH.
Qed.

Lemma no_match_iff id records :
  ~ Exists (fun r => has_id id r = true) records <->
  Forall (fun r => negb (has_id id r) = true) records.
Proof.
  rewrite <- Forall_Exists_neg. apply Forall_iff. intros r.
  destruct (has_id id r); simpl; split; congruence.
Qed.

(** With identifiers that are pairwise different, dropping every match and
    dropping the first one are the same. *)
Lemma filter_remove_first id records :
  NoDup (map (fun r => field r "id") records) ->
  List.filter (fun r => negb (has_id id r)) records = remove_first (has_id id) records.
Proof.
  induction records as [|x r IH]; [reflexivity|].
  cbn [map]. intros Hnd. apply NoDup_cons in Hnd as [Hx Hr].
  cbn [List.filter remove_first]. destruct (has_id id x) eqn:E; cbn [negb].
  - apply filter_all. apply Forall_forall. intros y Hy.
    destruct (has_id id y) eqn:Ey; [|reflexivity]. exfalso. apply Hx.
    unfold has_id in E, Ey. apply is_string_true in E, Ey. rewrite E, <- Ey.
    apply list_elem_of_In. apply (in_map (fun r => field r "id")).
    apply list_elem_of_In, Hy.
  - f_equal. now apply IH.
Qed.

Lemma map_json_item_clean l :
  Forall (fun r => nullish r = false /\ json_clean r) l -> map json_item l = l.
Proof.
  induction 1 as [|x r [Hn Hc] _ IH]; [reflexivity|].
  cbn [map]. now rewrite IH, json_item_defined, Hc.
Qed.

Lemma Forall_filter_keep {A : Type} (P : A -> Prop) (p : A -> bool) l :
  Forall P l -> Forall P (List.filter p l).
Proof.
  induction 1 as [|x r Hx _ IH]; simpl; [constructor|].
  destruct (p x); [constructor|]; assumption.
Qed.

(** C2, as stated, fails: when two records carry the identifier, both go,
    not only the first.  Nor are the records that stay always left as they
    were: they are written back serialised, which turns a negative zero into
    0 and a number that is not finite into [null]. *)
Lemma delete_drops_every_match :
  (exists resp w',
      deleteCustomerRecord "r1" twin_world = (Ok resp, w')
      /\ status resp = 200
      /\ stored w' customerRecords =
         Some [VObj [("id", VStr "r2"); ("type", VStr "Appointment");
                     ("name", VStr "Ravi")]]
      /\ remove_first (has_id "r1") twin_records =
         [VObj [("id", VStr "r1"); ("type", VStr "Spare Parts"); ("name", VStr "Asha")];
          VObj [("id", VStr "r2"); ("type", VStr "Appointment"); ("name", VStr "Ravi")]])
  /\ (exists resp w',
         deleteCustomerRecord "b" unclean_world = (Ok resp, w')
         /\ status resp = 200
         /\ stored unclean_world customerRecords =
            Some [VObj [("id", VStr "a"); ("n", VNum (S754_zero true));
                        ("big", VNum (S754_infinity false))];
                  VObj [("id", VStr "b")]]
         /\ stored w' customerRecords =
            Some [VObj [("id", VStr "a"); ("n", VNum pos_zero); ("big", VNull)]]).
Proof.
  split.
  - destruct (deleteCustomerRecord "r1" twin_world) as [r w'] eqn:E.
    vm_compute in E. injection E as <- <-. eexists _, _. repeat split.
  - destruct (deleteCustomerRecord "b" unclean_world) as [r w'] eqn:E.
    vm_compute in E. injection E as <- <-. eexists _, _. repeat split.
Qed.

(** C2, amended: for every customer-records store that loads as a sequence of
    records and every identifier, [deleteCustomerRecord] drops every record
    carrying the identifier, which is the first and only one when
    identifiers are pairwise different.  If there is one, the remaining
    records are written back in their order, each as serialisation leaves it
    (so unchanged when the records of the store serialise to themselves, as
    all that the server wrote do), nothing else is touched and the answer is
    200; if there is none the answer is 404, the store still holds the same
    sequence and an existing file is not written. *)
Theorem delete_contract (id : string) (w : world) (records : list value) :
  stored w customerRecords = Some records ->
  Forall (fun r => nullish r = false) records ->
  let remaining := List.filter (fun r => negb (has_id id r)) records in
  (Exists (fun r => has_id id r = true) records ->
   deleteCustomerRecord id w =
   (Ok (Response 200 (VObj [("ok", VBool true)])),
    World (<[STORE_FILES customerRecords :=
               Text (Some (VArr (map json_item remaining)))]> (files w)) (trace w)))
  /\ (Forall json_clean records -> map json_item remaining = remaining)
  /\ (NoDup (map (fun r => field r "id") records) ->
      remaining = remove_first (has_id id) records)
  /\ (~ Exists (fun r => has_id id r = true) records ->
      exists w',
        deleteCustomerRecord id w =
        (Ok (Response 404 (VObj [("ok", VBool false);
                                 ("message", VStr "Record not found.")])), w')
        /\ stored w' customerRecords = Some records
        /\ (missing w customerRecords = false -> w' = w)).
Proof.
  intros Hs Hrec remaining.
  assert (Hrun : deleteCustomerRecord id w =
                 (if (length remaining =? length records)%nat
                  then mret (respondError 404 "Record not found.")
                  else saveStore customerRecords (VArr remaining);;
                       mret (res_json 200 ok_true)) (loaded customerRecords w)).
  { unfold deleteCustomerRecord.
    erewrite bind_ok by (apply loadStore_stored, Hs).
    cbn [array_filter].
    erewrite bind_ok by (apply filter_items_ids, Hrec). reflexivity. }
  subst remaining. split; [|split; [|split]].
  - intros Hex. rewrite Hrun.
    destruct (length _ =? length records)%nat eqn:El.
    + exfalso. apply Nat.eqb_eq, filter_same_length in El.
      apply no_match_iff in El. contradiction.
    + erewrite bind_ok by apply saveStore_arr. rewrite put_loaded. reflexivity.
  - intros Hc. apply map_json_item_clean, Forall_filter_keep.
    apply Forall_forall. intros r Hr. split.
    + eapply Forall_forall in Hrec; eauto.
    + eapply Forall_forall in Hc; eauto.
  - apply filter_remove_first.
  - intros Hno. exists (loaded customerRecords w). rewrite Hrun.
    apply no_match_iff in Hno. apply filter_same_length in Hno.
    apply Nat.eqb_eq in Hno. rewrite Hno. split; [reflexivity|]. split.
    + now rewrite stored_loaded.
    + unfold loaded. now intros ->.
Qed.

Lemma delete_contract_witness :
  deleteCustomerRecord "r2" twin_world =
  (Ok (Response 200 (VObj [("ok", VBool true)])),
   World (<[STORE_FILES customerRecords :=
              Text (Some (VArr (map json_item
                  (List.filter (fun r => negb (has_id "r2" r)) twin_records))))]>
            (files twin_world)) (trace twin_world))
  /\ exists w',
       deleteCustomerRecord "r9" twin_world =
       (Ok (Response 404 (VObj [("ok", VBool false);
                                ("message", VStr "Record not found.")])), w')
       /\ stored w' customerRecords = Some twin_records
       /\ (missing twin_world customerRecords = false -> w' = twin_world).
Proof.
  assert (Hs : stored twin_world customerRecords = Some twin_records) by reflexivity.
  assert (Hn : Forall (fun r => nullish r = false) twin_records)
    by (repeat constructor).
  split.
  - apply (proj1 (delete_contract "r2" twin_world twin_records Hs Hn)).
    do 2 apply Exists_cons_tl. apply Exists_cons_hd. reflexivity.
  - apply (proj2 (proj2 (proj2 (delete_contract "r9" twin_world twin_records Hs Hn)))).
    intros H. repeat (apply Exists_cons in H as [H|H]; [discriminate H|]).
    inversion H.
Defined.

(** ** Validation failures *)

(** A submission that fails validation is answered 400 and leaves the world
    (every file, and the log) as it was.  For feedback this is shown for the
    ratings that [Number] converts. *)
Theorem invalid_submission_rejected (rt : runtime) (reqBody : value) (w : world) :
  (truthy (submitted reqBody "name") = false
   \/ truthy (submitted reqBody "phone") = false
   \/ truthy (submitted reqBody "address") = false
   \/ truthy (submitted reqBody "vehicle") = false
   \/ truthy (submitted reqBody "issue") = false ->
   postAppointments rt reqBody w =
   (Ok (bad_request "All appointment fields are required."), w))
  /\ (truthy (submitted reqBody "name") = false
      \/ truthy (submitted reqBody "phone") = false
      \/ truthy (submitted reqBody "address") = false
      \/ isArray (submitted reqBody "parts") = false
      \/ items_of (submitted reqBody "parts") = [] ->
      postSpares rt reqBody w =
      (Ok (bad_request "Customer details and at least one part are required."), w))
  /\ (forall x,
         to_number (submitted reqBody "rating") = Some x ->
         truthy (submitted reqBody "name") = false
         \/ truthy (submitted reqBody "message") = false
         \/ isFinite x && gt x pos_zero = false ->
         postFeedback rt reqBody w =
         (Ok (bad_request "Name, message, and rating are required."), w))
  /\ (truthy (submitted reqBody "name") = false
      \/ truthy (submitted reqBody "phone") = false
      \/ truthy (submitted reqBody "message") = false ->
      postContact rt reqBody w =
      (Ok (bad_request "All contact fields are required."), w)).
Proof.
  split; [|split; [|split]].
  - intros H. unfold postAppointments.
    fold (submitted reqBody "name") (submitted reqBody "phone")
         (submitted reqBody "address") (submitted reqBody "vehicle")
         (submitted reqBody "issue").
    destruct H as [H|[H|[H|[H|H]]]]; rewrite H; cbn [negb orb];
      rewrite ?orb_true_r; reflexivity.
  - intros H. unfold postSpares.
    fold (submitted reqBody "name") (submitted reqBody "phone")
         (submitted reqBody "address") (submitted reqBody "parts").
    destruct H as [H|[H|[H|[H|H]]]]; rewrite H; cbn [negb orb length Nat.eqb];
      rewrite ?orb_true_r; reflexivity.
  - intros x Hx H. now apply (postFeedback_rejected rt reqBody w x).
  - intros H. unfold postContact.
    fold (submitted reqBody "name") (submitted reqBody "phone")
         (submitted reqBody "message").
    destruct H as [H|[H|H]]; rewrite H; cbn [negb orb];
      rewrite ?orb_true_r; reflexivity.
Qed.

Lemma invalid_submission_rejected_witness :
  postAppointments bare_rt (VObj [("name", VStr "Asha")]) fresh_world =
  (Ok (bad_request "All appointment fields are required."), fresh_world)
  /\ postSpares bare_rt (VObj [("name", VStr "Asha"); ("phone", VStr "9876543210");
                               ("address", VStr "12 Main Street");
                               ("parts", VArr [])]) fresh_world =
     (Ok (bad_request "Customer details and at least one part are required."),
      fresh_world)
  /\ postFeedback bare_rt (VObj [("name", VStr "Asha"); ("message", VStr "Fine");
                                 ("rating", VStr "abc")]) fresh_world =
     (Ok (bad_request "Name, message, and rating are required."), fresh_world)
  /\ postContact bare_rt (VObj [("name", VStr "Asha"); ("phone", VStr "")])
       fresh_world =
     (Ok (bad_request "All contact fields are required."), fresh_world).
Proof.
  split; [|split; [|split]].
  - apply (invalid_submission_rejected bare_rt (VObj [("name", VStr "Asha")])
             fresh_world). right. left. reflexivity.
  - apply (invalid_submission_rejected bare_rt
             (VObj [("name", VStr "Asha"); ("phone", VStr "9876543210");
                    ("address", VStr "12 Main Street"); ("parts", VArr [])])
             fresh_world). do 4 right. reflexivity.
  - apply (proj1 (proj2 (proj2 (invalid_submission_rejected bare_rt
             (VObj [("name", VStr "Asha"); ("message", VStr "Fine");
                    ("rating", VStr "abc")]) fresh_world))) NaN);
      [reflexivity|]. do 2 right. reflexivity.
  - apply (invalid_submission_rejected bare_rt
             (VObj [("name", VStr "Asha"); ("phone", VStr "")]) fresh_world).
    right. left. reflexivity.
Defined.

(** C4 at a body the server can receive: the name is missing, yet no 400 is
    sent.  [Number(rating)] runs before the check and throws. *)
Theorem feedback_unconvertible_rating (rt : runtime) (w : world) :
  truthy (submitted nameless_feedback "name") = false
  /\ to_number (submitted nameless_feedback "rating") = None
  /\ postFeedback rt nameless_feedback w = (Throw TypeError, w).
Proof. repeat split. Qed.

(** ** Which files a handler can write *)

Lemma frames_ret {A : Type} keys (a : A) : frames keys (mret a).
Proof. intros w r w' [= <- <-] path _. reflexivity. Qed.

Lemma frames_throw {A : Type} keys (e : exn) : frames keys (@throw A e).
Proof. intros w r w' [= <- <-] path _. reflexivity. Qed.

Lemma frames_lift {A : Type} keys (o : option A) : frames keys (lift o).
Proof. destruct o; [apply frames_ret | apply frames_throw]. Qed.

Lemma frames_quiet {A : Type} keys (m : M A) : quiet m -> frames keys m.
Proof.
  intros Hq w r w' E path _. destruct (Hq w) as (r0 & tr & E0).
  rewrite E0 in E. now injection E as <- <-.
Qed.

Lemma frames_bind {A B : Type} keys (m : M A) (f : A -> M B) :
  frames keys m -> (forall a, frames keys (f a)) -> frames keys (m ≫= f).
Proof.
  intros Hm Hf w r w' E path Hp. unfold mbind, M_bind in E.
  destruct (m w) as [[a|e] w1] eqn:E1.
  - rewrite (Hf a _ _ _ E path Hp). exact (Hm _ _ _ E1 path Hp).
  - injection E as <- <-. exact (Hm _ _ _ E1 path Hp).
Qed.

Lemma frames_try_catch {A : Type} keys (m : M A) (h : exn -> M A) :
  frames keys m -> (forall e, frames keys (h e)) -> frames keys (try_catch m h).
Proof.
  intros Hm Hh w r w' E path Hp. unfold try_catch in E.
  destruct (m w) as [[a|e] w1] eqn:E1.
  - injection E as <- <-. exact (Hm _ _ _ E1 path Hp).
  - rewrite (Hh e _ _ _ E path Hp). exact (Hm _ _ _ E1 path Hp).
Qed.

Lemma frames_writeJson keys key data :
  In key keys -> frames keys (writeJson (STORE_FILES key) data).
Proof.
  intros Hk w r w' E path Hp. unfold writeJson, mbind, M_bind in E.
  destruct (JSON_stringify data) as [payload|]; simpl in E; injection E as <- <-.
  - simpl. apply lookup_insert_ne. now apply Hp.
  - reflexivity.
Qed.

Lemma frames_loadStore keys key : In key keys -> frames keys (loadStore key).
Proof.
  intros Hk. unfold loadStore, readJson. apply frames_try_catch.
  - apply frames_bind.
    + intros w r w' E path _. unfold readFile in E.
      destruct (files w !! STORE_FILES key) as [[c|t]|]; now injection E as <- <-.
    + intros raw. apply frames_bind; [|intros; apply frames_ret].
      destruct raw; [apply frames_ret | apply frames_throw].
  - intros e. destruct (bool_decide _); [|apply frames_throw].
    apply frames_bind; [now apply frames_writeJson | intros; apply frames_ret].
Qed.

Lemma frames_addRecord keys key record :
  In key keys -> frames keys (addRecord key record).
Proof.
  intros Hk. unfold addRecord. apply frames_bind; [now apply frames_loadStore|].
  intros records. apply frames_bind.
  - destruct records; try apply frames_throw. apply frames_ret.
  - intros records'. apply frames_bind; [now apply frames_writeJson|].
    intros; apply frames_ret.
Qed.

Lemma quiet_try_catch {A : Type} (m : M A) (h : exn -> M A) :
  quiet m -> (forall e, quiet (h e)) -> quiet (try_catch m h).
Proof.
  intros Hm Hh w. destruct (Hm w) as (r & tr & E). unfold try_catch. rewrite E.
  destruct r as [a|e]; [eauto|].
  destruct (Hh e (World (files w) tr)) as (r' & tr' & E'). rewrite E'. eauto.
Qed.

Lemma quiet_part_summary part : quiet (part_summary part).
Proof.
  unfold part_summary.
  repeat (apply quiet_bind; [apply quiet_lift | intros ?]). apply quiet_ret.
Qed.

Lemma quiet_map_items {A : Type} (f : value -> M A) items :
  (forall x, quiet (f x)) -> quiet (map_items f items).
Proof.
  intros Hf. induction items as [|x r IH]; [apply quiet_ret|].
  cbn [map_items]. apply quiet_bind; [apply Hf | intros y].
  apply quiet_bind; [exact IH | intros; apply quiet_ret].
Qed.

Lemma quiet_filter_items p items :
  (forall x, quiet (p x)) -> quiet (filter_items p items).
Proof.
  intros Hp. induction items as [|x r IH]; [apply quiet_ret|].
  cbn [filter_items]. apply quiet_bind; [apply Hp | intros y].
  apply quiet_bind; [exact IH | intros; apply quiet_ret].
Qed.

Lemma quiet_id_differs id record : quiet (id_differs id record).
Proof.
  unfold id_differs. apply quiet_bind; [apply quiet_lift | intros; apply quiet_ret].
Qed.

(** Each handler writes the backing files of its own stores and no other
    file, whatever the request and however the handler ends: an appointment
    reaches the appointments and the customer records, a spare-parts request
    the spares and the customer records, feedback and contact messages their
    own store, a deletion the customer records only. *)
Theorem handlers_write_their_own_stores (rt : runtime) (reqBody : value) (id : string) :
  frames [appointments; customerRecords] (postAppointments rt reqBody)
  /\ frames [spares; customerRecords] (postSpares rt reqBody)
  /\ frames [feedback] (postFeedback rt reqBody)
  /\ frames [contacts] (postContact rt reqBody)
  /\ frames [customerRecords] (deleteCustomerRecord id)
  /\ frames [feedback] getFeedback
  /\ frames [customerRecords] getCustomerRecords.
Proof.
  repeat split.
  - unfold postAppointments. destruct (_ || _); [apply frames_ret|].
    repeat (apply frames_bind; [apply frames_lift | intros ?]).
    apply frames_bind; [apply frames_addRecord; simpl; auto | intros _].
    apply frames_bind; [apply frames_addRecord; simpl; auto | intros _].
    apply frames_bind; [|intros; apply frames_ret].
    apply frames_quiet, quiet_try_catch; [|intros; apply quiet_emit].
    repeat (apply quiet_bind; [apply quiet_text_of | intros ?]).
    apply quiet_notify.
  - unfold postSpares. destruct (_ || _); [apply frames_ret|].
    apply frames_bind.
    { apply frames_quiet. unfold array_map. destruct (field _ "parts");
        try apply quiet_throw. apply quiet_map_items, quiet_part_summary. }
    intros summaries. apply frames_bind; [apply frames_lift | intros t].
    apply frames_bind; [apply frames_addRecord; simpl; auto | intros _].
    apply frames_bind; [apply frames_addRecord; simpl; auto | intros _].
    apply frames_bind; [|intros; apply frames_ret].
    apply frames_quiet, quiet_try_catch; [|intros; apply quiet_emit].
    repeat (apply quiet_bind; [apply quiet_text_of | intros ?]).
    apply quiet_notify.
  - unfold postFeedback. apply frames_bind; [apply frames_lift | intros x].
    destruct (_ || _); [apply frames_ret|].
    apply frames_bind; [apply frames_addRecord; simpl; auto | intros _].
    apply frames_ret.
  - unfold postContact. destruct (_ || _); [apply frames_ret|].
    apply frames_bind; [apply frames_addRecord; simpl; auto | intros _].
    apply frames_ret.
  - unfold deleteCustomerRecord.
    apply frames_bind; [apply frames_loadStore; simpl; auto | intros records].
    apply frames_bind.
    { apply frames_quiet. unfold array_filter. destruct records;
        try apply quiet_throw. apply quiet_filter_items, quiet_id_differs. }
    intros next. destruct (_ =? _)%nat; [apply frames_ret|].
    apply frames_bind; [apply frames_writeJson; simpl; auto | intros _].
    apply frames_ret.
  - unfold getFeedback.
    apply frames_bind; [apply frames_loadStore; simpl; auto | intros; apply frames_ret].
  - unfold getCustomerRecords.
    apply frames_bind; [apply frames_loadStore; simpl; auto | intros; apply frames_ret].
Qed.

(** ** The store engine, saving and loading *)

Lemma json_item_idempotent v : json_item (json_item v) = json_item v.
Proof.
  pose proof (json_item_clean v) as H. unfold json_clean in H.
  assert (json_item v <> VUndefined) as Hd.
  { destruct v; cbn; try discriminate.
    unfold json_number. destruct (isFinite x); discriminate. }
  destruct (json_item v); [congruence|exact H..].
Qed.

Lemma map_json_item_idempotent l : map json_item (map json_item l) = map json_item l.
Proof. rewrite map_map. apply map_ext. intros; apply json_item_idempotent. Qed.

Lemma well_kept_clean l : well_kept l -> map json_item l = l.
Proof.
  intros H. apply map_json_item_clean. eapply Forall_impl; [exact H|].
  intros r [Ho Hc]. split; [now destruct r|exact Hc].
Qed.

Lemma well_kept_defined l : well_kept l -> Forall (fun r => nullish r = false) l.
Proof.
  intros H. eapply Forall_impl; [exact H|]. intros r [Ho _]. now destruct r.
Qed.

Lemma loadStore_put key items w :
  loadStore key (put key items w) = (Ok (VArr items), put key items w).
Proof.
  rewrite loadStore_cases. cbn [put files]. rewrite lookup_insert_eq. reflexivity.
Qed.

Lemma stored_none key w :
  stored w key = None ->
  (exists e, loadStore key w = (Throw e, w))
  \/ (exists data, loadStore key w = (Ok data, w) /\ isArray data = false).
Proof.
  unfold stored. rewrite loadStore_cases.
  destruct (files w !! STORE_FILES key) as [[code|[data|]]|]; cbn.
  - destruct (String.eqb code "ENOENT"); cbn; [discriminate|]. left; eauto.
  - destruct (nullish data) eqn:En; [discriminate|].
    destruct data; try discriminate; intros _; right; eexists; split; reflexivity.
  - left; eauto.
  - discriminate.
Qed.

Lemma addRecord_unloadable key record w :
  stored w key = None -> exists e, addRecord key record w = (Throw e, w).
Proof.
  intros H. unfold addRecord.
  destruct (stored_none key w H) as [[e E]|[data [E Hd]]].
  - exists e. unfold mbind, M_bind. now rewrite E.
  - exists TypeError. erewrite bind_ok by exact E.
    destruct data; try discriminate; reflexivity.
Qed.

(** A store that does not load as a sequence is never written by
    [addRecord]: when the file cannot be read, is not JSON, or holds
    something that is not an array, [addRecord] throws and the world is as it
    was, so the corrupt file is still there to be inspected. *)
Theorem addRecord_keeps_unloadable_store (key : store) (record : value) (w : world) :
  stored w key = None -> exists e, addRecord key record w = (Throw e, w).
Proof. apply addRecord_unloadable. Qed.

Lemma addRecord_keeps_unloadable_store_witness :
  exists e, addRecord feedback (VObj [("id", VStr "f1")]) object_world
            = (Throw e, object_world).
Proof. apply (addRecord_keeps_unloadable_store feedback _ object_world). reflexivity. Defined.


Lemma loadStore_again key w r w1 :
  loadStore key w = (r, w1) ->
  loadStore key w1 = (r, w1) /\ (missing w key = false -> w1 = w).
Proof.
  rewrite loadStore_cases. unfold missing.
  destruct (files w !! STORE_FILES key) as [[code|[data|]]|] eqn:E.
  - destruct (String.eqb code "ENOENT") eqn:Ec; intros [= <- <-].
    + split; [apply loadStore_put|discriminate].
    + split; [|reflexivity]. rewrite loadStore_cases, E, Ec. reflexivity.
  - intros [= <- <-]. split; [|reflexivity]. rewrite loadStore_cases, E. reflexivity.
  - intros [= <- <-]. split; [|reflexivity]. rewrite loadStore_cases, E. reflexivity.
  - intros [= <- <-]. split; [apply loadStore_put|discriminate].
Qed.

Lemma listing_again key (k : value -> response) w r w1 :
  (loadStore key ≫= fun records => mret (k records)) w = (r, w1) ->
  (loadStore key ≫= fun records => mret (k records)) w1 = (r, w1)
  /\ (missing w key = false -> w1 = w).
Proof.
  unfold mbind, M_bind at 1. destruct (loadStore key w) as [[a|e] w'] eqn:E.
  - intros [= <- <-]. destruct (loadStore_again _ _ _ _ E) as [E1 Hm].
    split; [|exact Hm]. erewrite bind_ok by exact E1. reflexivity.
  - intros [= <- <-]. destruct (loadStore_again _ _ _ _ E) as [E1 Hm].
    split; [|exact Hm]. unfold mbind, M_bind. now rewrite E1.
Qed.

(** Loading a store, and listing feedback or customer records, a second
    time gives the same answer and changes nothing; an existing file is
    never written by them. *)
Theorem listing_settles (w : world) :
  (forall key r w1, loadStore key w = (r, w1) ->
     loadStore key w1 = (r, w1) /\ (missing w key = false -> w1 = w))
  /\ (forall r w1, getFeedback w = (r, w1) ->
        getFeedback w1 = (r, w1) /\ (missing w feedback = false -> w1 = w))
  /\ (forall r w1, getCustomerRecords w = (r, w1) ->
        getCustomerRecords w1 = (r, w1)
        /\ (missing w customerRecords = false -> w1 = w)).
Proof.
  split; [intros; now apply loadStore_again|].
  split; intros r w1; apply listing_again.
Qed.

(** ** Notifications *)

(** When [sendSms] does nothing.  Without an account SID or a token no client
    is made, and [sendSms] only logs that the service is not configured and
    returns normally, whatever [to] is.  It does the same when a client was
    obtained and no sender number is set.  With both credentials set, the
    client is made exactly when the account SID starts with [AC]; otherwise
    the constructor throws and [sendSms] fails with its error, logging
    nothing, whether or not a sender number is set. *)
Theorem sendSms_unconfigured (rt : runtime) (to : value) (body : string) (w : world) :
  let warned :=
    (Ok tt,
     World (files w) (trace w ++ [Warn "SMS service not configured. Skipping SMS."])) in
  (unset rt "TWILIO_SID" \/ unset rt "TWILIO_AUTH" ->
   getTwilioClient rt = Ok None /\ sendSms rt to body w = warned)
  /\ ((exists client, getTwilioClient rt = Ok (Some client)) ->
      unset rt "TWILIO_PHONE" -> sendSms rt to body w = warned)
  /\ (forall sid token,
        env rt !! "TWILIO_SID" = Some sid -> sid <> "" ->
        env rt !! "TWILIO_AUTH" = Some token -> token <> "" ->
        (startsWith "AC" sid = true -> getTwilioClient rt = Ok (Some (sid, token)))
        /\ (startsWith "AC" sid = false ->
            getTwilioClient rt = Throw ClientError
            /\ sendSms rt to body w = (Throw ClientError, w))).
Proof.
  intros warned. split; [|split].
  - intros H.
    assert (Hc : getTwilioClient rt = Ok None).
    { unfold getTwilioClient, unset in *.
      destruct (env rt !! "TWILIO_SID") as [sid|]; [|reflexivity].
      destruct (env rt !! "TWILIO_AUTH") as [token|]; [|reflexivity].
      destruct H as [[H|H]|[H|H]]; try discriminate; injection H as ->.
      - reflexivity.
      - now destruct (is_empty sid). }
    split; [exact Hc | now apply sendSms_without_client].
  - intros [client Hc] H. rewrite (sendSms_with_client rt client _ _ _ Hc).
    destruct H as [-> | ->]; reflexivity.
  - intros sid token Hsid Nsid Htok Ntok.
    assert (Hc : getTwilioClient rt =
                 if startsWith "AC" sid then Ok (Some (sid, token))
                 else Throw ClientError).
    { unfold getTwilioClient, twilio. rewrite Hsid, Htok.
      destruct sid; [congruence|]. destruct token; [congruence|].
      cbn [is_empty orb]. now destruct (startsWith "AC" _). }
    split; intros E; rewrite E in Hc; [exact Hc|].
    split; [exact Hc | now apply sendSms_client_fails].
Qed.

Lemma sendSms_unconfigured_witness :
  sendSms bare_rt (VNum (of_Z 5)) "hello" fresh_world =
  (Ok tt, World ∅ [Warn "SMS service not configured. Skipping SMS."])
  /\ sendSms bad_sid_rt (VStr "9876543210") "hello" fresh_world =
     (Throw ClientError, fresh_world).
Proof.
  split.
  - apply (proj1 (sendSms_unconfigured bare_rt (VNum (of_Z 5)) "hello" fresh_world)).
    left. left. reflexivity.
  - apply (proj2 (proj2 (sendSms_unconfigured bad_sid_rt (VStr "9876543210") "hello"
                           fresh_world)) "sid123" "secret");
      reflexivity || discriminate.
Defined.

Lemma emits_nothing {A : Type} P (m : M A) :
  (forall w, exists r, m w = (r, w)) -> emits P 0 m.
Proof.
  intros H w r w' E. destruct (H w) as [r' E']. rewrite E' in E.
  injection E as <- <-. split; [reflexivity|]. exists []. rewrite app_nil_r. auto.
Qed.

Lemma emits_emit (P : event -> Prop) e : P e -> emits P 1 (emit e).
Proof.
  intros H w r w' [= <- <-]. split; [reflexivity|]. exists [e]. cbn. auto.
Qed.

Lemma emits_weaken {A : Type} P n n' (m : M A) :
  (n <= n')%nat -> emits P n m -> emits P n' m.
Proof.
  intros Hn H w r w' E. destruct (H w r w' E) as (Hf & new & Ht & Hl & HP).
  split; [exact Hf|]. exists new. repeat split; auto. lia.
Qed.

Lemma emits_sendSms rt to b body :
  b = body \/ b = "[ADMIN] " +:+ body ->
  emits (well_addressed rt body) 1 (sendSms rt to b).
Proof.
  intros Hb w r w'. destruct (getTwilioClient rt) as [[client|]|e] eqn:Hc.
  2: { rewrite (sendSms_without_client rt _ _ _ Hc). now apply emits_emit. }
  2: { rewrite (sendSms_client_fails rt e _ _ _ Hc). intros [= <- <-].
       split; [reflexivity|]. exists []. rewrite app_nil_r. auto. }
  rewrite (sendSms_with_client rt client _ _ _ Hc).
  destruct (env rt !! "TWILIO_PHONE") as [from|] eqn:Hf; [|now apply emits_emit].
  destruct (is_empty from) eqn:He; [now apply emits_emit|].
  destruct to; try (intros [= <- <-]; split; [reflexivity|]; exists [];
                    rewrite app_nil_r; now auto).
  destruct (negb (test_plus_digits (normalize_to rt s))) eqn:Et; [now apply emits_emit|].
  apply negb_false_iff, test_plus_digits_spec in Et.
  unfold messages_create, mbind, M_bind, emit.
  intros E. assert (w' = World (files w) (trace w ++ [MessagesCreate from (normalize_to rt s) b])) as ->.
  { destruct (provider_accepts rt from (normalize_to rt s) b); now injection E. }
  split; [reflexivity|]. eexists. split; [reflexivity|]. split; [cbn; lia|].
  constructor; [|constructor]. cbn. repeat split; auto. now destruct from.
Qed.

Lemma promise_all_unchanged tasks w : exists r, promise_all tasks w = (r, w).
Proof.
  unfold promise_all. destruct (first_rejection rejected_early tasks) as [e|];
    [now exists (Throw e)|].
  destruct (first_rejection rejected_late tasks) as [e|];
    [now exists (Throw e) | now exists (Ok tt)].
Qed.

(** However [notifyCustomerAndAdmin] ends, it touches no file and causes at
    most two events; every message it hands to the provider comes from the
    configured, non-empty sender, goes to a number made of [+] and ten to
    fifteen digits, and carries the text as it is or with the administrator
    mark in front. *)
Theorem notify_messages (rt : runtime) (customerPhone adminPhone : value)
    (body : string) (w : world) (r : result unit) (w' : world) :
  notifyCustomerAndAdmin rt customerPhone adminPhone body w = (r, w') ->
  files w' = files w
  /\ exists new,
       trace w' = trace w ++ new /\ (length new <= 2)%nat
       /\ Forall (well_addressed rt body) new.
Proof.
  unfold notifyCustomerAndAdmin, mbind, M_bind, settle.
  destruct (truthy customerPhone), (truthy adminPhone).
  - destruct (sendSms rt customerPhone body w) as [r1 w1] eqn:E1. cbn -[promise_all].
    destruct (sendSms rt adminPhone ("[ADMIN] " +:+ body) w1) as [r2 w2] eqn:E2.
    cbn -[promise_all]. intros E.
    destruct (emits_sendSms rt customerPhone body body (or_introl eq_refl) _ _ _ E1)
      as (F1 & n1 & T1 & L1 & P1).
    destruct (emits_sendSms rt adminPhone _ body (or_intror eq_refl) _ _ _ E2)
      as (F2 & n2 & T2 & L2 & P2).
    assert (w' = w2) as ->
      by (destruct (promise_all_unchanged [r1; r2] w2) as [r' E'];
          rewrite E' in E; now injection E).
    split; [congruence|]. exists (n1 ++ n2).
    split; [rewrite T2, T1; now rewrite app_assoc|].
    split; [rewrite length_app; lia | now apply Forall_app].
  - destruct (sendSms rt customerPhone body w) as [r1 w1] eqn:E1.
    cbn -[promise_all]. intros E.
    destruct (emits_sendSms rt customerPhone body body (or_introl eq_refl) _ _ _ E1)
      as (F1 & n1 & T1 & L1 & P1).
    assert (w' = w1) as ->
      by (destruct (promise_all_unchanged [r1] w1) as [r' E'];
          rewrite E' in E; now injection E).
    split; [congruence|]. exists n1. split; [exact T1|]. split; [lia|exact P1].
  - cbn -[promise_all].
    destruct (sendSms rt adminPhone ("[ADMIN] " +:+ body) w) as [r2 w2] eqn:E2.
    cbn -[promise_all]. intros E.
    destruct (emits_sendSms rt adminPhone _ body (or_intror eq_refl) _ _ _ E2)
      as (F2 & n2 & T2 & L2 & P2).
    assert (w' = w2) as ->
      by (destruct (promise_all_unchanged [r2] w2) as [r' E'];
          rewrite E' in E; now injection E).
    split; [congruence|]. exists n2. split; [exact T2|]. split; [lia|exact P2].
  - cbn -[promise_all]. intros [= <- <-]. split; [reflexivity|]. eexists. split; [reflexivity|].
    split; [cbn; lia|]. now repeat constructor.
Qed.

Lemma notify_messages_witness :
  files (World ∅ [MessagesCreate "+15005550006" "+919876543210" "hello";
                  MessagesCreate "+15005550006" "+14155552671" "[ADMIN] hello"])
  = files fresh_world
  /\ exists new,
       [MessagesCreate "+15005550006" "+919876543210" "hello";
        MessagesCreate "+15005550006" "+14155552671" "[ADMIN] hello"]
       = trace fresh_world ++ new
       /\ (length new <= 2)%nat
       /\ Forall (well_addressed sample_rt "hello") new.
Proof.
  apply (notify_messages sample_rt (VStr "9876543210") (VStr "+14155552671") "hello"
           fresh_world (Ok tt)
           (World ∅ [MessagesCreate "+15005550006" "+919876543210" "hello";
                     MessagesCreate "+15005550006" "+14155552671" "[ADMIN] hello"])).
  reflexivity.
Defined.

Lemma sendSms_valid rt from to body w :
  (exists client, getTwilioClient rt = Ok (Some client)) ->
  env rt !! "TWILIO_PHONE" = Some from -> from <> "" ->
  plus_digits (normalize_to rt to) ->
  sendSms rt (VStr to) body w =
  (if provider_accepts rt from (normalize_to rt to) body then Ok tt
   else Throw ProviderError,
   World (files w) (trace w ++ [MessagesCreate from (normalize_to rt to) body])).
Proof.
  intros [client Hc] Hf Hne Hp. rewrite (sendSms_with_client rt client _ _ _ Hc), Hf.
  destruct from; [congruence|]. cbn [is_empty].
  apply test_plus_digits_spec in Hp. rewrite Hp. cbn [negb].
  unfold messages_create, mbind, M_bind, emit.
  now destruct (provider_accepts rt _ _ body).
Qed.

Lemma normalize_plus rt to : plus_digits to -> normalize_to rt to = to.
Proof. intros (ds & -> & _). reflexivity. Qed.

Lemma plus_digits_truthy s : plus_digits s -> truthy (VStr s) = true.
Proof. intros (ds & -> & _). reflexivity. Qed.

(** Both recipients are tried: with the provider configured and two
    well-formed numbers, the customer's message and then the administrator's
    are handed to the provider whether or not the first is accepted, and the
    notification fails exactly when one of them is turned down. *)
Theorem notify_tries_both (rt : runtime) (from customer admin body : string)
    (w : world) :
  (exists client, getTwilioClient rt = Ok (Some client)) ->
  env rt !! "TWILIO_PHONE" = Some from -> from <> "" ->
  plus_digits customer -> plus_digits admin ->
  notifyCustomerAndAdmin rt (VStr customer) (VStr admin) body w =
  (if provider_accepts rt from customer body then
     if provider_accepts rt from admin ("[ADMIN] " +:+ body) then Ok tt
     else Throw ProviderError
   else Throw ProviderError,
   World (files w)
     (trace w ++ [MessagesCreate from customer body;
                  MessagesCreate from admin ("[ADMIN] " +:+ body)])).
Proof.
  intros Hc Hf Hne Hcu Had. unfold notifyCustomerAndAdmin.
  rewrite (plus_digits_truthy _ Hcu), (plus_digits_truthy _ Had).
  unfold mbind, M_bind, settle.
  rewrite (sendSms_valid rt from customer body w Hc Hf Hne)
    by now rewrite normalize_plus.
  cbv beta iota zeta delta [mret M_ret].
  rewrite (sendSms_valid rt from admin _ _ Hc Hf Hne) by now rewrite normalize_plus.
  rewrite !normalize_plus by assumption.
  cbn [files trace app]. rewrite <- app_assoc. cbn [app].
  destruct (provider_accepts rt from customer body),
           (provider_accepts rt from admin ("[ADMIN] " +:+ body)); reflexivity.
Qed.

Lemma notify_tries_both_witness :
  notifyCustomerAndAdmin refusing_rt (VStr "+919876543210") (VStr "+14155552671")
    "hello" fresh_world =
  (Throw ProviderError,
   World ∅ [MessagesCreate "+15005550006" "+919876543210" "hello";
            MessagesCreate "+15005550006" "+14155552671" "[ADMIN] hello"]).
Proof.
  apply (notify_tries_both refusing_rt "+15005550006" "+919876543210" "+14155552671"
           "hello" fresh_world); try reflexivity; try discriminate.
  - eexists. reflexivity.
  - exists "919876543210". split; [reflexivity|]. split; [reflexivity|simpl; lia].
  - exists "14155552671". split; [reflexivity|]. split; [reflexivity|simpl; lia].
Defined.

(** ** Handlers that never log *)

Lemma silent_ret {A : Type} (a : A) : silent (mret a).
Proof. now intros w r w' [= <- <-]. Qed.

Lemma silent_throw {A : Type} (e : exn) : silent (@throw A e).
Proof. now intros w r w' [= <- <-]. Qed.

Lemma silent_lift {A : Type} (o : option A) : silent (lift o).
Proof. destruct o; [apply silent_ret | apply silent_throw]. Qed.

Lemma silent_bind {A B : Type} (m : M A) (f : A -> M B) :
  silent m -> (forall a, silent (f a)) -> silent (m ≫= f).
Proof.
  intros Hm Hf w r w'. unfold mbind, M_bind.
  destruct (m w) as [[a|e] w1] eqn:E.
  - intros E'. rewrite (Hf a _ _ _ E'). exact (Hm _ _ _ E).
  - intros [= <- <-]. exact (Hm _ _ _ E).
Qed.

Lemma silent_loadStore key : silent (loadStore key).
Proof.
  intros w r w'. rewrite loadStore_cases.
  destruct (files w !! STORE_FILES key) as [[code|[data|]]|];
    [destruct (String.eqb code "ENOENT")|..]; now intros [= <- <-].
Qed.

Lemma silent_saveStore key data : silent (saveStore key data).
Proof.
  unfold saveStore, writeJson. apply silent_bind; [apply silent_lift|].
  intros payload w r w'. now intros [= <- <-].
Qed.

Lemma silent_addRecord key record : silent (addRecord key record).
Proof.
  unfold addRecord. apply silent_bind; [apply silent_loadStore|]. intros records.
  apply silent_bind; [destruct records; apply silent_throw || apply silent_ret|].
  intros records'. apply silent_bind; [apply silent_saveStore|].
  intros; apply silent_ret.
Qed.

Lemma silent_filter_items p items :
  (forall x, silent (p x)) -> silent (filter_items p items).
Proof.
  intros Hp. induction items as [|x r IH]; cbn [filter_items]; [apply silent_ret|].
  apply silent_bind; [apply Hp|]. intros keep.
  apply silent_bind; [exact IH|]. intros; apply silent_ret.
Qed.

Lemma handlers_silent rt reqBody id :
  silent (postFeedback rt reqBody)
  /\ silent (postContact rt reqBody)
  /\ silent getFeedback
  /\ silent getCustomerRecords
  /\ silent (deleteCustomerRecord id).
Proof.
  split; [|split; [|split; [|split]]].
  - unfold postFeedback. apply silent_bind; [apply silent_lift|]. intros x.
    destruct (_ || _); [apply silent_ret|].
    apply silent_bind; [apply silent_addRecord | intros; apply silent_ret].
  - unfold postContact. destruct (_ || _); [apply silent_ret|].
    apply silent_bind; [apply silent_addRecord | intros; apply silent_ret].
  - unfold getFeedback.
    apply silent_bind; [apply silent_loadStore | intros; apply silent_ret].
  - unfold getCustomerRecords.
    apply silent_bind; [apply silent_loadStore | intros; apply silent_ret].
  - unfold deleteCustomerRecord.
    apply silent_bind; [apply silent_loadStore|]. intros records.
    apply silent_bind.
    + destruct records; try apply silent_throw. apply silent_filter_items.
      intros x. unfold id_differs.
      apply silent_bind; [apply silent_lift | intros; apply silent_ret].
    + intros next. destruct (_ =? _)%nat; [apply silent_ret|].
      apply silent_bind; [apply silent_saveStore | intros; apply silent_ret].
Qed.

Lemma silent_hushed handler : silent handler -> hushed handler.
Proof.
  intros H w r w'. unfold route.
  destruct (handler w) as [[resp|e] w1] eqn:E; intros [= <- <-].
  - left. exists resp. split; [reflexivity | exact (H _ _ _ E)].
  - right. split; [reflexivity|]. cbn [trace]. now rewrite (H _ _ _ E).
Qed.

(** Feedback, contact messages, the two listings and the deletion never send
    a message.  When the handler answers, nothing is logged; when it throws,
    Express leaves the request unanswered and the only thing logged is the
    warning of the [unhandledRejection] hook. *)
Theorem only_submissions_notify (rt : runtime) (reqBody : value) (id : string) :
  hushed (postFeedback rt reqBody)
  /\ hushed (postContact rt reqBody)
  /\ hushed getFeedback
  /\ hushed getCustomerRecords
  /\ hushed (deleteCustomerRecord id).
Proof.
  destruct (handlers_silent rt reqBody id) as (H1 & H2 & H3 & H4 & H5).
  repeat split; now apply silent_hushed.
Qed.

(** ** Notifications are best effort *)

Lemma outcome_bind {A B : Type} (m : M A) (k1 k2 : A -> M B) w :
  (forall a w', outcome (k1 a w') = outcome (k2 a w')) ->
  outcome ((m ≫= k1) w) = outcome ((m ≫= k2) w).
Proof.
  intros H. unfold mbind, M_bind. destruct (m w) as [[a|e] w']; [apply H|reflexivity].
Qed.

Lemma outcome_best_effort {A : Type} (m1 m2 : M unit) msg (a : A) w :
  quiet m1 -> quiet m2 ->
  outcome ((try_catch m1 (fun _ => console_warn msg) ≫= fun _ => mret a) w) =
  outcome ((try_catch m2 (fun _ => console_warn msg) ≫= fun _ => mret a) w).
Proof.
  intros H1 H2.
  destruct (best_effort m1 msg w H1) as [tr1 E1].
  destruct (best_effort m2 msg w H2) as [tr2 E2].
  erewrite !bind_ok by eassumption. reflexivity.
Qed.

(** Notifying is best effort: for the same identifier and instant, the
    answer of an appointment or spare-parts submission and every file are the
    same under any two environments and providers, whether the provider is
    configured, accepts or fails. *)
Theorem notification_never_decides (rt1 rt2 : runtime) :
  randomUUID rt1 = randomUUID rt2 -> toISOString rt1 = toISOString rt2 ->
  (forall reqBody w,
     outcome (postAppointments rt1 reqBody w) = outcome (postAppointments rt2 reqBody w))
  /\ (forall reqBody w,
        outcome (postSpares rt1 reqBody w) = outcome (postSpares rt2 reqBody w)).
Proof.
  intros Hu Ht. split; intros reqBody w.
  - unfold postAppointments, customer_record. rewrite Hu, Ht.
    destruct (_ || _); [reflexivity|].
    apply outcome_bind; intros v w1. apply outcome_bind; intros i w2.
    apply outcome_bind; intros _ w3. apply outcome_bind; intros _ w4.
    apply outcome_best_effort;
      (repeat (apply quiet_bind; [apply quiet_text_of | intros ?]); apply quiet_notify).
  - unfold postSpares, customer_record. rewrite Hu, Ht.
    destruct (_ || _); [reflexivity|].
    apply outcome_bind; intros s w1. apply outcome_bind; intros t w2.
    apply outcome_bind; intros _ w3. apply outcome_bind; intros _ w4.
    apply outcome_best_effort;
      (repeat (apply quiet_bind; [apply quiet_text_of | intros ?]); apply quiet_notify).
Qed.

Lemma notification_never_decides_witness :
  outcome (postAppointments refusing_rt sample_appointment fresh_world) =
  outcome (postAppointments bare_rt sample_appointment fresh_world)
  /\ outcome (postSpares refusing_rt sample_spares fresh_world) =
     outcome (postSpares bare_rt sample_spares fresh_world).
Proof.
  split; apply (notification_never_decides refusing_rt bare_rt eq_refl eq_refl).
Defined.

(** ** Parts that are not objects *)

Lemma pure_ret {A : Type} (a : A) : pure_or_type_error (mret a).
Proof. intros w. left. now exists a. Qed.


Lemma pure_bind {A B : Type} (m : M A) (f : A -> M B) :
  pure_or_type_error m -> (forall a, pure_or_type_error (f a)) ->
  pure_or_type_error (m ≫= f).
Proof.
  intros Hm Hf w. unfold mbind, M_bind.
  destruct (Hm w) as [[a E]|E]; rewrite E; [apply Hf | now right].
Qed.


Lemma pure_map_items {A : Type} (f : value -> M A) items :
  (forall x, pure_or_type_error (f x)) -> pure_or_type_error (map_items f items).
Proof.
  intros Hf. induction items as [|x r IH]; cbn [map_items]; [apply pure_ret|].
  apply pure_bind; [apply Hf|]. intros y.
  apply pure_bind; [exact IH | intros; apply pure_ret].
Qed.





(** ** What the stores hold after a submission *)

(** The entry a spare-parts request leaves in the spares store carries the
    identifier of the request and the parts and total as submitted (in
    serialised form): the defaults of the summary are not stored. *)
Theorem spares_entry_keeps_parts (rt : runtime) (reqBody : value) (w : world)
    (items : list value) (texts : list string) (t : string) (S R : list value) :
  truthy (submitted reqBody "name") = true ->
  truthy (submitted reqBody "phone") = true ->
  truthy (submitted reqBody "address") = true ->
  submitted reqBody "parts" = VArr items -> items <> [] ->
  Forall2 (fun part s => nullish part = false /\ part_text part = Some s) items texts ->
  text_or (submitted reqBody "total") "0" = Some t ->
  stored w spares = Some S ->
  stored w customerRecords = Some R ->
  exists resp w' entry,
    postSpares rt reqBody w = (Ok resp, w')
    /\ stored w' spares = Some (map json_item S ++ [entry])
    /\ field entry "id" = VStr (randomUUID rt)
    /\ field entry "parts" = VArr (map json_item items)
    /\ field entry "total" = json_roundtrip (submitted reqBody "total").
Proof.
  intros Hn Hp Ha Hparts Hne Htexts Ht SS SR.
  destruct (postSpares_accepted rt reqBody w items texts t S R) as [tr E]; auto.
  cbv zeta in E. eexists _, _, _. split; [exact E|]. split; [|split; [|split]].
  - rewrite stored_trace, stored_put_ne by discriminate.
    rewrite stored_put_eq, map_app. reflexivity.
  - reflexivity.
  - rewrite Hparts, spares_entry_shape, <- json_roundtrip_arr.
    apply field_json_item_obj; [reflexivity|discriminate].
  - rewrite spares_entry_shape, Hparts.
    destruct (submitted reqBody "total") eqn:Et;
      try (apply field_json_item_obj; [reflexivity|discriminate]).
    apply field_json_item_dropped.
    pose proof (truthy_defined _ Hn). pose proof (truthy_defined _ Hp).
    pose proof (truthy_defined _ Ha).
    rewrite !json_props_cons by (assumption || discriminate). reflexivity.
Qed.

Lemma spares_entry_keeps_parts_witness :
  exists resp w' entry,
    postSpares bare_rt sample_spares fresh_world = (Ok resp, w')
    /\ stored w' spares = Some (map json_item [] ++ [entry])
    /\ field entry "id" = VStr (randomUUID bare_rt)
    /\ field entry "parts" =
       VArr (map json_item [VObj [("name", VStr "Brake Pad"); ("qty", VNum (of_Z 2));
                                  ("amount", VNum (of_Z 500))]])
    /\ field entry "total" = json_roundtrip (submitted sample_spares "total").
Proof.
  apply (spares_entry_keeps_parts bare_rt sample_spares fresh_world
           [VObj [("name", VStr "Brake Pad"); ("qty", VNum (of_Z 2));
                  ("amount", VNum (of_Z 500))]]
           ["Brake Pad | Qty: 2 | Amount: 500"] "1000" [] []);
    try reflexivity; try discriminate.
  constructor; [|constructor]. split; reflexivity.
Defined.

(** An accepted contact message is answered with [{ok: true}] alone, adds
    one entry with the identifier, the three submitted fields and the instant
    at the end of the contacts store, and is never notified. *)
Theorem contact_stored (rt : runtime) (reqBody : value) (w : world) (C : list value) :
  truthy (submitted reqBody "name") = true ->
  truthy (submitted reqBody "phone") = true ->
  truthy (submitted reqBody "message") = true ->
  stored w contacts = Some C ->
  exists w' entry,
    postContact rt reqBody w = (Ok (Response 200 (VObj [("ok", VBool true)])), w')
    /\ stored w' contacts = Some (map json_item C ++ [entry])
    /\ entry = VObj [("id", VStr (randomUUID rt));
                     ("name", json_roundtrip (submitted reqBody "name"));
                     ("phone", json_roundtrip (submitted reqBody "phone"));
                     ("message", json_roundtrip (submitted reqBody "message"));
                     ("createdAt", VStr (toISOString rt))]
    /\ trace w' = trace w.
Proof.
  intros Hn Hp Hm SC.
  pose proof (postContact_accepted rt reqBody w C Hn Hp Hm SC) as E. cbv zeta in E.
  eexists _, _. split; [exact E|]. split; [|split; [|reflexivity]].
  - rewrite stored_put_eq, map_app. reflexivity.
  - pose proof (truthy_defined _ Hn). pose proof (truthy_defined _ Hp).
    pose proof (truthy_defined _ Hm).
    change (json_item (VObj ?ps)) with (VObj (json_props ps)).
    rewrite !json_props_cons by (assumption || discriminate). reflexivity.
Qed.

Lemma contact_stored_witness :
  exists w' entry,
    postContact bare_rt sample_contact fresh_world =
    (Ok (Response 200 (VObj [("ok", VBool true)])), w')
    /\ stored w' contacts = Some (map json_item [] ++ [entry])
    /\ entry = VObj [("id", VStr (randomUUID bare_rt));
                     ("name", json_roundtrip (submitted sample_contact "name"));
                     ("phone", json_roundtrip (submitted sample_contact "phone"));
                     ("message", json_roundtrip (submitted sample_contact "message"));
                     ("createdAt", VStr (toISOString bare_rt))]
    /\ trace w' = trace fresh_world.
Proof.
  apply (contact_stored bare_rt sample_contact fresh_world []); reflexivity.
Defined.

(** What an accepted feedback is answered with is what the listing shows
    next: the feedback store as it was, followed by the record of the
    answer. *)
Theorem feedback_listed (rt : runtime) (reqBody : value) (w : world)
    (x : number) (old : list value) :
  truthy (submitted reqBody "name") = true ->
  truthy (submitted reqBody "message") = true ->
  to_number (submitted reqBody "rating") = Some x ->
  isFinite x = true -> gt x pos_zero = true ->
  stored w feedback = Some old ->
  exists resp w' entry,
    postFeedback rt reqBody w = (Ok resp, w')
    /\ field (body resp) "record" = entry
    /\ getFeedback w' =
       (Ok (Response 200 (VObj [("ok", VBool true);
                                ("records", VArr (map json_item old ++ [entry]))])),
        w').
Proof.
  intros Hn Hm Hx Hf Hg Hs.
  pose proof (postFeedback_accepted rt reqBody w x old Hn Hm Hx Hf Hg Hs) as E.
  cbv zeta in E. eexists _, _, _. split; [exact E|]. split; [reflexivity|].
  unfold getFeedback. erewrite bind_ok by apply loadStore_put.
  unfold res_json. rewrite json_roundtrip_obj.
  rewrite !json_props_cons by discriminate. rewrite json_roundtrip_arr.
  rewrite map_json_item_idempotent, map_app. reflexivity.
Qed.

Lemma feedback_listed_witness :
  exists resp w' entry,
    postFeedback bare_rt (rated (VStr "4.5")) fresh_world = (Ok resp, w')
    /\ field (body resp) "record" = entry
    /\ getFeedback w' =
       (Ok (Response 200 (VObj [("ok", VBool true);
                                ("records", VArr (map json_item [] ++ [entry]))])),
        w').
Proof.
  apply (feedback_listed bare_rt (rated (VStr "4.5")) fresh_world
           (string_to_number "4.5") []); reflexivity.
Defined.

(** ** Deleting, again and after a submission *)

Lemma deleteCustomerRecord_run id w records :
  stored w customerRecords = Some records ->
  Forall (fun r => nullish r = false) records ->
  deleteCustomerRecord id w =
  if (length (List.filter (fun r => negb (has_id id r)) records) =? length records)%nat
  then (Ok (respondError 404 "Record not found."), loaded customerRecords w)
  else (Ok (res_json 200 ok_true),
        put customerRecords
          (map json_item (List.filter (fun r => negb (has_id id r)) records)) w).
Proof.
  intros Hs Hrec. unfold deleteCustomerRecord.
  erewrite bind_ok by (apply loadStore_stored, Hs).
  cbn [array_filter].
  erewrite bind_ok by (apply filter_items_ids, Hrec). cbn [items_of].
  destruct (_ =? _)%nat; [reflexivity|].
  erewrite bind_ok by apply saveStore_arr. now rewrite put_loaded.
Qed.

Lemma well_kept_filter p l : well_kept l -> well_kept (List.filter p l).
Proof. apply Forall_filter_keep. Qed.

Lemma filter_filter_same {A : Type} (p : A -> bool) l :
  List.filter p (List.filter p l) = List.filter p l.
Proof.
  induction l as [|x r IH]; [reflexivity|]. cbn [List.filter].
  destruct (p x) eqn:E; [|exact IH]. cbn [List.filter]. now rewrite E, IH.
Qed.

Lemma loaded_put key items w : loaded key (put key items w) = put key items w.
Proof.
  unfold loaded, missing. cbn [put files]. now rewrite lookup_insert_eq.
Qed.

(** Deleting twice: after a deletion that found the identifier, the store
    holds the records without it, and a second deletion of the same
    identifier is answered 404 and writes nothing. *)
Theorem delete_twice (id : string) (w : world) (records : list value) :
  stored w customerRecords = Some records ->
  well_kept records ->
  Exists (fun r => has_id id r = true) records ->
  exists w1,
    deleteCustomerRecord id w = (Ok (Response 200 (VObj [("ok", VBool true)])), w1)
    /\ stored w1 customerRecords =
       Some (List.filter (fun r => negb (has_id id r)) records)
    /\ deleteCustomerRecord id w1 =
       (Ok (Response 404 (VObj [("ok", VBool false);
                                ("message", VStr "Record not found.")])), w1).
Proof.
  intros Hs Hk Hex.
  set (remaining := List.filter (fun r => negb (has_id id r)) records).
  assert (Hrem : well_kept remaining) by now apply well_kept_filter.
  exists (put customerRecords remaining w). split; [|split].
  - rewrite (deleteCustomerRecord_run id w records Hs (well_kept_defined _ Hk)).
    fold remaining. destruct (_ =? _)%nat eqn:El.
    + exfalso. apply Nat.eqb_eq, filter_same_length, no_match_iff in El. contradiction.
    + now rewrite (well_kept_clean _ Hrem).
  - apply stored_put_eq.
  - rewrite (deleteCustomerRecord_run id _ remaining (stored_put_eq _ _ _)
               (well_kept_defined _ Hrem)).
    unfold remaining at 1 2. rewrite filter_filter_same. fold remaining.
    rewrite Nat.eqb_refl, loaded_put. reflexivity.
Qed.

Lemma delete_twice_witness :
  exists w1,
    deleteCustomerRecord "r1" twin_world =
    (Ok (Response 200 (VObj [("ok", VBool true)])), w1)
    /\ stored w1 customerRecords =
       Some (List.filter (fun r => negb (has_id "r1" r)) twin_records)
    /\ deleteCustomerRecord "r1" w1 =
       (Ok (Response 404 (VObj [("ok", VBool false);
                                ("message", VStr "Record not found.")])), w1).
Proof.
  apply (delete_twice "r1" twin_world twin_records); try reflexivity.
  - repeat (constructor; [split; reflexivity|]). constructor.
  - apply Exists_cons_hd. reflexivity.
Defined.

Lemma has_id_refl id ps : assoc "id" ps = Some (VStr id) -> has_id id (VObj ps) = true.
Proof.
  intros H. unfold has_id, field, get. rewrite H. cbn. apply String.eqb_refl.
Qed.

(** Deleting the customer record of an appointment just taken, by the
    identifier the answer carries, brings the customer records back to what
    they were, and the appointment stays in the appointments store. *)
Theorem appointment_then_delete (rt : runtime) (reqBody : value) (w : world)
    (v i : string) (A R : list value) :
  truthy (submitted reqBody "name") = true ->
  truthy (submitted reqBody "phone") = true ->
  truthy (submitted reqBody "address") = true ->
  truthy (submitted reqBody "vehicle") = true ->
  truthy (submitted reqBody "issue") = true ->
  to_string (submitted reqBody "vehicle") = Some v ->
  to_string (submitted reqBody "issue") = Some i ->
  stored w appointments = Some A ->
  stored w customerRecords = Some R ->
  well_kept R ->
  Forall (fun r => has_id (randomUUID rt) r = false) R ->
  exists resp w1 w2 a,
    postAppointments rt reqBody w = (Ok resp, w1)
    /\ field (field (body resp) "record") "id" = VStr (randomUUID rt)
    /\ deleteCustomerRecord (randomUUID rt) w1 =
       (Ok (Response 200 (VObj [("ok", VBool true)])), w2)
    /\ stored w2 customerRecords = Some R
    /\ stored w2 appointments = Some (map json_item A ++ [a])
    /\ field a "id" = VStr (randomUUID rt).
Proof.
  intros Hn Hp Ha Hv Hi Tv Ti SA SR Hk Hfresh.
  destruct (postAppointments_accepted rt reqBody w v i A R) as [tr E]; auto.
  cbv zeta in E.
  set (record := customer_record rt "Appointment" (submitted reqBody "name")
                   (submitted reqBody "phone") (submitted reqBody "address")
                   ("Vehicle: " +:+ v +:+ " | Issue: " +:+ i)) in *.
  set (w1 := World _ tr) in E.
  assert (Hjr : has_id (randomUUID rt) (json_item record) = true).
  { unfold record. change (json_item ?r) with (json_roundtrip r).
    rewrite json_customer_record by assumption. now apply has_id_refl. }
  assert (S1 : stored w1 customerRecords = Some (R ++ [json_item record])).
  { unfold w1. rewrite stored_trace, stored_put_eq, map_app.
    now rewrite (well_kept_clean _ Hk). }
  assert (Hd : Forall (fun r => nullish r = false) (R ++ [json_item record])).
  { apply Forall_app. split; [now apply well_kept_defined|]. now repeat constructor. }
  assert (Hf : List.filter (fun r => negb (has_id (randomUUID rt) r))
                 (R ++ [json_item record]) = R).
  { rewrite List.filter_app, filter_all.
    - cbn [List.filter]. rewrite Hjr. apply app_nil_r.
    - eapply Forall_impl; [exact Hfresh|]. now intros r ->. }
  eexists _, w1, (put customerRecords R w1), _. split; [exact E|].
  split; [reflexivity|]. split; [|split; [|split]].
  - rewrite (deleteCustomerRecord_run _ w1 _ S1 Hd), Hf.
    destruct (_ =? _)%nat eqn:El.
    + apply Nat.eqb_eq in El. rewrite length_app in El. cbn in El. lia.
    + now rewrite (well_kept_clean _ Hk).
  - apply stored_put_eq.
  - rewrite stored_put_ne by discriminate. unfold w1.
    rewrite stored_trace, stored_put_ne by discriminate.
    rewrite stored_put_eq, map_app. reflexivity.
  - reflexivity.
Qed.

Lemma appointment_then_delete_witness :
  exists resp w1 w2 a,
    postAppointments bare_rt sample_appointment twin_world = (Ok resp, w1)
    /\ field (field (body resp) "record") "id" = VStr (randomUUID bare_rt)
    /\ deleteCustomerRecord (randomUUID bare_rt) w1 =
       (Ok (Response 200 (VObj [("ok", VBool true)])), w2)
    /\ stored w2 customerRecords = Some twin_records
    /\ stored w2 appointments = Some (map json_item [] ++ [a])
    /\ field a "id" = VStr (randomUUID bare_rt).
Proof.
  apply (appointment_then_delete bare_rt sample_appointment twin_world
           "Swift" "Brake noise" [] twin_records); try reflexivity.
  - repeat (constructor; [split; reflexivity|]). constructor.
  - repeat (constructor; [reflexivity|]). constructor.
Defined.

(** ** Stores that do not load *)

(** The two writes of an appointment are not atomic.  If the appointments
    store does not load, nothing is written; if it does and the customer
    records do not, the request fails after the appointment has been
    appended to the appointments store. *)
Theorem appointment_partial_write (rt : runtime) (reqBody : value) (w : world)
    (v i : string) :
  truthy (submitted reqBody "name") = true ->
  truthy (submitted reqBody "phone") = true ->
  truthy (submitted reqBody "address") = true ->
  truthy (submitted reqBody "vehicle") = true ->
  truthy (submitted reqBody "issue") = true ->
  to_string (submitted reqBody "vehicle") = Some v ->
  to_string (submitted reqBody "issue") = Some i ->
  (stored w appointments = None ->
   exists e, postAppointments rt reqBody w = (Throw e, w))
  /\ (forall A, stored w appointments = Some A ->
      stored w customerRecords = None ->
      exists e a,
        postAppointments rt reqBody w =
        (Throw e, put appointments (map json_item A ++ [a]) w)
        /\ field a "id" = VStr (randomUUID rt)
        /\ field a "vehicle" = json_roundtrip (submitted reqBody "vehicle")).
Proof.
  intros Hn Hp Ha Hv Hi Tv Ti.
  split.
  - intros SA. destruct (addRecord_unloadable appointments
      (spread (customer_record rt "Appointment" (submitted reqBody "name")
                  (submitted reqBody "phone") (submitted reqBody "address")
                  ("Vehicle: " +:+ v +:+ " | Issue: " +:+ i))
          [("vehicle", submitted reqBody "vehicle");
           ("issue", submitted reqBody "issue")]) w SA) as [e E].
    exists e. unfold postAppointments.
    fold (submitted reqBody "name") (submitted reqBody "phone")
         (submitted reqBody "address") (submitted reqBody "vehicle")
         (submitted reqBody "issue").
    rewrite Hn, Hp, Ha, Hv, Hi. cbn [negb orb]. unfold text_of at 1 2.
    erewrite bind_ok by (apply lift_some, Tv).
    erewrite bind_ok by (apply lift_some, Ti).
    unfold mbind, M_bind at 1. now rewrite E.
  - intros A SA SR.
    set (entry := spread (customer_record rt "Appointment" (submitted reqBody "name")
                  (submitted reqBody "phone") (submitted reqBody "address")
                  ("Vehicle: " +:+ v +:+ " | Issue: " +:+ i))
          [("vehicle", submitted reqBody "vehicle");
           ("issue", submitted reqBody "issue")]).
    set (w1 := put appointments (map json_item (A ++ [entry])) w).
    destruct (addRecord_unloadable customerRecords
      (customer_record rt "Appointment" (submitted reqBody "name")
                  (submitted reqBody "phone") (submitted reqBody "address")
                  ("Vehicle: " +:+ v +:+ " | Issue: " +:+ i)) w1) as [e E].
    { unfold w1. now rewrite stored_put_ne by discriminate. }
    exists e, (json_item entry). split; [|split].
    + unfold postAppointments.
      fold (submitted reqBody "name") (submitted reqBody "phone")
           (submitted reqBody "address") (submitted reqBody "vehicle")
           (submitted reqBody "issue").
      rewrite Hn, Hp, Ha, Hv, Hi. cbn [negb orb]. unfold text_of at 1 2.
      erewrite bind_ok by (apply lift_some, Tv).
      erewrite bind_ok by (apply lift_some, Ti).
      erewrite bind_ok by (apply addRecord_stored, SA). fold entry. fold w1.
      unfold mbind, M_bind at 1. rewrite E. unfold w1. now rewrite map_app.
    + reflexivity.
    + unfold entry. rewrite appointment_entry_shape.
      apply field_json_item_obj; [reflexivity|now apply truthy_defined].
Qed.

Lemma appointment_partial_write_witness :
  exists e a,
    postAppointments bare_rt sample_appointment torn_world =
    (Throw e, put appointments (map json_item [] ++ [a]) torn_world)
    /\ field a "id" = VStr (randomUUID bare_rt)
    /\ field a "vehicle" = json_roundtrip (submitted sample_appointment "vehicle").
Proof.
  apply (appointment_partial_write bare_rt sample_appointment torn_world
           "Swift" "Brake noise"); reflexivity.
Defined.

(** ** What an appointment sends *)

Lemma notify_customer_only rt from phone body w :
  (exists client, getTwilioClient rt = Ok (Some client)) ->
  env rt !! "TWILIO_PHONE" = Some from -> from <> "" ->
  phone <> "" -> plus_digits (normalize_to rt phone) ->
  notifyCustomerAndAdmin rt (VStr phone) VUndefined body w =
  (if provider_accepts rt from (normalize_to rt phone) body then Ok tt
   else Throw ProviderError,
   World (files w) (trace w ++ [MessagesCreate from (normalize_to rt phone) body])).
Proof.
  intros Hc Hf Hne Hph Hp. unfold notifyCustomerAndAdmin.
  assert (truthy (VStr phone) = true) as -> by now destruct phone.
  cbn [truthy]. unfold mbind, M_bind, settle.
  rewrite (sendSms_valid rt from phone body w Hc Hf Hne Hp).
  now destruct (provider_accepts rt from (normalize_to rt phone) body).
Qed.

Lemma try_catch_warn (m : M unit) msg w r w' :
  m w = (r, w') ->
  try_catch m (fun _ => console_warn msg) w =
  (Ok tt, match r with
          | Ok _ => w'
          | Throw _ => World (files w') (trace w' ++ [Warn msg])
          end).
Proof. intros E. unfold try_catch. rewrite E. now destruct r as [[]|e]. Qed.

(** What an accepted appointment sends when no administrator phone is
    configured: one message to the customer's number, from the configured
    sender, with the confirmation text; if the provider turns it down, a
    warning follows and the answer is still 200. *)
Theorem appointment_notifies_customer (rt : runtime) (reqBody : value) (w : world)
    (n v i from phone : string) (A R : list value) :
  truthy (submitted reqBody "name") = true ->
  truthy (submitted reqBody "address") = true ->
  truthy (submitted reqBody "vehicle") = true ->
  truthy (submitted reqBody "issue") = true ->
  to_string (submitted reqBody "name") = Some n ->
  to_string (submitted reqBody "vehicle") = Some v ->
  to_string (submitted reqBody "issue") = Some i ->
  stored w appointments = Some A ->
  stored w customerRecords = Some R ->
  (exists client, getTwilioClient rt = Ok (Some client)) ->
  env rt !! "TWILIO_PHONE" = Some from -> from <> "" ->
  env rt !! "ADMIN_PHONE" = None ->
  submitted reqBody "phone" = VStr phone -> phone <> "" ->
  plus_digits (normalize_to rt phone) ->
  let message :=
    MessagesCreate from (normalize_to rt phone)
      ("Hi " +:+ n +:+ ", your appointment is confirmed. Vehicle: " +:+ v
       +:+ ". Issue: " +:+ i +:+ ".") in
  exists resp w',
    postAppointments rt reqBody w = (Ok resp, w')
    /\ status resp = 200
    /\ trace w' =
       trace w ++
       (if provider_accepts rt from (normalize_to rt phone)
             ("Hi " +:+ n +:+ ", your appointment is confirmed. Vehicle: " +:+ v
              +:+ ". Issue: " +:+ i +:+ ".")
        then [message]
        else [message; Warn "Appointment notification failed:"]).
Proof.
  intros Hn Ha Hv Hi Tn Tv Ti SA SR Hc Hf Hne Hadm Hphone Hph Hp message.
  assert (Ht : truthy (VStr phone) = true) by now destruct phone.
  unfold postAppointments.
  fold (submitted reqBody "name") (submitted reqBody "phone")
       (submitted reqBody "address") (submitted reqBody "vehicle")
       (submitted reqBody "issue").
  rewrite Hphone, Hn, Ht, Ha, Hv, Hi. cbn [negb orb].
  unfold text_of.
  erewrite bind_ok by (apply lift_some, Tv).
  erewrite bind_ok by (apply lift_some, Ti).
  erewrite bind_ok by (apply addRecord_stored, SA).
  erewrite bind_ok
    by (apply addRecord_stored; rewrite stored_put_ne by discriminate; exact SR).
  eexists _, _. split.
  { erewrite bind_ok; [reflexivity|]. apply try_catch_warn.
    erewrite bind_ok by (apply lift_some, Tn).
    erewrite bind_ok by (apply lift_some, Tv).
    erewrite bind_ok by (apply lift_some, Ti).
    unfold env_value. rewrite Hadm.
    apply (notify_customer_only rt from phone); assumption. }
  split; [reflexivity|]. unfold message.
  destruct (provider_accepts rt from (normalize_to rt phone) _); cbn [trace put].
  - reflexivity.
  - now rewrite <- app_assoc.
Qed.

Lemma appointment_notifies_customer_witness :
  exists resp w',
    postAppointments refusing_rt sample_appointment fresh_world = (Ok resp, w')
    /\ status resp = 200
    /\ trace w' =
       trace fresh_world ++
       (if provider_accepts refusing_rt "+15005550006"
             (normalize_to refusing_rt "9876543210")
             ("Hi " +:+ "Asha" +:+ ", your appointment is confirmed. Vehicle: "
              +:+ "Swift" +:+ ". Issue: " +:+ "Brake noise" +:+ ".")
        then [MessagesCreate "+15005550006" (normalize_to refusing_rt "9876543210")
                ("Hi " +:+ "Asha" +:+ ", your appointment is confirmed. Vehicle: "
                 +:+ "Swift" +:+ ". Issue: " +:+ "Brake noise" +:+ ".")]
        else [MessagesCreate "+15005550006" (normalize_to refusing_rt "9876543210")
                ("Hi " +:+ "Asha" +:+ ", your appointment is confirmed. Vehicle: "
                 +:+ "Swift" +:+ ". Issue: " +:+ "Brake noise" +:+ ".");
              Warn "Appointment notification failed:"]).
Proof.
  apply (appointment_notifies_customer refusing_rt sample_appointment fresh_world
           "Asha" "Swift" "Brake noise" "+15005550006" "9876543210" [] []);
    try reflexivity; try discriminate.
  - eexists. reflexivity.
  - exists "919876543210". split; [reflexivity|]. split; [reflexivity|simpl; lia].
Defined.

(** A name without a text does not fail the appointment: the confirmation
    text is built inside the [try], so the request is answered 200, the
    customer record of the answer is stored, and only a warning is logged. *)
Theorem appointment_unprintable_name (rt : runtime) (reqBody : value) (w : world)
    (v i : string) (A R : list value) :
  truthy (submitted reqBody "name") = true ->
  truthy (submitted reqBody "phone") = true ->
  truthy (submitted reqBody "address") = true ->
  truthy (submitted reqBody "vehicle") = true ->
  truthy (submitted reqBody "issue") = true ->
  to_string (submitted reqBody "name") = None ->
  to_string (submitted reqBody "vehicle") = Some v ->
  to_string (submitted reqBody "issue") = Some i ->
  stored w appointments = Some A ->
  stored w customerRecords = Some R ->
  exists resp w',
    postAppointments rt reqBody w = (Ok resp, w')
    /\ status resp = 200
    /\ stored w' customerRecords = Some (map json_item R ++ [field (body resp) "record"])
    /\ trace w' = trace w ++ [Warn "Appointment notification failed:"].
Proof.
  intros Hn Hp Ha Hv Hi Tn Tv Ti SA SR. unfold postAppointments.
  fold (submitted reqBody "name") (submitted reqBody "phone")
       (submitted reqBody "address") (submitted reqBody "vehicle")
       (submitted reqBody "issue").
  rewrite Hn, Hp, Ha, Hv, Hi. cbn [negb orb]. unfold text_of.
  erewrite bind_ok by (apply lift_some, Tv).
  erewrite bind_ok by (apply lift_some, Ti).
  erewrite bind_ok by (apply addRecord_stored, SA).
  erewrite bind_ok
    by (apply addRecord_stored; rewrite stored_put_ne by discriminate; exact SR).
  eexists _, _. split.
  { erewrite bind_ok; [reflexivity|]. apply try_catch_warn.
    rewrite Tn. reflexivity. }
  split; [reflexivity|]. split; [|reflexivity].
  rewrite stored_trace, stored_put_eq, map_app. reflexivity.
Qed.

Lemma appointment_unprintable_name_witness :
  exists resp w',
    postAppointments bare_rt odd_name_appointment fresh_world = (Ok resp, w')
    /\ status resp = 200
    /\ stored w' customerRecords = Some (map json_item [] ++ [field (body resp) "record"])
    /\ trace w' = trace fresh_world ++ [Warn "Appointment notification failed:"].
Proof.
  apply (appointment_unprintable_name bare_rt odd_name_appointment fresh_world
           "Swift" "Brake noise" [] []); reflexivity.
Defined.

(** ** The envelope of every answer *)

Lemma answers_ret P r : P r -> answers P (mret r).
Proof. now intros H w r' w' [= <- <-]. Qed.

Lemma answers_bind {A : Type} P (m : M A) (f : A -> M response) :
  (forall a, answers P (f a)) -> answers P (m ≫= f).
Proof.
  intros Hf w r w'. unfold mbind, M_bind.
  destruct (m w) as [[a|e] w1]; [apply Hf | discriminate].
Qed.

Lemma enveloped_error s message :
  s = 400 \/ s = 401 \/ s = 404 -> enveloped (respondError s message).
Proof. intros Hs. right. split; [exact Hs|]. split; [reflexivity|now exists message]. Qed.

Lemma enveloped_ok more :
  enveloped (res_json 200 (VObj (("ok", VBool true) :: more))).
Proof. now left. Qed.

(** Every answer the handlers give has the same envelope: status 200 with
    [ok: true], or status 400, 401 or 404 with [ok: false] and a message
    text.  No handler answers with any other status. *)
Theorem every_answer_enveloped (rt : runtime) (reqBody : value) (id : string) :
  enveloped getHealth
  /\ enveloped (postLogin rt reqBody)
  /\ answers enveloped (postAppointments rt reqBody)
  /\ answers enveloped (postSpares rt reqBody)
  /\ answers enveloped (postFeedback rt reqBody)
  /\ answers enveloped getFeedback
  /\ answers enveloped (postContact rt reqBody)
  /\ answers enveloped getCustomerRecords
  /\ answers enveloped (deleteCustomerRecord id).
Proof.
  split; [apply enveloped_ok|]. split.
  { unfold postLogin. destruct (_ || _); [apply enveloped_error; auto|].
    destruct (_ || _); [apply enveloped_error; auto | apply enveloped_ok]. }
  split.
  { unfold postAppointments.
    destruct (_ || _); [apply answers_ret, enveloped_error; auto|].
    repeat (apply answers_bind; intros ?). apply answers_ret, enveloped_ok. }
  split.
  { unfold postSpares.
    destruct (_ || _); [apply answers_ret, enveloped_error; auto|].
    repeat (apply answers_bind; intros ?). apply answers_ret, enveloped_ok. }
  split.
  { unfold postFeedback. apply answers_bind; intros x.
    destruct (_ || _); [apply answers_ret, enveloped_error; auto|].
    apply answers_bind; intros ?. apply answers_ret, enveloped_ok. }
  split.
  { unfold getFeedback. apply answers_bind; intros ?. apply answers_ret, enveloped_ok. }
  split.
  { unfold postContact.
    destruct (_ || _); [apply answers_ret, enveloped_error; auto|].
    apply answers_bind; intros ?. apply answers_ret, enveloped_ok. }
  split.
  { unfold getCustomerRecords. apply answers_bind; intros ?.
    apply answers_ret, enveloped_ok. }
  unfold deleteCustomerRecord. apply answers_bind; intros records.
  apply answers_bind; intros next.
  destruct (_ =? _)%nat; [apply answers_ret, enveloped_error; auto|].
  apply answers_bind; intros ?. apply answers_ret, enveloped_ok.
Qed.
